(** * IndexNow auto submitter: a shallow embedding of [indexnow_submitter.py]

    The script fetches a sitemap, subtracts the URLs recorded in a ledger
    file, posts the remainder to the IndexNow endpoint and, on success,
    appends them to the ledger.  Everything the script does to the outside
    (HTTP requests, files, sleeping, logging) is threaded through an explicit
    [world]; Python exceptions are a separate outcome of a computation so
    that [try]/[except] can be written as it is in the source.  The two
    recursive functions of the script take as fuel the depth of recursion
    that the interpreter allows. *)

From Stdlib Require Import ZArith Ascii String DecimalString DecimalNat DecimalFacts.
From stdpp Require Import gmap strings list.

Local Open Scope string_scope.
Local Open Scope Z_scope.

(** ** Python strings

    A Python [str] is modelled by a Rocq [string]: the characters are the
    code points below 256. *)

Module Py.

(** [str.isspace] on these characters: TAB, LF, VT, FF, CR, the four
    separators 0x1c-0x1f, the space, NEL (0x85) and the no-break space
    (0xa0). *)
Definition isspace (c : ascii) : bool :=
  let n := N_of_ascii c in
  ((9 <=? n)%N && (n <=? 13)%N) || ((28 <=? n)%N && (n <=? 32)%N)
  || (n =? 133)%N || (n =? 160)%N.

Fixpoint lstrip (s : string) : string :=
  match s with
  | EmptyString => EmptyString
  | String c s' => if isspace c then lstrip s' else s
  end.

Fixpoint rstrip (s : string) : string :=
  match s with
  | EmptyString => EmptyString
  | String c s' =>
      match rstrip s' with
      | EmptyString => if isspace c then EmptyString else String c EmptyString
      | r => String c r
      end
  end.

(** [s.strip()] *)
Definition strip (s : string) : string := rstrip (lstrip s).

(** Truth value of a string in a condition: non-empty. *)
Definition truthy (s : string) : bool :=
  match s with EmptyString => false | String _ _ => true end.

(** [old in s] for a non-empty [old]. *)
Fixpoint contains (old s : string) : bool :=
  String.prefix old s ||
  match s with
  | EmptyString => false
  | String _ s' => contains old s'
  end.

(** [s.replace(old, new)] for a non-empty [old]: the occurrences are found
    from the left and do not overlap.  [skip] counts the characters of an
    occurrence that are still to be passed over. *)
Fixpoint replace_from (old new : string) (skip : nat) (s : string) : string :=
  match s with
  | EmptyString => EmptyString
  | String c s' =>
      match skip with
      | S k => replace_from old new k s'
      | O =>
          if String.prefix old s
          then new ++ replace_from old new (Nat.pred (String.length old)) s'
          else String c (replace_from old new O s')
      end
  end.

Definition replace (old new s : string) : string := replace_from old new O s.

(** [str(n)] for a length and for a status code. *)
Definition str_of_nat (n : nat) : string := NilZero.string_of_uint (Nat.to_uint n).
Definition str_of_Z (z : Z) : string := NilZero.string_of_int (Z.to_int z).

(** [c * n] for a one-character string. *)
Fixpoint repeat_char (c : ascii) (n : nat) : string :=
  match n with
  | O => EmptyString
  | S n' => String c (repeat_char c n')
  end.

Definition LF : ascii := "010"%char.
Definition CR : ascii := "013"%char.
Definition NL : string := String LF EmptyString.

(** Reading a file opened in text mode translates the line ends CR LF and
    CR to LF (universal newlines).  The decoder works through the text from
    the left; [pending_cr] tells that the previous character was a CR, which
    has been translated already, so that an LF that follows it is dropped. *)
Fixpoint translate_newlines (pending_cr : bool) (s : string) : string :=
  match s with
  | EmptyString => EmptyString
  | String c s' =>
      if Ascii.eqb c CR then String LF (translate_newlines true s')
      else if Ascii.eqb c LF && pending_cr then translate_newlines false s'
      else String c (translate_newlines false s')
  end.

Definition universal_newlines (s : string) : string := translate_newlines false s.

(** The lines of a text, each with its terminating LF (the last one may
    lack it), as iterating over a file object yields them. *)
Fixpoint readlines (s : string) : list string :=
  match s with
  | EmptyString => []
  | String c s' =>
      if Ascii.eqb c LF then String c EmptyString :: readlines s'
      else
        match readlines s' with
        | [] => [String c EmptyString]
        | l :: ls => String c l :: ls
        end
  end.

(** [for line in f] on a file whose content is [content]. *)
Definition file_lines (content : string) : list string :=
  readlines (universal_newlines content).

(** [[line.strip() for line in f if line.strip()]] *)
Definition stripped_lines (content : string) : list string :=
  strip <$> filter (λ line, truthy (strip line) = true) (file_lines content).

(** What [for url in urls: f.write(url + "\n")] writes. *)
Fixpoint write_lines (urls : list string) : string :=
  match urls with
  | [] => EmptyString
  | url :: urls' => (url ++ NL) ++ write_lines urls'
  end.

End Py.

(** ** Element trees ([xml.etree.ElementTree])

    Only what the script reads of a parsed document: the tag of an element
    (a namespaced tag is written [{uri}local], as ElementTree does), its text
    ([None] for an element without text) and its child elements. *)

Module ET.

#[warnings="-register-all"]
Inductive Element : Type :=
  mkElement { tag : string; text : option string; children : list Element }.

(** [elem.iter()]: the element and its descendants, in document order. *)
Fixpoint iter (e : Element) : list Element :=
  e :: flat_map iter (children e).

(** [elem.findall(t)] for a plain tag: the children with that tag. *)
Definition findall (t : string) (e : Element) : list Element :=
  filter (λ c, tag c = t) (children e).

(** [elem.findall('.//' + t)]: the descendants with that tag, at any depth,
    in document order; the element itself is not one of them. *)
Definition findall_descendants (t : string) (e : Element) : list Element :=
  filter (λ c, tag c = t) (flat_map iter (children e)).

(** [elem.find(t)]: the first child with that tag, if any. *)
Definition find (t : string) (e : Element) : option Element :=
  head (findall t e).

End ET.

(** The prefix [sm:] of the [namespaces] dictionary of the script. *)
Definition sm (local : string) : string :=
  "{http://www.sitemaps.org/schemas/sitemap/0.9}" ++ local.

(** ** The world and computations in it *)

(** The exceptions the script tells apart, and [RecursionError], which the
    interpreter raises when a call would pass its recursion limit;
    [OtherError] stands for every other subclass of [Exception]. *)
Inductive exn : Type :=
  | ParseError | Timeout | ConnectionError | FileNotFoundError | RecursionError
  | OtherError.

Definition str_of_exn (e : exn) : string :=
  match e with
  | ParseError => "ParseError"
  | Timeout => "Timeout"
  | ConnectionError => "ConnectionError"
  | FileNotFoundError => "FileNotFoundError"
  | RecursionError => "maximum recursion depth exceeded"
  | OtherError => "Exception"
  end.

Record response : Type := Response { status_code : Z; text : string }.

(** What a request yields: a response, or an exception raised by the call. *)
Inductive reply : Type :=
  | Reply (r : response)
  | Fails (e : exn).

(** The JSON body of a submission. *)
Record payload : Type :=
  Payload { host : string; key : string; keyLocation : string; urlList : list string }.

(** The effects a run has on its surroundings, in the order they happen.
    A request is recorded when it is sent, whatever comes back. *)
Inductive event : Type :=
  | EGet (url : string)
  | EPost (url : string) (json : payload)
  | ESleep (seconds : Z).

(** [web] is what a GET of each URL yields and [endpoint k] what the
    [k]-th POST of the run yields ([posts] counts the POSTs sent so far);
    [fs] maps the name of each existing data file to its content.  The lines
    given to [log_message] are collected in [log] (the log file and the
    console, without the timestamp). *)
Record world : Type := World {
  web : string → reply;
  endpoint : nat → reply;
  posts : nat;
  fs : gmap string string;
  log : list string;
  trace : list event
}.

Definition set_fs (f : gmap string string) (w : world) : world :=
  {| web := web w; endpoint := endpoint w; posts := posts w;
     fs := f; log := log w; trace := trace w |}.

Definition add_log (line : string) (w : world) : world :=
  {| web := web w; endpoint := endpoint w; posts := posts w;
     fs := fs w; log := log w ++ [line]; trace := trace w |}.

Definition add_event (ev : event) (w : world) : world :=
  {| web := web w; endpoint := endpoint w; posts := posts w;
     fs := fs w; log := log w; trace := trace w ++ [ev] |}.

Definition count_post (w : world) : world :=
  {| web := web w; endpoint := endpoint w; posts := S (posts w);
     fs := fs w; log := log w; trace := trace w |}.

(** A computation returns a value or raises an exception.  The two
    recursive functions of the script take the depth of recursion that the
    interpreter still allows as their fuel: [OutOfFuel] is the outcome of
    calling one of them from outside with room for no call at all, and a
    nested call for which no room is left raises [RecursionError] in the
    caller (see [nested]). *)
Inductive result (A : Type) : Type :=
  | Ret (a : A) (w : world)
  | Exc (e : exn) (w : world)
  | OutOfFuel.
Arguments Ret {A} a w.
Arguments Exc {A} e w.
Arguments OutOfFuel {A}.

Definition M (A : Type) : Type := world → result A.

Definition ret {A} (a : A) : M A := λ w, Ret a w.
Definition raise {A} (e : exn) : M A := λ w, Exc e w.
Definition out_of_fuel {A} : M A := λ _, OutOfFuel.

Definition bind {A B} (m : M A) (k : A → M B) : M B :=
  λ w, match m w with
       | Ret a w' => k a w'
       | Exc e w' => Exc e w'
       | OutOfFuel => OutOfFuel
       end.

(** [try: m except ...: h e] where the clauses together catch every
    exception. *)
Definition try_except {A} (m : M A) (h : exn → M A) : M A :=
  λ w, match m w with
       | Exc e w' => h e w'
       | r => r
       end.

Declare Scope io_scope.
Delimit Scope io_scope with io.
Notation "x <- m ;; k" := (bind m (λ x, k))
  (at level 100, m at next level, right associativity) : io_scope.
Notation "m ;; k" := (bind m (λ _, k))
  (at level 100, right associativity) : io_scope.
Local Open Scope io_scope.

(** [for x in xs: urls = body x urls] *)
Fixpoint for_each {A B} (xs : list A) (body : A → B → M B) (acc : B) : M B :=
  match xs with
  | [] => ret acc
  | x :: xs' => acc' <- body x acc ;; for_each xs' body acc'
  end.

(** A call of a recursive function from its own body, with room for
    [fuel] more calls: with none left the interpreter raises
    [RecursionError] at the call.  (The calls that the body makes to the
    logger and to the libraries are taken to fit.) *)
Definition nested {A} (fuel : nat) (m : M A) : M A :=
  match fuel with
  | O => raise RecursionError
  | S _ => m
  end.

Definition log_message (message : string) : M unit :=
  λ w, Ret tt (add_log message w).

Definition sleep (seconds : Z) : M unit :=
  λ w, Ret tt (add_event (ESleep seconds) w).

Definition session_get (url : string) : M response :=
  λ w, let w' := add_event (EGet url) w in
       match web w url with
       | Reply r => Ret r w'
       | Fails e => Exc e w'
       end.

Definition session_post (url : string) (json : payload) : M response :=
  λ w, let w' := count_post (add_event (EPost url json) w) in
       match endpoint w (posts w) with
       | Reply r => Ret r w'
       | Fails e => Exc e w'
       end.

(** [open(filename, "r").read()] *)
Definition read_file (filename : string) : M string :=
  λ w, match fs w !! filename with
       | Some content => Ret content w
       | None => Exc FileNotFoundError w
       end.

(** Writing [data] through [open(filename, "a")].  The data files of the
    script are taken to be writable: opening them for writing does not
    fail. *)
Definition append_file (filename data : string) : M unit :=
  λ w, Ret tt (set_fs (<[filename := default EmptyString (fs w !! filename) ++ data]> (fs w)) w).

(** Writing [data] through [open(filename, "w")], under the same
    assumption. *)
Definition write_file (filename data : string) : M unit :=
  λ w, Ret tt (set_fs (<[filename := data]> (fs w)) w).

(** ** Scenarios *)

Module Demo.

Definition API_KEY : string := "3f1c9a7e5b2d4c68".
Definition SITE_URL : string := "https://example.org".
Definition SITEMAP_URL : string := "https://example.org/sitemap.xml".

Definition page (u : string) : ET.Element :=
  ET.mkElement (sm "url") None [ET.mkElement (sm "loc") (Some u) []].

Definition plain_page (u : string) : ET.Element :=
  ET.mkElement "url" None [ET.mkElement "loc" (Some u) []].

Definition sub_sitemap (u : string) : ET.Element :=
  ET.mkElement (sm "sitemap") None [ET.mkElement (sm "loc") (Some u) []].

(** A leaf sitemap with three pages. *)
Definition leaf : ET.Element :=
  ET.mkElement (sm "urlset") None
    [page "https://example.org/"; page " https://example.org/a "; page "https://example.org/b"].

(** A sitemap without namespace. *)
Definition plain_leaf : ET.Element :=
  ET.mkElement "urlset" None
    [plain_page "https://example.org/p"; plain_page "https://example.org/q"].

(** A sitemap index. *)
Definition index : ET.Element :=
  ET.mkElement (sm "sitemapindex") None
    [sub_sitemap "https://example.org/leaf.xml"; sub_sitemap "https://example.org/plain.xml"].

(** A document that lists both a page and sub-sitemaps. *)
Definition mixed : ET.Element :=
  ET.mkElement (sm "urlset") None
    [sub_sitemap "https://example.org/leaf.xml"; page "https://example.org/m";
     sub_sitemap "https://example.org/plain.xml"].

(** The pages [page-0] to [page-10000] of the site: 10,001 URLs. *)
Definition many_urls : list string :=
  (λ k, "https://example.org/page-" ++ Py.str_of_nat k) <$> seq 0 (Z.to_nat 10001).

(** The sitemap that lists them all. *)
Definition big : ET.Element :=
  ET.mkElement (sm "urlset") None (page <$> many_urls).

Definition BIG_SITEMAP_URL : string := "https://example.org/big.xml".

(** The parser on the bodies the demo site serves. *)
Definition ET_fromstring (body : string) : option ET.Element :=
  if String.eqb body "<leaf/>" then Some leaf
  else if String.eqb body "<big/>" then Some big
  else if String.eqb body "<plain/>" then Some plain_leaf
  else if String.eqb body "<index/>" then Some index
  else if String.eqb body "<mixed/>" then Some mixed
  else None.

Definition site (url : string) : reply :=
  if String.eqb url "https://example.org/sitemap.xml" then Reply (Response 200 "<index/>")
  else if String.eqb url "https://example.org/leaf.xml" then Reply (Response 200 "<leaf/>")
  else if String.eqb url "https://example.org/big.xml" then Reply (Response 200 "<big/>")
  else if String.eqb url "https://example.org/plain.xml" then Reply (Response 200 "<plain/>")
  else if String.eqb url "https://example.org/mixed.xml" then Reply (Response 200 "<mixed/>")
  else if String.eqb url "https://example.org/broken.xml" then Reply (Response 200 "<urlset>")
  else if String.eqb url "https://example.org/slow.xml" then Fails Timeout
  else if String.eqb url "https://example.org/down.xml" then Fails ConnectionError
  else Reply (Response 404 "Not Found").

(** An endpoint that gives the listed status codes in turn, and 200 after them. *)
Definition mock (statuses : list Z) (k : nat) : reply :=
  Reply (Response (nth k statuses 200) EmptyString).

(** The state before a first run against an endpoint. *)
Definition start (e : nat → reply) : world :=
  {| web := site; endpoint := e; posts := O; fs := ∅; log := []; trace := [] |}.

Definition two_urls : list string := ["https://example.org/a"; "https://example.org/b"].

End Demo.

(** ** The script *)

Definition LOG_FILE : string := "indexnow_log.txt".
Definition URLS_FILE : string := "urls_to_submit.txt".
Definition SUBMITTED_URLS_FILE : string := "submitted_urls.txt".
Definition INDEXNOW_ENDPOINT : string := "https://api.indexnow.org/indexnow".

Section Script.

(** The configuration block at the top of the script, to be edited by the
    user before a run. *)
Variables API_KEY SITE_URL SITEMAP_URL : string.

(** [ET.fromstring]: the parser of the XML library; [None] when it raises
    [ParseError]. *)
Variable ET_fromstring : string → option ET.Element.

(** [list(s)] for a set [s]: the elements in an order the language does not
    fix. *)
Variable list_of_set : gset string → list string.
Hypothesis list_of_set_perm : ∀ X : gset string, list_of_set X ≡ₚ elements X.

Set Default Proof Using "Type".

(** The body of the two loops over [<url>] elements: the stripped text of
    the [loc] child of each element that has one with a non-empty text. *)
Definition loc_urls (loc : string) (elems : list ET.Element) : list string :=
  omap (λ url_elem,
          match ET.find loc url_elem with
          | Some loc_elem =>
              match ET.text loc_elem with
              | Some t => if Py.truthy t then Some (Py.strip t) else None
              | None => None
              end
          | None => None
          end) elems.

Fixpoint fetch_sitemap_urls (fuel : nat) (sitemap_url : string) : M (list string) :=
  match fuel with
  | O => out_of_fuel
  | S fuel' =>
      log_message ("Fetching sitemap from " ++ sitemap_url) ;;
      try_except
        (response <- session_get sitemap_url ;;
         if negb (status_code response =? 200) then
           log_message ("Failed to fetch sitemap: HTTP " ++ Py.str_of_Z (status_code response)) ;;
           ret []
         else
           root <- match ET_fromstring (text response) with
                   | Some root => ret root
                   | None => raise ParseError
                   end ;;
           (* Try to find URLs with namespace *)
           let urls := loc_urls (sm "loc") (ET.findall (sm "url") root) in
           (* Fallback: try without namespace *)
           let urls :=
             match urls with
             | [] => loc_urls "loc" (ET.findall_descendants "url" root)
             | _ => urls
             end in
           (* Check if this is a sitemap index (contains sub-sitemaps) *)
           urls <- match urls with
                   | [] =>
                       for_each (ET.findall (sm "sitemap") root)
                         (λ sitemap_elem urls,
                            match ET.find (sm "loc") sitemap_elem with
                            | Some loc_elem =>
                                match ET.text loc_elem with
                                | Some t =>
                                    if Py.truthy t then
                                      log_message ("Found sub-sitemap: " ++ t) ;;
                                      sub_urls <- nested fuel' (fetch_sitemap_urls fuel' (Py.strip t)) ;;
                                      let urls := (urls ++ sub_urls)%list in
                                      sleep 1 ;;
                                      ret urls
                                    else ret urls
                                | None => ret urls
                                end
                            | None => ret urls
                            end) urls
                   | _ => ret urls
                   end ;;
           match urls with
           | [] => log_message "No URLs found in sitemap."
           | _ => log_message ("Found " ++ Py.str_of_nat (length urls) ++ " URLs in sitemap.")
           end ;;
           ret urls)
        (λ e,
           match e with
           | ParseError =>
               log_message ("XML parsing error: " ++ str_of_exn e) ;; ret []
           | Timeout =>
               log_message "Request timed out" ;; ret []
           | ConnectionError =>
               log_message ("Connection error: " ++ str_of_exn e) ;; ret []
           | _ =>
               log_message ("Error fetching sitemap: " ++ str_of_exn e) ;;
               log_message ("Traceback: " ++ str_of_exn e) ;;
               ret []
           end)
  end.

Definition load_submitted_urls : M (gset string) :=
  try_except
    (content <- read_file SUBMITTED_URLS_FILE ;;
     let urls : gset string := list_to_set (Py.stripped_lines content) in
     log_message ("Loaded " ++ Py.str_of_nat (size urls) ++ " previously submitted URLs") ;;
     ret urls)
    (λ e,
       match e with
       | FileNotFoundError =>
           log_message "No previous submission history found. This is the first run." ;;
           ret ∅
       | _ =>
           log_message ("Error loading submitted URLs: " ++ str_of_exn e) ;;
           ret ∅
       end).

Definition save_submitted_urls (urls : list string) : M bool :=
  try_except
    (append_file SUBMITTED_URLS_FILE (Py.write_lines urls) ;;
     log_message ("Added " ++ Py.str_of_nat (length urls) ++ " URLs to submission history") ;;
     ret true)
    (λ e,
       log_message ("Error saving submitted URLs: " ++ str_of_exn e) ;;
       ret false).

Definition get_new_urls (all_urls : list string) (submitted_urls : gset string) : list string :=
  let all_urls_set : gset string := list_to_set all_urls in
  let new_urls := all_urls_set ∖ submitted_urls in
  list_of_set new_urls.

Definition save_urls_to_file (urls : list string) (filename : string) : M bool :=
  try_except
    (write_file filename (Py.write_lines urls) ;;
     log_message ("Saved " ++ Py.str_of_nat (length urls) ++ " URLs to " ++ filename) ;;
     ret true)
    (λ e,
       log_message ("Error saving URLs to file: " ++ str_of_exn e) ;;
       ret false).

Definition load_urls_from_file (filename : string) : M (list string) :=
  try_except
    (content <- read_file filename ;;
     let urls := Py.stripped_lines content in
     log_message ("Loaded " ++ Py.str_of_nat (length urls) ++ " URLs from " ++ filename) ;;
     ret urls)
    (λ e,
       match e with
       | FileNotFoundError =>
           log_message ("File not found: " ++ filename) ;; ret []
       | _ =>
           log_message ("Error loading URLs from file: " ++ str_of_exn e) ;; ret []
       end).

(** The [payload] dictionary that [submit_to_indexnow] prepares. *)
Definition make_payload (urls : list string) : payload :=
  {| host := Py.replace "http://" "" (Py.replace "https://" "" SITE_URL);
     key := API_KEY;
     keyLocation := SITE_URL ++ "/" ++ API_KEY ++ ".txt";
     urlList := urls |}.

Fixpoint submit_to_indexnow (fuel : nat) (urls : list string) : M bool :=
  match fuel with
  | O => out_of_fuel
  | S fuel' =>
      match urls with
      | [] => log_message "No URLs to submit" ;; ret false
      | _ =>
          (* IndexNow has a limit of 10,000 URLs per request *)
          urls <- (if 10000 <? Z.of_nat (length urls) then
                     log_message ("WARNING: You have " ++ Py.str_of_nat (length urls)
                                  ++ " URLs. IndexNow allows max 10,000 per request.") ;;
                     log_message "Submitting first 10,000 URLs only." ;;
                     ret (take (Z.to_nat 10000) urls)
                   else ret urls) ;;
          let payload := make_payload urls in
          try_except
            (log_message ("Submitting " ++ Py.str_of_nat (length urls) ++ " URLs to IndexNow...") ;;
             response <- session_post INDEXNOW_ENDPOINT payload ;;
             let status := status_code response in
             if (status =? 200) || (status =? 202) then
               log_message ("✓ SUCCESS: " ++ Py.str_of_nat (length urls)
                            ++ " URLs submitted successfully (HTTP " ++ Py.str_of_Z status ++ ")") ;;
               ret true
             else if status =? 400 then
               log_message "✗ ERROR 400: Bad Request - Invalid payload format" ;;
               log_message ("Response: " ++ text response) ;;
               ret false
             else if status =? 403 then
               log_message "✗ ERROR 403: Forbidden - Invalid or missing key file" ;;
               log_message ("Make sure " ++ SITE_URL ++ "/" ++ API_KEY
                            ++ ".txt exists and contains: " ++ API_KEY) ;;
               ret false
             else if status =? 422 then
               log_message "✗ ERROR 422: Unprocessable Entity - URLs don't match host or key mismatch" ;;
               log_message ("Response: " ++ text response) ;;
               ret false
             else if status =? 429 then
               log_message "⚠ ERROR 429: Too Many Requests - Rate limited" ;;
               log_message "Waiting 5 minutes before retry..." ;;
               sleep 300 ;;
               nested fuel' (submit_to_indexnow fuel' urls)
             else
               log_message ("✗ Unexpected error HTTP " ++ Py.str_of_Z status ++ ": " ++ text response) ;;
               ret false)
            (λ e,
               match e with
               | Timeout =>
                   log_message "✗ Request timed out. Try reducing the number of URLs or check your connection." ;;
                   ret false
               | _ =>
                   log_message ("✗ Exception occurred: " ++ str_of_exn e) ;;
                   log_message ("Traceback: " ++ str_of_exn e) ;;
                   ret false
               end)
      end
  end.

Definition validate_configuration : M bool :=
  if String.eqb API_KEY "your-api-key-here" then
    log_message "ERROR: Please update API_KEY in the configuration section!" ;;
    ret false
  else if Py.contains "yourdomain.com" SITE_URL then
    log_message "ERROR: Please update SITE_URL in the configuration section!" ;;
    ret false
  else if Py.contains "yourdomain.com" SITEMAP_URL then
    log_message "ERROR: Please update SITEMAP_URL in the configuration section!" ;;
    ret false
  else ret true.

Definition rule : string := Py.repeat_char "=" 60.

(** Steps 6 and 7 of [main]: submit, and record in the ledger on success.
    Returns [success]. *)
Definition submit_and_record (fuel : nat) (urls_to_submit : list string) : M bool :=
  log_message (Py.NL ++ "Step 6: Submitting new URLs to IndexNow...") ;;
  success <- submit_to_indexnow fuel urls_to_submit ;;
  (if success : bool then
     log_message (Py.NL ++ "Step 7: Updating submission history...") ;;
     save_submitted_urls urls_to_submit ;;
     ret tt
   else
     log_message (Py.NL ++ "Submission failed. URLs not added to history.") ;;
     log_message "You can retry by running the script again.") ;;
  ret success.

Definition main (fuel : nat) : M unit :=
  log_message rule ;;
  log_message "IndexNow Auto Submitter - Starting" ;;
  log_message rule ;;
  valid <- validate_configuration ;;
  if negb valid then
    log_message "Please update the configuration section at the top of the script." ;;
    log_message (rule ++ Py.NL)
  else
  log_message (Py.NL ++ "Step 1: Fetching URLs from sitemap...") ;;
  all_urls <- fetch_sitemap_urls fuel SITEMAP_URL ;;
  match all_urls with
  | [] =>
      log_message "No URLs found in sitemap. Exiting." ;;
      log_message (rule ++ Py.NL)
  | _ =>
  log_message ("Total URLs in sitemap: " ++ Py.str_of_nat (length all_urls)) ;;
  log_message (Py.NL ++ "Step 2: Loading submission history...") ;;
  submitted_urls <- load_submitted_urls ;;
  log_message (Py.NL ++ "Step 3: Identifying new URLs...") ;;
  let new_urls := get_new_urls all_urls submitted_urls in
  match new_urls with
  | [] =>
      log_message "✓ No new URLs found. All URLs have been previously submitted." ;;
      log_message (rule ++ Py.NL)
  | _ =>
  log_message ("Found " ++ Py.str_of_nat (length new_urls) ++ " NEW URLs to submit") ;;
  log_message (Py.NL ++ "Step 4: Saving new URLs to " ++ URLS_FILE ++ "...") ;;
  saved <- save_urls_to_file new_urls URLS_FILE ;;
  if negb saved then
    log_message "Failed to save URLs. Exiting." ;;
    log_message (rule ++ Py.NL)
  else
  log_message (Py.NL ++ "Step 5: Loading URLs from " ++ URLS_FILE ++ "...") ;;
  urls_to_submit <- load_urls_from_file URLS_FILE ;;
  match urls_to_submit with
  | [] =>
      log_message "No URLs loaded from file. Exiting." ;;
      log_message (rule ++ Py.NL)
  | _ =>
  success <- submit_and_record fuel urls_to_submit ;;
  log_message (Py.NL ++ rule) ;;
  log_message "Submission Summary" ;;
  log_message rule ;;
  log_message ("Total URLs in sitemap: " ++ Py.str_of_nat (length all_urls)) ;;
  log_message ("Previously submitted: " ++ Py.str_of_nat (size submitted_urls)) ;;
  log_message ("New URLs found: " ++ Py.str_of_nat (length new_urls)) ;;
  log_message ("Submission status: " ++ (if success : bool then "✓ SUCCESS" else "✗ FAILED")) ;;
  log_message ("New URLs file: " ++ URLS_FILE) ;;
  log_message ("History file: " ++ SUBMITTED_URLS_FILE) ;;
  log_message (rule ++ Py.NL)
  end end end.

(** ** Vocabulary of the specification *)

(** The batch of one call: the first 10,000 URLs of a longer list. *)
Definition batch (urls : list string) : list string :=
  if 10000 <? Z.of_nat (length urls) then take (Z.to_nat 10000) urls else urls.

(** The statuses that count as success. *)
Definition accepted (status : Z) : bool := (status =? 200) || (status =? 202).

(** The endpoint answers the next [n] requests with status 429. *)
Definition rate_limited (w : world) (n : nat) : Prop :=
  ∀ i, (i < n)%nat → ∃ r, endpoint w (posts w + i)%nat = Reply r ∧ status_code r = 429.

(** A reply that ends the retries: anything but a response with status 429. *)
Definition final_reply (o : reply) : Prop :=
  match o with
  | Reply r => status_code r ≠ 429
  | Fails _ => True
  end.

(** What [submit_to_indexnow] returns on a final reply. *)
Definition success_of (o : reply) : bool :=
  match o with
  | Reply r => accepted (status_code r)
  | Fails _ => false
  end.

(** The request of a batch. *)
Definition request (urls : list string) : event :=
  EPost INDEXNOW_ENDPOINT (make_payload urls).

(** [n] requests of the same batch, each followed by the cooldown of 300
    seconds, and then one more request. *)
Fixpoint attempts (n : nat) (urls : list string) : list event :=
  match n with
  | O => [request urls]
  | S n' => request urls :: ESleep 300 :: attempts n' urls
  end.

Definition is_cooldown (ev : event) : bool :=
  match ev with ESleep seconds => seconds =? 300 | _ => false end.

Definition is_request (ev : event) : bool :=
  match ev with EGet _ | EPost _ _ => true | ESleep _ => false end.

(** An URL entry of a sitemap: an element (of the tag looked for) whose
    first [loc] child has a text that is not empty. *)
Definition is_entry (loc : string) (e : ET.Element) : bool :=
  match ET.find loc e with
  | Some loc_elem => match ET.text loc_elem with Some t => Py.truthy t | None => false end
  | None => false
  end.

(** The URL an entry stands for. *)
Definition entry_url (loc : string) (e : ET.Element) : string :=
  match ET.find loc e with
  | Some loc_elem => Py.strip (default EmptyString (ET.text loc_elem))
  | None => EmptyString
  end.

(** The entries of the namespaced pass, and those of the pass without
    namespace, each in document order. *)
Definition namespaced_entries (root : ET.Element) : list ET.Element :=
  filter (λ e, is_entry (sm "loc") e = true)
         (filter (λ e, ET.tag e = sm "url") (ET.children root)).

Definition plain_entries (root : ET.Element) : list ET.Element :=
  filter (λ e, is_entry "loc" e = true)
         (filter (λ e, ET.tag e = "url") (flat_map ET.iter (ET.children root))).

(** The URLs of the pass that applies: the namespaced entries if there are
    any, the entries without namespace otherwise. *)
Definition page_urls (root : ET.Element) : list string :=
  match namespaced_entries root with
  | [] => entry_url "loc" <$> plain_entries root
  | _ => entry_url (sm "loc") <$> namespaced_entries root
  end.

(** The sub-sitemap entries of a sitemap index. *)
Definition sitemap_entries (root : ET.Element) : list ET.Element :=
  filter (λ e, is_entry (sm "loc") e = true) (ET.findall (sm "sitemap") root).

(** A string that comes back from a line-per-entry file as it went in: not
    empty, nothing to strip at its ends, no line break inside. *)
Fixpoint no_line_break (s : string) : bool :=
  match s with
  | EmptyString => true
  | String c s' => negb (Ascii.eqb c Py.LF) && negb (Ascii.eqb c Py.CR) && no_line_break s'
  end.

Definition is_line (s : string) : bool :=
  Py.truthy s && String.eqb (Py.strip s) s && no_line_break s.

(** A string without white space. *)
Fixpoint no_space (s : string) : bool :=
  match s with
  | EmptyString => true
  | String c s' => negb (Py.isspace c) && no_space s'
  end.

(** A file content that is empty or ends with a line feed. *)
Fixpoint line_terminated (s : string) : bool :=
  match s with
  | EmptyString => true
  | String c s' =>
      match s' with
      | EmptyString => Ascii.eqb c Py.LF
      | String _ _ => line_terminated s'
      end
  end.

(** A line of white space only, without its line end. *)
Fixpoint is_blank (s : string) : bool :=
  match s with
  | EmptyString => true
  | String c s' =>
      Py.isspace c && negb (Ascii.eqb c Py.LF) && negb (Ascii.eqb c Py.CR) && is_blank s'
  end.

(** The ledger as [load_submitted_urls] reads it from a file system. *)
Definition ledger (files : gmap string string) : gset string :=
  match files !! SUBMITTED_URLS_FILE with
  | Some content => list_to_set (Py.stripped_lines content)
  | None => ∅
  end.

(** [w'] is [w] after [k] more POSTs and the events [evs], the files
    untouched. *)
Definition after (w : world) (k : nat) (evs : list event) (w' : world) : Prop :=
  web w' = web w ∧ endpoint w' = endpoint w ∧ fs w' = fs w ∧
  posts w' = (posts w + k)%nat ∧ trace w' = (trace w ++ evs)%list.

(** ** Further vocabulary *)

(** A submission request among the events. *)
Definition is_post (ev : event) : bool :=
  match ev with EPost _ _ => true | _ => false end.

(** What the fetcher returns for a document that needs no nested call: the
    page URLs of a document that was retrieved and parsed, nothing for a
    document that was not, and [None] for a sitemap index with sub-sitemap
    entries. *)
Definition flat_urls (w : world) (url : string) : option (list string) :=
  match web w url with
  | Reply r =>
      if status_code r =? 200 then
        match ET_fromstring (text r) with
        | Some root =>
            match page_urls root, sitemap_entries root with
            | [], _ :: _ => None
            | urls, _ => Some urls
            end
        | None => Some []
        end
      else Some []
  | Fails _ => Some []
  end.

(** A line as the file object yields it: no line break but, at most, the
    line feed at its end. *)
Definition line_shape (l : string) : Prop :=
  ∃ body, no_line_break body = true ∧ (l = body ∨ l = body ++ Py.NL).

(** [w'] is [w] after requests for documents and pauses only: the files
    and the count of submissions are what they were. *)
Definition quiet (w w' : world) : Prop :=
  web w' = web w ∧ endpoint w' = endpoint w ∧ fs w' = fs w ∧ posts w' = posts w ∧
  ∃ evs, trace w' = (trace w ++ evs)%list ∧ Forall (λ ev, is_post ev = false) evs.

(** The ledger file of [w'] is that of [w] with something appended, and
    the files other than the ledger and the staging file are what they
    were. *)
Definition ledger_extended (w w' : world) : Prop :=
  (∃ added, default EmptyString (fs w' !! SUBMITTED_URLS_FILE)
            = default EmptyString (fs w !! SUBMITTED_URLS_FILE) ++ added) ∧
  (∀ filename, filename ≠ SUBMITTED_URLS_FILE → filename ≠ URLS_FILE →
               fs w' !! filename = fs w !! filename).

(** A computation that never ends in an exception. *)
Definition safe {A} (m : M A) : Prop := ∀ w e w', m w ≠ Exc e w'.

(** A computation keeps a relation between the world it starts in and the
    world it ends in, whether it returns or raises. *)
Definition preserves (R : world → world → Prop) {A} (m : M A) : Prop :=
  ∀ w, match m w with
       | Ret _ w' => R w w'
       | Exc _ w' => R w w'
       | OutOfFuel => True
       end.

(** [n] requests of the same batch, each followed by the cooldown, and no
    request after the last cooldown: what a call has done when every reply
    was a 429 and no room is left for the retry. *)
Fixpoint retried (n : nat) (urls : list string) : list event :=
  match n with
  | O => []
  | S n' => request urls :: ESleep 300 :: retried n' urls
  end.


(** A sub-sitemap entry of a sitemap index,
    [<sitemap><loc>text</loc></sitemap>]. *)
Definition sitemap_entry (loc_text : string) : ET.Element :=
  ET.mkElement (sm "sitemap") None [ET.mkElement (sm "loc") (Some loc_text) []].


(** A submission as the endpoint expects it: sent to the endpoint, with at
    least one and at most 10,000 URLs, each of them a line. *)
Definition well_formed_post (ev : event) : Prop :=
  match ev with
  | EPost url json =>
      url = INDEXNOW_ENDPOINT ∧ urlList json ≠ [] ∧
      Z.of_nat (length (urlList json)) ≤ 10000 ∧
      Forall (λ u, is_line u = true) (urlList json)
  | _ => True
  end.

(** The events between [w] and [w'] hold well-formed submissions only. *)
Definition sends_well (w w' : world) : Prop :=
  ∃ evs, trace w' = (trace w ++ evs)%list ∧ Forall well_formed_post evs.

(** Unfolding the computations of the script, and closing a goal about
    what a run left untouched. *)
Ltac run :=
  unfold bind, try_except, log_message, session_get, session_post, sleep,
         read_file, append_file, write_file, ret, raise, out_of_fuel;
  cbn.

Ltac frame :=
  unfold after; cbn; rewrite <- ?app_assoc, ?app_nil_r, ?Nat.add_0_r; cbn;
  repeat split; lia.

(** ** Facts about the string functions *)

Section StringFacts.

Lemma append_cons c (s t : string) : String c s ++ t = String c (s ++ t).
Proof. reflexivity. Qed.

Lemma append_nil_l (t : string) : EmptyString ++ t = t.
Proof. reflexivity. Qed.

Lemma append_nil_r (s : string) : s ++ EmptyString = s.
Proof. induction s as [|c s IH]; [done | by rewrite append_cons, IH]. Qed.

Lemma append_assoc (s1 s2 s3 : string) : (s1 ++ s2) ++ s3 = s1 ++ (s2 ++ s3).
Proof. induction s1 as [|c s1 IH]; [done | by rewrite !append_cons, IH]. Qed.

Lemma rstrip_line (s : string) : Py.rstrip (s ++ Py.NL) = Py.rstrip s.
Proof.
  induction s as [|c s IH]; [done|].
  rewrite append_cons. simpl. by rewrite IH.
Qed.

Lemma lstrip_line (s : string) :
  Py.lstrip (s ++ Py.NL) = Py.lstrip s ++ Py.NL ∨
  (Py.lstrip (s ++ Py.NL) = EmptyString ∧ Py.lstrip s = EmptyString).
Proof.
  induction s as [|c s IH]; [by right|].
  rewrite append_cons. simpl.
  destruct (Py.isspace c); [done | by left].
Qed.

(** Stripping a line is stripping it without its line end. *)
Lemma strip_line (s : string) : Py.strip (s ++ Py.NL) = Py.strip s.
Proof.
  unfold Py.strip. destruct (lstrip_line s) as [-> | [-> ->]]; [|done].
  apply rstrip_line.
Qed.

Lemma no_line_break_cons c s :
  no_line_break (String c s) = true →
  Ascii.eqb c Py.LF = false ∧ Ascii.eqb c Py.CR = false ∧ no_line_break s = true.
Proof.
  simpl. destruct (Ascii.eqb c Py.LF), (Ascii.eqb c Py.CR); simpl; intros H;
    try discriminate H. done.
Qed.

(** The decoder leaves a line without CR as it is. *)
Lemma translate_no_line_break (s rest : string) :
  no_line_break s = true →
  Py.translate_newlines false (s ++ Py.NL ++ rest)
  = s ++ Py.NL ++ Py.translate_newlines false rest.
Proof.
  induction s as [|c s IH]; intros H.
  - reflexivity.
  - apply no_line_break_cons in H as (HLF & HCR & H).
    rewrite !append_cons. cbn [Py.translate_newlines]. rewrite HCR, HLF. cbn [andb].
    by rewrite IH.
Qed.

Lemma translate_write_lines (urls : list string) :
  Forall (λ u, no_line_break u = true) urls →
  Py.universal_newlines (Py.write_lines urls) = Py.write_lines urls.
Proof.
  unfold Py.universal_newlines.
  induction 1 as [|u urls Hu _ IH]; [done|].
  cbn [Py.write_lines]. rewrite append_assoc.
  rewrite translate_no_line_break by done. by rewrite IH.
Qed.

Lemma line_terminated_cons c s :
  line_terminated (String c s) = true →
  (s = EmptyString ∧ c = Py.LF) ∨ (s ≠ EmptyString ∧ line_terminated s = true).
Proof.
  simpl. destruct s as [|d s].
  - intros H%Ascii.eqb_eq. by left.
  - intros H. by right.
Qed.

(** Across a boundary that follows a line feed the decoder starts afresh. *)
Lemma translate_app (b : bool) (s1 s2 : string) :
  line_terminated s1 = true → s1 ≠ EmptyString →
  Py.translate_newlines b (s1 ++ s2)
  = Py.translate_newlines b s1 ++ Py.translate_newlines false s2.
Proof.
  revert b. induction s1 as [|c s1 IH]; intros b Hlt Hne; [done|].
  apply line_terminated_cons in Hlt as [[-> ->] | [Hne' Hlt]].
  - rewrite append_cons, append_nil_l. by destruct b.
  - rewrite append_cons. cbn [Py.translate_newlines].
    destruct (Ascii.eqb c Py.CR); [by rewrite IH|].
    destruct (Ascii.eqb c Py.LF && b); by rewrite IH.
Qed.

Lemma universal_newlines_app (s1 s2 : string) :
  line_terminated s1 = true →
  Py.universal_newlines (s1 ++ s2)
  = Py.universal_newlines s1 ++ Py.universal_newlines s2.
Proof.
  intros H. destruct s1 as [|c s1]; [done|]. by apply translate_app.
Qed.

(** The decoder gives nothing only for no input, or for the LF of a line
    end CR LF. *)
Lemma translate_empty (b : bool) (s : string) :
  Py.translate_newlines b s = EmptyString →
  s = EmptyString ∨ (b = true ∧ s = Py.NL).
Proof.
  destruct s as [|c s]; [by left|]. cbn [Py.translate_newlines].
  destruct (Ascii.eqb c Py.CR); [done|].
  destruct (Ascii.eqb c Py.LF) eqn:Ec; [|done].
  destruct b; [|done]. cbn [andb]. apply Ascii.eqb_eq in Ec as ->.
  destruct s as [|d s]; [by right|]. cbn [Py.translate_newlines].
  destruct (Ascii.eqb d Py.CR); [done|]. by rewrite andb_false_r.
Qed.

Lemma line_terminated_translate (b : bool) (s : string) :
  line_terminated s = true → line_terminated (Py.translate_newlines b s) = true.
Proof.
  revert b. induction s as [|c s IH]; intros b Hlt; [done|].
  apply line_terminated_cons in Hlt as [[-> ->] | [Hne Hlt]].
  - by destruct b.
  - cbn [Py.translate_newlines].
    destruct (Ascii.eqb c Py.CR) eqn:Ec.
    + specialize (IH true Hlt). cbn [line_terminated].
      destruct (Py.translate_newlines true s) eqn:E; done.
    + destruct (Ascii.eqb c Py.LF && b); [by apply IH|].
      specialize (IH false Hlt). cbn [line_terminated].
      destruct (Py.translate_newlines false s) eqn:E; [|done].
      apply translate_empty in E as [-> | [? _]]; done.
Qed.

(** A text that ends with a line feed is read line by line independently of
    what follows it. *)
Lemma readlines_app (s1 s2 : string) :
  line_terminated s1 = true →
  Py.readlines (s1 ++ s2) = (Py.readlines s1 ++ Py.readlines s2)%list.
Proof.
  induction s1 as [|c s1 IH]; intros Hlt; [done|].
  rewrite append_cons. cbn [Py.readlines].
  apply line_terminated_cons in Hlt as [[-> ->] | [Hne Hlt]]; [done|].
  rewrite IH by done.
  destruct (Ascii.eqb c Py.LF); [done|].
  destruct s1 as [|d s1]; [done|]. cbn [Py.readlines].
  destruct (Ascii.eqb d Py.LF); [done|].
  by destruct (Py.readlines s1).
Qed.

Lemma readlines_line (u rest : string) :
  no_line_break u = true →
  Py.readlines (u ++ Py.NL ++ rest) = (u ++ Py.NL) :: Py.readlines rest.
Proof.
  induction u as [|c u IH]; intros H; [done|].
  apply no_line_break_cons in H as (HLF & _ & H).
  rewrite !append_cons. cbn [Py.readlines]. rewrite HLF. by rewrite IH.
Qed.

Lemma readlines_write_lines (urls : list string) :
  Forall (λ u, no_line_break u = true) urls →
  Py.readlines (Py.write_lines urls) = (λ u, u ++ Py.NL) <$> urls.
Proof.
  induction 1 as [|u urls Hu _ IH]; [done|].
  cbn [Py.write_lines]. rewrite append_assoc, readlines_line by done.
  by rewrite IH.
Qed.

Lemma is_line_spec (u : string) :
  is_line u = true ↔ Py.truthy u = true ∧ Py.strip u = u ∧ no_line_break u = true.
Proof.
  unfold is_line. rewrite !andb_true_iff, String.eqb_eq.
  split; [intros [[? ?] ?] | intros (? & ? & ?)]; done.
Qed.

Lemma stripped_lines_app (s1 s2 : string) :
  line_terminated s1 = true →
  Py.stripped_lines (s1 ++ s2) = (Py.stripped_lines s1 ++ Py.stripped_lines s2)%list.
Proof.
  intros Hlt. unfold Py.stripped_lines, Py.file_lines.
  rewrite universal_newlines_app by done.
  rewrite readlines_app by (by apply line_terminated_translate).
  by rewrite filter_app, fmap_app.
Qed.

(** Lines that were written come back as they were. *)
Lemma stripped_lines_write_lines (urls : list string) :
  Forall (λ u, is_line u = true) urls →
  Py.stripped_lines (Py.write_lines urls) = urls.
Proof.
  intros Hurls. unfold Py.stripped_lines, Py.file_lines.
  assert (Forall (λ u, no_line_break u = true) urls) as Hnb.
  { eapply Forall_impl; [done|]. by intros u (_ & _ & Hu)%is_line_spec. }
  rewrite translate_write_lines, readlines_write_lines by done.
  clear Hnb. induction Hurls as [|u urls Hu%is_line_spec _ IH]; [done|].
  destruct Hu as (Ht & Hs & _).
  rewrite fmap_cons, filter_cons_True by (by rewrite strip_line, Hs).
  rewrite fmap_cons, strip_line, Hs. by rewrite IH.
Qed.

Lemma line_terminated_app (s1 s2 : string) :
  line_terminated s2 = true → s2 ≠ EmptyString → line_terminated (s1 ++ s2) = true.
Proof.
  intros H2 Hne. induction s1 as [|c s1 IH]; [done|].
  rewrite append_cons. cbn [line_terminated].
  destruct (s1 ++ s2) eqn:E; [|done].
  destruct s1; [|done]. by rewrite append_nil_l in E.
Qed.

Lemma write_lines_app (l1 l2 : list string) :
  Py.write_lines (l1 ++ l2) = Py.write_lines l1 ++ Py.write_lines l2.
Proof.
  induction l1 as [|u l1 IH]; [done|].
  cbn [app Py.write_lines]. by rewrite IH, !append_assoc.
Qed.

Lemma line_terminated_write_lines (urls : list string) :
  line_terminated (Py.write_lines urls) = true.
Proof.
  induction urls as [|u urls IH]; [done|].
  cbn [Py.write_lines]. rewrite append_assoc.
  apply line_terminated_app; [|done].
  change (Py.NL ++ Py.write_lines urls) with (String Py.LF (Py.write_lines urls)).
  cbn [line_terminated]. by destruct (Py.write_lines urls).
Qed.

Lemma no_space_cons c s :
  no_space (String c s) = true → Py.isspace c = false ∧ no_space s = true.
Proof.
  cbn [no_space]. intros [Hc Hs]%andb_true_iff. split; [|done]. by destruct (Py.isspace c).
Qed.

Lemma no_space_no_line_break (s : string) : no_space s = true → no_line_break s = true.
Proof.
  induction s as [|c s IH]; [done|]. intros [Hc Hs]%no_space_cons.
  cbn [no_line_break]. rewrite IH by done.
  destruct (Ascii.eqb c Py.LF) eqn:E1; [by apply Ascii.eqb_eq in E1 as ->|].
  destruct (Ascii.eqb c Py.CR) eqn:E2; [by apply Ascii.eqb_eq in E2 as ->|]. done.
Qed.

Lemma no_space_rstrip (s : string) : no_space s = true → Py.rstrip s = s.
Proof.
  induction s as [|c s IH]; [done|]. intros [Hc Hs]%no_space_cons.
  cbn [Py.rstrip]. rewrite IH, Hc by done. by destruct s.
Qed.

(** A string without white space that is not empty is a line. *)
Lemma no_space_is_line (s : string) :
  s ≠ EmptyString → no_space s = true → is_line s = true.
Proof.
  intros Hne Hs. apply is_line_spec. split; [by destruct s|]. split.
  - unfold Py.strip. destruct s as [|c s]; [done|].
    pose proof Hs as [Hc _]%no_space_cons. cbn [Py.lstrip]. rewrite Hc.
    by apply no_space_rstrip.
  - by apply no_space_no_line_break.
Qed.

Lemma no_space_app (s t : string) :
  no_space s = true → no_space t = true → no_space (s ++ t) = true.
Proof.
  intros Hs Ht. induction s as [|c s IH]; [done|].
  apply no_space_cons in Hs as [Hc Hs]. rewrite append_cons. cbn [no_space].
  by rewrite Hc, IH.
Qed.

End StringFacts.

Local Close Scope string_scope.

(** ** Facts about the submission client *)

Section SubmitFacts.

Lemma batch_nonempty (urls : list string) : urls ≠ [] → batch urls ≠ [].
Proof.
  unfold batch. destruct urls as [|u urls]; [done|]. intros _.
  destruct (10000 <? _); [|done].
  replace (Z.to_nat 10000) with (S (Z.to_nat 9999)) by lia. done.
Qed.

Lemma batch_long (urls : list string) :
  10000 < Z.of_nat (length urls) → batch urls = take (Z.to_nat 10000) urls.
Proof. unfold batch. intros H. by apply Z.ltb_lt in H as ->. Qed.

Lemma batch_length (urls : list string) :
  Z.of_nat (length (batch urls)) ≤ 10000.
Proof.
  unfold batch. destruct (10000 <? _) eqn:E.
  - rewrite length_take. lia.
  - apply Z.ltb_ge in E. lia.
Qed.

Lemma batch_idem (urls : list string) : batch (batch urls) = batch urls.
Proof.
  unfold batch at 1. pose proof (batch_length urls) as H.
  apply Z.ltb_ge in H. by rewrite H.
Qed.

Lemma batch_take (urls : list string) : batch urls = take (Z.to_nat 10000) urls.
Proof.
  unfold batch. destruct (10000 <? _) eqn:E; [done|].
  apply Z.ltb_ge in E. rewrite take_ge; [done|lia].
Qed.

(** The events of a run written out: the same request each time, and the
    cooldown after each request but the last. *)
Lemma attempts_explicit (n : nat) (urls : list string) :
  attempts n urls
  = concat (replicate n [request urls; ESleep 300]) ++ [request urls].
Proof. induction n as [|n IH]; [done|]. cbn [attempts replicate concat app]. by rewrite IH. Qed.

Lemma after_trans w k1 evs1 w1 k2 evs2 w2 :
  after w k1 evs1 w1 → after w1 k2 evs2 w2 → after w (k1 + k2) (evs1 ++ evs2) w2.
Proof.
  unfold after. intros (Hw & He & Hf & Hp & Ht) (Hw' & He' & Hf' & Hp' & Ht').
  rewrite Hw', He', Hf', Hp', Ht', Hw, He, Hf, Hp, Ht, app_assoc.
  repeat split; lia.
Qed.

Lemma bind_log {B} (line : string) (k : unit → M B) (w : world) :
  bind (log_message line) k w = k tt (add_log line w).
Proof. reflexivity. Qed.

Lemma bind_run {A B} (m : M A) (k : A → M B) (w : world) a w1 :
  m w = Ret a w1 → bind m k w = k a w1.
Proof. intros H. unfold bind. by rewrite H. Qed.

Lemma bind_no_exc {A B} (m : M A) (k : A → M B) w e w' :
  (∀ e0 w0, m w ≠ Exc e0 w0) → (∀ a w0 e1 w1, k a w0 ≠ Exc e1 w1) →
  bind m k w ≠ Exc e w'.
Proof.
  intros Hm Hk. unfold bind. destruct (m w) as [a w0|e0 w0|] eqn:E; [apply Hk| |done].
  by destruct (Hm e0 w0).
Qed.

Lemma try_except_no_exc {A} (m : M A) (h : exn → M A) w e w' :
  (∀ e0 w0 e1 w1, h e0 w0 ≠ Exc e1 w1) → try_except m h w ≠ Exc e w'.
Proof.
  intros Hh. unfold try_except. destruct (m w) as [a w0|e0 w0|]; [done|apply Hh|done].
Qed.

(** Every exception is handled inside: the function returns or runs out of
    fuel. *)
Lemma submit_no_exc fuel urls w e w' :
  submit_to_indexnow fuel urls w ≠ Exc e w'.
Proof.
  destruct fuel as [|fuel]; [done|]. destruct urls as [|u urls]; [done|].
  cbn [submit_to_indexnow]. apply bind_no_exc.
  - intros e0 w0. by destruct (10000 <? _).
  - intros urls' w0 e1 w1. apply try_except_no_exc.
    intros e0 w2 e2 w3. by destruct e0.
Qed.

(** A 429 with room for the nested call: the retry is what the call
    gives. *)
Lemma submit_step_retry fuel urls w r :
  urls ≠ [] → endpoint w (posts w) = Reply r → status_code r = 429 →
  ∃ w1, after w 1 [request (batch urls); ESleep 300] w1 ∧
        submit_to_indexnow (S (S fuel)) urls w
        = submit_to_indexnow (S fuel) (batch urls) w1.
Proof.
  intros Hne Hr Hs. destruct urls as [|u urls]; [done|].
  remember (S fuel) as f eqn:Hf.
  cbn [submit_to_indexnow]. unfold batch.
  destruct (10000 <? _); run; rewrite Hr, Hs; cbn.
  all: rewrite Hf; cbn [nested]; rewrite <- Hf.
  all: match goal with
       | |- context [submit_to_indexnow ?g ?x ?w0] =>
           exists w0; split; [frame|];
           pose proof (submit_no_exc g x w0) as Hno;
           by destruct (submit_to_indexnow g x w0) as [? ?|e' w'|];
             [|destruct (Hno e' w')|]
       end.
Qed.

(** A 429 with no room for the nested call: the [RecursionError] of the
    call is caught, and the result is failure. *)
Lemma submit_step_limit urls w r :
  urls ≠ [] → endpoint w (posts w) = Reply r → status_code r = 429 →
  ∃ w1, after w 1 [request (batch urls); ESleep 300] w1 ∧
        submit_to_indexnow 1 urls w = Ret false w1.
Proof.
  intros Hne Hr Hs. destruct urls as [|u urls]; [done|].
  cbn [submit_to_indexnow]. unfold batch.
  destruct (10000 <? _); run; rewrite Hr, Hs; cbn.
  all: eexists; (split; [|done]); frame.
Qed.

Lemma submit_step_final fuel urls w r :
  urls ≠ [] → endpoint w (posts w) = Reply r → status_code r ≠ 429 →
  ∃ w1, after w 1 [request (batch urls)] w1 ∧
        submit_to_indexnow (S fuel) urls w = Ret (accepted (status_code r)) w1.
Proof.
  intros Hne Hr Hs. destruct urls as [|u urls]; [done|].
  cbn [submit_to_indexnow]. unfold batch, accepted.
  destruct (10000 <? _); run; rewrite Hr; cbn.
  all: destruct (status_code r =? 200) eqn:E200; cbn; [eexists; split; [|done]; frame|].
  all: destruct (status_code r =? 202) eqn:E202; cbn; [eexists; split; [|done]; frame|].
  all: destruct (status_code r =? 400) eqn:E400; cbn; [eexists; split; [|done]; frame|].
  all: destruct (status_code r =? 403) eqn:E403; cbn; [eexists; split; [|done]; frame|].
  all: destruct (status_code r =? 422) eqn:E422; cbn; [eexists; split; [|done]; frame|].
  all: destruct (status_code r =? 429) eqn:E429; cbn; [apply Z.eqb_eq in E429; done|].
  all: eexists; split; [|done]; frame.
Qed.

Lemma submit_step_fails fuel urls w e :
  urls ≠ [] → endpoint w (posts w) = Fails e →
  ∃ w1, after w 1 [request (batch urls)] w1 ∧
        submit_to_indexnow (S fuel) urls w = Ret false w1.
Proof.
  intros Hne Hr. destruct urls as [|u urls]; [done|].
  cbn [submit_to_indexnow]. unfold batch.
  destruct (10000 <? _); run; rewrite Hr; cbn.
  all: destruct e; eexists; (split; [|done]); frame.
Qed.

Lemma rate_limited_next w w1 n evs :
  rate_limited w (S n) → after w 1 evs w1 → rate_limited w1 n.
Proof.
  intros H (_ & He & _ & Hp & _) i Hi. rewrite He, Hp.
  replace (posts w + 1 + i)%nat with (posts w + S i)%nat by lia.
  apply H. lia.
Qed.

(** The run of the client against an endpoint that answers 429 to [n]
    requests and then gives a final reply. *)
Lemma submit_run n : ∀ fuel urls w,
  urls ≠ [] → rate_limited w n → final_reply (endpoint w (posts w + n)%nat) →
  (n < fuel)%nat →
  ∃ w', after w (S n) (attempts n (batch urls)) w' ∧
        submit_to_indexnow fuel urls w
        = Ret (success_of (endpoint w (posts w + n)%nat)) w'.
Proof.
  induction n as [|n IH]; intros fuel urls w Hne Hlim Hfin Hfuel;
    (destruct fuel as [|fuel]; [lia|]).
  - rewrite Nat.add_0_r in *. destruct (endpoint w (posts w)) as [r|e] eqn:Hr.
    + by apply submit_step_final.
    + by apply (submit_step_fails fuel urls w e).
  - destruct (Hlim O) as (r & Hr & Hs); [lia|]. rewrite Nat.add_0_r in Hr.
    destruct fuel as [|fuel]; [lia|].
    destruct (submit_step_retry fuel urls w r) as (w1 & Hw1 & ->); [done..|].
    pose proof Hw1 as (_ & He & _ & Hp & _).
    assert (endpoint w1 (posts w1 + n)%nat = endpoint w (posts w + S n)%nat) as Heq.
    { rewrite He, Hp. f_equal. lia. }
    destruct (IH (S fuel) (batch urls) w1) as (w' & Hw' & ->).
    + by apply batch_nonempty.
    + by apply (rate_limited_next w w1 n _ Hlim Hw1).
    + by rewrite Heq.
    + lia.
    + exists w'. rewrite Heq, batch_idem in *. split; [|done].
      apply (after_trans _ _ _ _ _ _ _ Hw1 Hw').
Qed.

(** The client never writes a file. *)
Lemma submit_keeps_files fuel : ∀ urls w b w',
  submit_to_indexnow fuel urls w = Ret b w' → fs w' = fs w.
Proof.
  induction fuel as [|fuel IH]; intros urls w b w' Hrun; [done|].
  destruct urls as [|u urls]; [by injection Hrun as _ <-|].
  destruct (endpoint w (posts w)) as [r|e] eqn:Hr.
  - destruct (decide (status_code r = 429)) as [Hs|Hs].
    + destruct fuel as [|fuel].
      * destruct (submit_step_limit (u :: urls) w r) as (w1 & Hw1 & Heq); [done..|].
        rewrite Heq in Hrun. injection Hrun as _ <-. apply Hw1.
      * destruct (submit_step_retry fuel (u :: urls) w r) as (w1 & Hw1 & Heq); [done..|].
        rewrite Heq in Hrun. apply IH in Hrun as ->. apply Hw1.
    + destruct (submit_step_final fuel (u :: urls) w r) as (w1 & Hw1 & Heq); [done..|].
      rewrite Heq in Hrun. injection Hrun as _ <-. apply Hw1.
  - destruct (submit_step_fails fuel (u :: urls) w e) as (w1 & Hw1 & Heq); [done..|].
    rewrite Heq in Hrun. injection Hrun as _ <-. apply Hw1.
Qed.

(** Steps 6 and 7 after the client has returned: the batch list given to
    the client is written to the ledger when it reported success, and
    nothing is written otherwise. *)
Lemma submit_and_record_run fuel urls w b w1 :
  submit_to_indexnow fuel urls
    (add_log (Py.NL +:+ "Step 6: Submitting new URLs to IndexNow...") w) = Ret b w1 →
  ∃ w2, submit_and_record fuel urls w = Ret b w2 ∧
        web w2 = web w1 ∧ endpoint w2 = endpoint w1 ∧ posts w2 = posts w1 ∧
        trace w2 = trace w1 ∧
        fs w2 = if b
                then <[SUBMITTED_URLS_FILE :=
                         default EmptyString (fs w1 !! SUBMITTED_URLS_FILE)
                         +:+ Py.write_lines urls]> (fs w1)
                else fs w1.
Proof.
  intros Hrun. unfold submit_and_record, save_submitted_urls.
  unfold bind at 1. unfold log_message at 1. unfold bind at 1. rewrite Hrun.
  destruct b; run; eexists; done.
Qed.

(** Steps 6 and 7 that end in failure, for whatever reason, leave the
    files as they were. *)
Lemma submit_and_record_failure fuel urls w w1 :
  submit_and_record fuel urls w = Ret false w1 → fs w1 = fs w.
Proof.
  unfold submit_and_record. rewrite bind_log.
  match goal with
  | |- bind _ _ ?W = _ → _ => destruct (submit_to_indexnow fuel urls W) as [b w'| |] eqn:E
  end.
  - rewrite (bind_run _ _ _ _ _ E). apply submit_keeps_files in E.
    destruct b; run; [done|]. intros [= <-]. cbn. by rewrite E.
  - unfold bind. by rewrite E.
  - unfold bind. by rewrite E.
Qed.

(** Steps 6 and 7 on a list of more than 10,000 URLs, against an endpoint
    that in the end accepts the submission: the requests carry the first
    10,000 URLs only, but the whole list is appended to the ledger file, the
    lines of the first 10,000 URLs followed by the lines of the tail, which
    is not empty.  When the URLs are lines and the file was ended by a line
    feed, the ledger loaded afterwards holds every URL of the list; when
    they are distinct, those of the tail were in no request. *)
Lemma submit_and_record_long_list
    (fuel n : nat) (urls : list string) (w : world) (r : response) :
  10000 < Z.of_nat (length urls) →
  rate_limited w n →
  endpoint w (posts w + n)%nat = Reply r →
  status_code r = 200 ∨ status_code r = 202 →
  (n < fuel)%nat →
  ∃ w', submit_and_record fuel urls w = Ret true w' ∧
        trace w' = trace w ++ attempts n (take (Z.to_nat 10000) urls) ∧
        fs w' !! SUBMITTED_URLS_FILE
          = Some (default EmptyString (fs w !! SUBMITTED_URLS_FILE)
                  +:+ Py.write_lines (take (Z.to_nat 10000) urls)
                  +:+ Py.write_lines (drop (Z.to_nat 10000) urls)) ∧
        drop (Z.to_nat 10000) urls ≠ [] ∧
        (Forall (λ u, is_line u = true) urls →
         line_terminated (default EmptyString (fs w !! SUBMITTED_URLS_FILE)) = true →
         ledger (fs w') = ledger (fs w) ∪ list_to_set urls) ∧
        (NoDup urls →
         ∀ u, u ∈ drop (Z.to_nat 10000) urls → u ∉ take (Z.to_nat 10000) urls).
Proof.
  intros Hlong Hlim Hr Hs Hfuel.
  assert (urls ≠ []) as Hne by (intros ->; cbn in Hlong; lia).
  set (w0 := add_log (Py.NL +:+ "Step 6: Submitting new URLs to IndexNow...") w).
  destruct (submit_run n fuel urls w0) as (w1 & Hw1 & Hrun1);
    [done|done|cbn; rewrite Hr; cbn; lia|done|].
  cbn [endpoint posts w0 add_log] in Hrun1. rewrite Hr in Hrun1. cbn in Hrun1.
  replace (accepted (status_code r)) with true in Hrun1
    by (unfold accepted; destruct Hs as [-> | ->]; done).
  rewrite batch_long in Hw1 by done. destruct Hw1 as (_ & _ & Hf1 & _ & Ht1).
  apply submit_and_record_run in Hrun1 as (w2 & Hrun2 & _ & _ & _ & Ht2 & Hf2).
  assert (fs w2 !! SUBMITTED_URLS_FILE
          = Some (default EmptyString (fs w !! SUBMITTED_URLS_FILE)
                  +:+ Py.write_lines urls)) as Hfile
    by (by rewrite Hf2, Hf1, lookup_insert_eq).
  exists w2. split; [done|]. split; [by rewrite Ht2, Ht1|].
  split; [|split; [|split]].
  - by rewrite Hfile, <- write_lines_app, take_drop.
  - intros Hd. apply (f_equal length) in Hd. rewrite length_drop in Hd. cbn in Hd. lia.
  - intros Hlines Hold. unfold ledger at 1. rewrite Hfile.
    rewrite stripped_lines_app, stripped_lines_write_lines by done.
    rewrite list_to_set_app_L. f_equal.
    unfold ledger. by destruct (fs w !! SUBMITTED_URLS_FILE).
  - intros Hnodup u Hd Ht. rewrite <- (take_drop (Z.to_nat 10000) urls) in Hnodup.
    apply NoDup_app in Hnodup as (_ & Hdisj & _). by apply (Hdisj u).
Qed.

End SubmitFacts.

(** ** The claims about the submission client *)

Section SubmitClaims.

(** C9: on the empty list the client returns failure at once: it only logs
    a line, and neither sends a request nor waits nor touches a file. *)
Theorem submit_empty_fails_without_request (fuel : nat) (w : world) :
  submit_to_indexnow (S fuel) [] w = Ret false (add_log "No URLs to submit" w) ∧
  trace (add_log "No URLs to submit" w) = trace w ∧
  posts (add_log "No URLs to submit" w) = posts w ∧
  fs (add_log "No URLs to submit" w) = fs w.
Proof. done. Qed.

(** C2 (amended): when the endpoint answers 429 to the first [n] requests
    and 200 or 202 to the next one, and the recursion limit leaves room for
    more than [n] calls of the client (every retry is a nested call), the
    client returns success.  It has sent [n + 1] requests, all to the
    IndexNow endpoint and all with the same payload, whose URL list is the
    first 10,000 URLs of the list given (the whole list when it is not
    longer), and it has waited the cooldown of 300 seconds once after each
    429, [n] times in all. *)
Theorem submit_retries_until_accepted
    (fuel n : nat) (urls : list string) (w : world) (r : response) :
  urls ≠ [] →
  rate_limited w n →
  endpoint w (posts w + n)%nat = Reply r →
  status_code r = 200 ∨ status_code r = 202 →
  (n < fuel)%nat →
  ∃ w' json,
    submit_to_indexnow fuel urls w = Ret true w' ∧
    urlList json = take (Z.to_nat 10000) urls ∧
    trace w' = trace w
               ++ concat (replicate n [EPost INDEXNOW_ENDPOINT json; ESleep 300])
               ++ [EPost INDEXNOW_ENDPOINT json] ∧
    posts w' = (posts w + S n)%nat.
Proof.
  intros Hne Hlim Hr Hs Hfuel.
  destruct (submit_run n fuel urls w) as (w' & Hw' & Hrun);
    [done..|rewrite Hr; cbn; lia|done|].
  rewrite Hr in Hrun. cbn in Hrun.
  replace (accepted (status_code r)) with true in Hrun
    by (unfold accepted; destruct Hs as [-> | ->]; done).
  exists w', (make_payload (batch urls)). destruct Hw' as (_ & _ & _ & Hp & Ht).
  split; [done|]. split; [apply batch_take|]. split; [|done].
  by rewrite Ht, attempts_explicit.
Qed.

(** C3: for a non-empty list, when the first reply that is not a 429 is a
    response, the client returns success exactly when its status is 200 or
    202; the request answered by it is the last one (no retry after a 400,
    403, 422 or any other status), and when the client returns failure the
    files, the ledger among them, are after steps 6 and 7 of [main] what
    they were before.  The last holds for every failure of steps 6 and 7,
    whatever its cause. *)
Theorem submit_status_policy
    (fuel n : nat) (urls : list string) (w : world) (r : response) :
  urls ≠ [] →
  rate_limited w n →
  endpoint w (posts w + n)%nat = Reply r →
  status_code r ≠ 429 →
  (n < fuel)%nat →
  ∃ success w',
    submit_to_indexnow fuel urls w = Ret success w' ∧
    (success = true ↔ status_code r = 200 ∨ status_code r = 202) ∧
    trace w' = trace w ++ attempts n (batch urls) ∧
    posts w' = (posts w + S n)%nat ∧
    (n = O → filter (λ ev, is_request ev = true) (attempts n (batch urls))
             = [request (batch urls)]) ∧
    fs w' = fs w ∧
    (∃ w'', submit_and_record fuel urls w = Ret success w'' ∧
            trace w'' = trace w ++ attempts n (batch urls) ∧
            (success = false → fs w'' = fs w)) ∧
    (∀ fuel0 urls0 w0 w1,
       submit_and_record fuel0 urls0 w0 = Ret false w1 → fs w1 = fs w0).
Proof.
  intros Hne Hlim Hr Hs Hfuel.
  destruct (submit_run n fuel urls w) as (w' & Hw' & Hrun); [done..|by rewrite Hr|done|].
  set (w0 := add_log (Py.NL +:+ "Step 6: Submitting new URLs to IndexNow...") w).
  destruct (submit_run n fuel urls w0) as (w1 & Hw1 & Hrun1);
    [done|done|by cbn; rewrite Hr|done|].
  cbn [endpoint posts w0 add_log] in Hrun1. rewrite Hr in Hrun, Hrun1. cbn in Hrun, Hrun1.
  exists (accepted (status_code r)), w'.
  destruct Hw' as (_ & _ & Hf & Hp & Ht). destruct Hw1 as (_ & _ & Hf1 & _ & Ht1).
  repeat split; try done.
  - unfold accepted. intros [H%Z.eqb_eq | H%Z.eqb_eq]%orb_true_iff; auto.
  - unfold accepted. intros [-> | ->]; done.
  - by intros ->.
  - apply submit_and_record_run in Hrun1 as (w2 & Hrun2 & _ & _ & _ & Ht2 & Hf2).
    exists w2. repeat split; [done|by rewrite Ht2, Ht1|].
    intros Hfail. rewrite Hfail in Hf2. by rewrite Hf2, Hf1.
  - intros fuel0 urls0 w2 w3. apply submit_and_record_failure.
Qed.

(** C4: for a list of more than 10,000 URLs, every request of the call
    carries exactly the first 10,000 of them, in the order given; the URLs
    after them are in no request. *)
Theorem submit_truncates_to_first_10000
    (fuel n : nat) (urls : list string) (w : world) :
  10000 < Z.of_nat (length urls) →
  rate_limited w n →
  final_reply (endpoint w (posts w + n)%nat) →
  (n < fuel)%nat →
  ∃ success w',
    submit_to_indexnow fuel urls w = Ret success w' ∧
    trace w' = trace w ++ attempts n (take (Z.to_nat 10000) urls) ∧
    head (attempts n (take (Z.to_nat 10000) urls))
      = Some (EPost INDEXNOW_ENDPOINT (make_payload (take (Z.to_nat 10000) urls))) ∧
    (∀ url json, EPost url json ∈ attempts n (take (Z.to_nat 10000) urls) →
                 urlList json = take (Z.to_nat 10000) urls) ∧
    length (take (Z.to_nat 10000) urls) = Z.to_nat 10000 ∧
    urls = take (Z.to_nat 10000) urls ++ drop (Z.to_nat 10000) urls ∧
    drop (Z.to_nat 10000) urls ≠ [].
Proof.
  intros Hlong Hlim Hfin Hfuel.
  assert (urls ≠ []) as Hne by (intros ->; cbn in Hlong; lia).
  destruct (submit_run n fuel urls w) as (w' & Hw' & Hrun); [done..|].
  rewrite batch_long in * by done.
  eexists _, w'. split; [done|]. destruct Hw' as (_ & _ & _ & _ & Ht).
  split; [done|]. split; [by destruct n|]. split; [|split; [|split]].
  - clear. induction n as [|n IH]; cbn [attempts]; intros url json Hin.
    + apply list_elem_of_singleton in Hin. by injection Hin as -> ->.
    + apply elem_of_cons in Hin as [Hin|Hin]; [by injection Hin as -> ->|].
      apply elem_of_cons in Hin as [Hin|Hin]; [done|]. by eapply IH.
  - rewrite length_take. lia.
  - by rewrite take_drop.
  - intros Hd. apply (f_equal length) in Hd. rewrite length_drop in Hd. cbn in Hd. lia.
Qed.

End SubmitClaims.

(** ** Facts about the sitemap fetcher *)

Section FetchFacts.

Lemma loc_urls_entries (loc : string) (elems : list ET.Element) :
  loc_urls loc elems = entry_url loc <$> filter (λ e, is_entry loc e = true) elems.
Proof.
  unfold loc_urls. induction elems as [|e elems IH]; [done|].
  cbn [omap list_omap] in *. rewrite IH, filter_cons.
  destruct (decide (is_entry loc e = true)) as [He|He]; unfold is_entry in He;
    [rewrite fmap_cons; unfold entry_url|];
    destruct (ET.find loc e) as [loc_elem|]; try done;
    destruct (ET.text loc_elem) as [t|]; try done;
    destruct (Py.truthy t); done.
Qed.

Lemma first_pass_entries (root : ET.Element) :
  loc_urls (sm "loc") (ET.findall (sm "url") root)
  = entry_url (sm "loc") <$> namespaced_entries root.
Proof. apply loc_urls_entries. Qed.

Lemma fallback_pass_entries (root : ET.Element) :
  loc_urls "loc" (ET.findall_descendants "url" root)
  = entry_url "loc" <$> plain_entries root.
Proof. apply loc_urls_entries. Qed.

(** A loop whose body leaves the accumulator and the world as they are. *)
Lemma for_each_skip {A B} (xs : list A) (body : A → B → M B) (acc : B) (w : world) :
  Forall (λ x, ∀ acc w, body x acc w = Ret acc w) xs →
  for_each xs body acc w = Ret acc w.
Proof.
  induction 1 as [|x xs Hx _ IH]; [done|].
  cbn [for_each]. unfold bind. by rewrite Hx.
Qed.

(** The fetcher on a document that was retrieved and parsed and in which a
    pass over the [<url>] elements finds something: the URLs of that pass,
    and no request but the one for the document. *)
Lemma fetch_pages fuel url w r root :
  web w url = Reply r → status_code r = 200 → ET_fromstring (text r) = Some root →
  page_urls root ≠ [] →
  ∃ w', fetch_sitemap_urls (S fuel) url w = Ret (page_urls root) w' ∧
        after w 0 [EGet url] w'.
Proof.
  intros Hweb Hs Hparse Hpages. cbn [fetch_sitemap_urls]. run.
  rewrite Hweb, Hs. cbn. rewrite Hparse.
  rewrite first_pass_entries, fallback_pass_entries.
  unfold page_urls in *.
  destruct (namespaced_entries root) as [|e es]; cbn [fmap list_fmap].
  - destruct (entry_url "loc" <$> plain_entries root) as [|u us]; [done|].
    eexists; split; [done|frame].
  - eexists; split; [done|frame].
Qed.

(** No page and no sub-sitemap entry: nothing is found. *)
Lemma fetch_nothing fuel url w r root :
  web w url = Reply r → status_code r = 200 → ET_fromstring (text r) = Some root →
  page_urls root = [] → sitemap_entries root = [] →
  ∃ w', fetch_sitemap_urls (S fuel) url w = Ret [] w' ∧ after w 0 [EGet url] w'.
Proof.
  intros Hweb Hs Hparse Hpages Hsub. cbn [fetch_sitemap_urls]. run.
  rewrite Hweb, Hs. cbn. rewrite Hparse.
  rewrite first_pass_entries, fallback_pass_entries.
  unfold page_urls in *.
  destruct (namespaced_entries root) as [|e es]; [|done]. cbn [fmap list_fmap].
  rewrite Hpages. rewrite for_each_skip.
  - eexists; split; [done|frame].
  - unfold sitemap_entries in Hsub. revert Hsub.
    generalize (ET.findall (sm "sitemap") root) as elems.
    induction elems as [|e elems IH]; [done|]. rewrite filter_cons.
    destruct (decide (is_entry (sm "loc") e = true)) as [He|He]; [done|].
    intros Hsub. constructor; [|by apply IH].
    intros acc w0. unfold is_entry in He.
    destruct (ET.find (sm "loc") e) as [loc_elem|]; [|done].
    destruct (ET.text loc_elem) as [t|]; [|done].
    by destruct (Py.truthy t).
Qed.





(** Every exception is handled inside. *)
Lemma fetch_no_exc fuel url w e w' :
  fetch_sitemap_urls fuel url w ≠ Exc e w'.
Proof.
  destruct fuel as [|fuel]; [done|]. cbn [fetch_sitemap_urls].
  apply bind_no_exc; [done|]. intros _ w0 e1 w1.
  apply try_except_no_exc. intros e0 w2 e2 w3. by destruct e0.
Qed.

End FetchFacts.

(** ** The claims about the sitemap fetcher *)

Section FetchClaims.


(** C6: when the response has a status other than 200, or the request
    times out, or the connection fails, or the body of a 200 response does
    not parse, the fetcher returns the empty list, having sent only the one
    request; and no call of the fetcher ever ends in an exception. *)
Theorem fetch_failure_returns_empty (fuel : nat) (url : string) (w : world) :
  (∃ r, web w url = Reply r ∧ status_code r ≠ 200) ∨
  web w url = Fails Timeout ∨
  web w url = Fails ConnectionError ∨
  (∃ r, web w url = Reply r ∧ status_code r = 200 ∧ ET_fromstring (text r) = None) →
  (∃ w', fetch_sitemap_urls (S fuel) url w = Ret [] w' ∧
         trace w' = trace w ++ [EGet url] ∧ fs w' = fs w) ∧
  (∀ fuel0 url0 w0 e w1, fetch_sitemap_urls fuel0 url0 w0 ≠ Exc e w1).
Proof.
  intros Hcase. split; [|intros; apply fetch_no_exc].
  destruct Hcase as [(r & Hweb & Hs) | [Hweb | [Hweb | (r & Hweb & Hs & Hparse)]]];
    cbn [fetch_sitemap_urls]; run; rewrite Hweb; cbn.
  - apply Z.eqb_neq in Hs as ->. cbn. eexists; done.
  - eexists; done.
  - eexists; done.
  - rewrite Hs. cbn. rewrite Hparse. eexists; done.
Qed.

(** C10: when a pass over the [<url>] elements of a retrieved and parsed
    document finds at least one page URL, the fetcher returns the page URLs
    and sends no request but the one for the document itself, whatever
    sub-sitemap entries the document lists: it does not even have the fuel
    for a nested call here. *)
Theorem fetch_pages_shadow_sub_sitemaps
    (url : string) (w : world) (r : response) (root : ET.Element) :
  web w url = Reply r → status_code r = 200 →
  ET_fromstring (text r) = Some root →
  page_urls root ≠ [] →
  ∃ w', fetch_sitemap_urls 1 url w = Ret (page_urls root) w' ∧
        trace w' = trace w ++ [EGet url] ∧
        ∀ fuel, fetch_sitemap_urls (S fuel) url w = Ret (page_urls root) w'.
Proof.
  intros Hweb Hs Hparse Hpages.
  destruct (fetch_pages O url w r root) as (w' & Hrun & Hw'); [done..|].
  exists w'. split; [done|]. split; [apply Hw'|].
  intros fuel. rewrite <- Hrun. clear Hrun.
  cbn [fetch_sitemap_urls]. run. rewrite Hweb, Hs. cbn. rewrite Hparse.
  rewrite first_pass_entries, fallback_pass_entries. unfold page_urls in Hpages.
  destruct (namespaced_entries root) as [|e es]; cbn [fmap list_fmap]; [|done].
  by destruct (entry_url "loc" <$> plain_entries root).
Qed.

End FetchClaims.

(** ** Facts about the ledger and the diff *)

Section LedgerFacts.

(** [load_submitted_urls] returns the set of the stripped non-blank lines
    of the ledger file, the empty set when there is no file. *)
Lemma load_submitted_urls_run (w : world) :
  ∃ w', load_submitted_urls w = Ret (ledger (fs w)) w' ∧
        fs w' = fs w ∧ after w 0 [] w'.
Proof.
  unfold load_submitted_urls, ledger. run.
  destruct (fs w !! SUBMITTED_URLS_FILE) as [content|]; cbn; eexists; (split; [done|]);
    (split; [done|frame]).
Qed.

Lemma save_submitted_urls_run (urls : list string) (w : world) :
  ∃ w', save_submitted_urls urls w = Ret true w' ∧
        fs w' = <[SUBMITTED_URLS_FILE :=
                    default EmptyString (fs w !! SUBMITTED_URLS_FILE)
                    +:+ Py.write_lines urls]> (fs w) ∧
        trace w' = trace w.
Proof. unfold save_submitted_urls. run. eexists; done. Qed.

Lemma lstrip_blank (s : string) : is_blank s = true → Py.lstrip s = EmptyString.
Proof.
  induction s as [|c s IH]; [done|]. cbn [is_blank Py.lstrip].
  intros [[[-> _]%andb_true_iff _]%andb_true_iff H]%andb_true_iff. auto.
Qed.

Lemma no_line_break_blank (s : string) : is_blank s = true → no_line_break s = true.
Proof.
  induction s as [|c s IH]; [done|]. cbn [is_blank no_line_break].
  intros [[[_ ->]%andb_true_iff ->]%andb_true_iff H]%andb_true_iff. auto.
Qed.

(** A blank line contributes nothing. *)
Lemma stripped_lines_blank (blank : string) :
  is_blank blank = true → Py.stripped_lines (blank +:+ Py.NL) = [].
Proof.
  intros Hb. unfold Py.stripped_lines, Py.file_lines.
  pose proof (translate_write_lines [blank]) as Ht.
  pose proof (readlines_write_lines [blank]) as Hr.
  cbn [Py.write_lines] in Ht, Hr. rewrite append_nil_r in Ht, Hr.
  rewrite Ht, Hr by (repeat constructor; by apply no_line_break_blank).
  cbn [fmap list_fmap]. rewrite filter_cons_False; [done|].
  rewrite strip_line. unfold Py.strip. by rewrite lstrip_blank.
Qed.

End LedgerFacts.

(** ** The claims about the ledger and the diff *)

Section LedgerClaims.

(** C7: the result of [get_new_urls] is, as a set, the set of the URLs of
    the list minus the submitted ones: it holds no submitted URL, it holds
    every URL of the list that is not submitted, nothing else, and each of
    them once. *)
Theorem get_new_urls_is_set_difference
    (all_urls : list string) (submitted_urls : gset string) :
  (list_to_set (get_new_urls all_urls submitted_urls) : gset string)
    = list_to_set all_urls ∖ submitted_urls ∧
  (∀ u, u ∈ get_new_urls all_urls submitted_urls → u ∉ submitted_urls) ∧
  (∀ u, u ∈ all_urls → u ∉ submitted_urls →
        u ∈ get_new_urls all_urls submitted_urls) ∧
  (∀ u, u ∈ get_new_urls all_urls submitted_urls → u ∈ all_urls) ∧
  NoDup (get_new_urls all_urls submitted_urls).
Proof using list_of_set_perm.
  unfold get_new_urls.
  assert (∀ u, u ∈ list_of_set (list_to_set all_urls ∖ submitted_urls)
               ↔ u ∈ all_urls ∧ u ∉ submitted_urls) as Hin.
  { intros u. rewrite list_of_set_perm, elem_of_elements, elem_of_difference.
    by rewrite elem_of_list_to_set. }
  split; [|split; [|split; [|split]]].
  - apply set_eq. intros u.
    rewrite elem_of_list_to_set, Hin, elem_of_difference, elem_of_list_to_set. done.
  - intros u Hu. by apply Hin in Hu as [_ ?].
  - intros u Hu Hn. by apply Hin.
  - intros u Hu. by apply Hin in Hu as [? _].
  - rewrite list_of_set_perm. apply NoDup_elements.
Qed.

(** C8 (amended): loading when there is no ledger file gives the empty set
    and no error.  For [a] and [b] that are lines (not empty, no white space
    at either end, no line break inside) and a ledger file that is absent,
    empty or ended by a line feed, appending [[a; b]] and loading gives the
    set loaded before with [a] and [b] added.  Blank lines of the file are
    ignored by the load. *)
Theorem ledger_round_trip (a b : string) (w : world) :
  is_line a = true → is_line b = true →
  line_terminated (default EmptyString (fs w !! SUBMITTED_URLS_FILE)) = true →
  (∃ w1 w2,
     save_submitted_urls [a; b] w = Ret true w1 ∧
     load_submitted_urls w1 = Ret (ledger (fs w) ∪ {[a; b]}) w2 ∧
     a ∈ ledger (fs w) ∪ {[a; b]} ∧ b ∈ ledger (fs w) ∪ {[a; b]}) ∧
  (∀ w0, fs w0 !! SUBMITTED_URLS_FILE = None →
         ∃ w0', load_submitted_urls w0 = Ret ∅ w0' ∧ fs w0' = fs w0) ∧
  (∀ w0 before blank rest,
     fs w0 !! SUBMITTED_URLS_FILE = Some (before +:+ (blank +:+ Py.NL) +:+ rest) →
     line_terminated before = true → is_blank blank = true →
     ∃ w0', load_submitted_urls w0
            = Ret (list_to_set (Py.stripped_lines (before +:+ rest))) w0').
Proof.
  intros Ha Hb Hold. split; [|split].
  - destruct (save_submitted_urls_run [a; b] w) as (w1 & Hsave & Hfs & _).
    destruct (load_submitted_urls_run w1) as (w2 & Hload & _).
    exists w1, w2. split; [done|]. split.
    2:{ split; apply elem_of_union_r;
          [apply elem_of_union_l | apply elem_of_union_r]; by apply elem_of_singleton. }
    rewrite Hload. f_equal. unfold ledger at 1. rewrite Hfs, lookup_insert_eq.
    rewrite stripped_lines_app by done.
    rewrite stripped_lines_write_lines
      by (apply Forall_cons; split; [done|by apply Forall_singleton]).
    rewrite list_to_set_app_L. f_equal; [|by cbn; rewrite union_empty_r_L].
    unfold ledger. by destruct (fs w !! SUBMITTED_URLS_FILE).
  - intros w0 Hnone. destruct (load_submitted_urls_run w0) as (w0' & Hload & Hfs & _).
    exists w0'. unfold ledger in Hload. by rewrite Hnone in Hload.
  - intros w0 before blank rest Hfile Hbefore Hblank.
    destruct (load_submitted_urls_run w0) as (w0' & Hload & _).
    exists w0'. rewrite Hload. unfold ledger. rewrite Hfile. do 2 f_equal.
    rewrite (stripped_lines_app before) by done.
    rewrite (stripped_lines_app (blank +:+ Py.NL)) by (by apply line_terminated_app).
    rewrite stripped_lines_blank by done.
    by rewrite (stripped_lines_app before rest).
Qed.

End LedgerClaims.

(** ** Facts about a whole run *)

Section MainFacts.

Lemma validate_configuration_ok (w : world) :
  String.eqb API_KEY "your-api-key-here" = false →
  Py.contains "yourdomain.com" SITE_URL = false →
  Py.contains "yourdomain.com" SITEMAP_URL = false →
  validate_configuration w = Ret true w.
Proof. unfold validate_configuration. by intros -> -> ->. Qed.

Lemma save_urls_to_file_run (urls : list string) (filename : string) (w : world) :
  save_urls_to_file urls filename w
  = Ret true
      (add_log ("Saved " +:+ Py.str_of_nat (length urls) +:+ " URLs to " +:+ filename)
         (set_fs (<[filename := Py.write_lines urls]> (fs w)) w)).
Proof. reflexivity. Qed.

Lemma load_urls_from_file_run (filename content : string) (w : world) :
  fs w !! filename = Some content →
  load_urls_from_file filename w
  = Ret (Py.stripped_lines content)
      (add_log ("Loaded " +:+ Py.str_of_nat (length (Py.stripped_lines content))
                +:+ " URLs from " +:+ filename) w).
Proof. intros H. unfold load_urls_from_file. run. by rewrite H. Qed.

Lemma elem_of_get_new_urls (all_urls : list string) (submitted_urls : gset string) u :
  u ∈ get_new_urls all_urls submitted_urls ↔ u ∈ all_urls ∧ u ∉ submitted_urls.
Proof using list_of_set_perm.
  unfold get_new_urls.
  rewrite list_of_set_perm, elem_of_elements, elem_of_difference.
  by rewrite elem_of_list_to_set.
Qed.

Lemma NoDup_get_new_urls (all_urls : list string) (submitted_urls : gset string) :
  NoDup (get_new_urls all_urls submitted_urls).
Proof using list_of_set_perm.
  unfold get_new_urls. rewrite list_of_set_perm. apply NoDup_elements.
Qed.

(** A run of [main] on a valid configuration whose sitemap gives page URLs
    that are lines, some of them new: it goes through steps 1 to 5 with one
    request (for the sitemap), stages the new URLs in their file, and its
    steps 6 and 7 are run on the new URLs. *)
Lemma main_run (fuel : nat) (w : world) (r : response) (root : ET.Element) :
  String.eqb API_KEY "your-api-key-here" = false →
  Py.contains "yourdomain.com" SITE_URL = false →
  Py.contains "yourdomain.com" SITEMAP_URL = false →
  web w SITEMAP_URL = Reply r → status_code r = 200 →
  ET_fromstring (text r) = Some root →
  Forall (λ u, is_line u = true) (page_urls root) →
  get_new_urls (page_urls root) (ledger (fs w)) ≠ [] →
  ∃ w0,
    web w0 = web w ∧ endpoint w0 = endpoint w ∧ posts w0 = posts w ∧
    trace w0 = trace w ++ [EGet SITEMAP_URL] ∧
    fs w0 = <[URLS_FILE := Py.write_lines (get_new_urls (page_urls root) (ledger (fs w)))]>
              (fs w) ∧
    ∀ success w1,
      submit_and_record (S fuel) (get_new_urls (page_urls root) (ledger (fs w))) w0
      = Ret success w1 →
      ∃ w2, main (S fuel) w = Ret tt w2 ∧
            fs w2 = fs w1 ∧ trace w2 = trace w1 ∧ posts w2 = posts w1.
Proof using list_of_set_perm.
  intros Hkey Hsite Hmap Hweb Hs Hparse Hlines Hnew.
  assert (Forall (λ u, is_line u = true)
            (get_new_urls (page_urls root) (ledger (fs w)))) as Hnewlines.
  { rewrite Forall_forall in Hlines |- *. intros u Hu.
    apply elem_of_get_new_urls in Hu as [Hu _]. by apply Hlines. }
  assert (page_urls root ≠ []) as Hpages.
  { intros Hnil. destruct (get_new_urls (page_urls root) (ledger (fs w))) as [|u us] eqn:E;
      [done|].
    assert (u ∈ get_new_urls (page_urls root) (ledger (fs w))) as Hu by (rewrite E; left).
    apply elem_of_get_new_urls in Hu as [Hu _]. rewrite Hnil in Hu. by apply elem_of_nil in Hu. }
  pose proof (eq_refl (main (S fuel) w)) as E. unfold main at 2 in E.
  rewrite !bind_log in E.
  rewrite (bind_run _ _ _ _ _ (validate_configuration_ok _ Hkey Hsite Hmap)) in E.
  cbn [negb] in E. rewrite bind_log in E.
  match type of E with
  | _ = bind _ _ ?W =>
      destruct (fetch_pages fuel SITEMAP_URL W r root) as (w1 & Hfetch & Hw1); [done..|]
  end.
  rewrite (bind_run _ _ _ _ _ Hfetch) in E.
  destruct (page_urls root) as [|u0 us0] eqn:Hp; [done|]. rewrite <- Hp in *.
  rewrite !bind_log in E.
  match type of E with
  | _ = bind _ _ ?W =>
      destruct (load_submitted_urls_run W) as (w2 & Hload & Hfs2 & Hw2)
  end.
  rewrite (bind_run _ _ _ _ _ Hload) in E. rewrite bind_log in E.
  destruct Hw1 as (Hweb1 & Hend1 & Hfs1 & Hposts1 & Htrace1).
  destruct Hw2 as (Hweb2 & Hend2 & _ & Hposts2 & Htrace2).
  cbn [fs web endpoint posts trace add_log] in *.
  rewrite Hfs1 in *.
  destruct (get_new_urls (page_urls root) (ledger (fs w))) as [|u1 us1] eqn:Hn; [done|].
  rewrite <- Hn in *.
  rewrite !bind_log in E.
  rewrite (bind_run _ _ _ _ _ (save_urls_to_file_run _ _ _)) in E.
  cbn [negb] in E. rewrite bind_log in E.
  match type of E with
  | _ = bind _ _ ?W =>
      rewrite (bind_run _ _ _ _ _
                 (load_urls_from_file_run URLS_FILE _ W (lookup_insert_eq _ _ _))) in E
  end.
  rewrite stripped_lines_write_lines in E by done.
  rewrite Hn in E. cbv iota in E. rewrite <- Hn in E.
  match type of E with _ = bind _ _ ?W0 => exists W0 end.
  split_and!.
  - cbn. by rewrite Hweb2.
  - cbn. by rewrite Hend2.
  - cbn. rewrite Hposts2, Hposts1. lia.
  - cbn. by rewrite Htrace2, Htrace1, app_nil_r.
  - cbn. by rewrite Hfs2.
  - intros success w3 Hsub.
    rewrite (bind_run _ _ _ _ _ Hsub) in E. rewrite !bind_log in E.
    unfold log_message in E. eexists. split; [exact E|]. done.
Qed.

End MainFacts.

(** ** The claim about the ledger after a run *)

Section MainClaims.

(** C1 (what the code does): a run of [main] on a valid configuration,
    with a sitemap whose page URLs are lines and more than 10,000 of them
    new, a ledger file that is absent or ended by a line feed, and an
    endpoint that in the end accepts the submission.  Every request of the
    run carries the first 10,000 new URLs only, yet the ledger loaded after
    the run holds all the new URLs: at least one URL is recorded as submitted
    that was not in the ledger before and was in no request. *)
Theorem main_records_unsubmitted_tail
    (fuel n : nat) (w : world) (r : response) (root : ET.Element) (r' : response) :
  String.eqb API_KEY "your-api-key-here" = false →
  Py.contains "yourdomain.com" SITE_URL = false →
  Py.contains "yourdomain.com" SITEMAP_URL = false →
  web w SITEMAP_URL = Reply r → status_code r = 200 →
  ET_fromstring (text r) = Some root →
  Forall (λ u, is_line u = true) (page_urls root) →
  line_terminated (default EmptyString (fs w !! SUBMITTED_URLS_FILE)) = true →
  10000 < Z.of_nat (length (get_new_urls (page_urls root) (ledger (fs w)))) →
  rate_limited w n →
  endpoint w (posts w + n)%nat = Reply r' →
  status_code r' = 200 ∨ status_code r' = 202 →
  (n < fuel)%nat →
  ∃ w',
    main fuel w = Ret tt w' ∧
    trace w' = trace w ++ (EGet SITEMAP_URL
                 :: attempts n (take (Z.to_nat 10000)
                                  (get_new_urls (page_urls root) (ledger (fs w))))) ∧
    ledger (fs w')
      = ledger (fs w) ∪ list_to_set (get_new_urls (page_urls root) (ledger (fs w))) ∧
    ∃ u, u ∈ ledger (fs w') ∧ (u ∉ ledger (fs w)) ∧
         (u ∉ take (Z.to_nat 10000) (get_new_urls (page_urls root) (ledger (fs w)))).
Proof using list_of_set_perm.
  intros Hkey Hsite Hmap Hweb Hs Hparse Hlines Hold Hlong Hlim Hr' Hs' Hfuel.
  destruct fuel as [|fuel]; [lia|].
  set (new_urls := get_new_urls (page_urls root) (ledger (fs w))) in *.
  assert (new_urls ≠ []) as Hnew by (intros Hnil; rewrite Hnil in Hlong; cbn in Hlong; lia).
  assert (Forall (λ u, is_line u = true) new_urls) as Hnewlines.
  { rewrite Forall_forall in Hlines |- *. intros u Hu.
    apply elem_of_get_new_urls in Hu as [Hu _]. by apply Hlines. }
  destruct (main_run fuel w r root) as (w0 & Hweb0 & Hend0 & Hposts0 & Htrace0 & Hfs0 & Hrest);
    [done..|].
  fold new_urls in Hfs0, Hrest.
  assert (fs w0 !! SUBMITTED_URLS_FILE = fs w !! SUBMITTED_URLS_FILE) as Hsame
    by (by rewrite Hfs0, lookup_insert_ne).
  assert (ledger (fs w0) = ledger (fs w)) as Hledger by (unfold ledger; by rewrite Hsame).
  destruct (submit_and_record_long_list (S fuel) n new_urls w0 r')
    as (w1 & Hrun & Htrace1 & _ & Htail & Hset & Hdisj).
  { done. }
  { intros i Hi. rewrite Hend0, Hposts0. by apply Hlim. }
  { by rewrite Hend0, Hposts0. }
  { done. }
  { done. }
  destruct (Hrest true w1 Hrun) as (w2 & Hmain & Hfs2 & Htrace2 & _).
  exists w2. split; [done|]. split.
  { rewrite Htrace2, Htrace1, Htrace0, <- app_assoc. done. }
  assert (ledger (fs w2) = ledger (fs w) ∪ list_to_set new_urls) as Hafter.
  { rewrite Hfs2, Hset; [by rewrite Hledger|done|by rewrite Hsame]. }
  split; [done|].
  assert (∃ u, u ∈ drop (Z.to_nat 10000) new_urls) as [u Hu].
  { clear Hdisj. destruct (drop (Z.to_nat 10000) new_urls) as [|u tl]; [done|].
    exists u. left. }
  assert (u ∈ new_urls) as Hin.
  { rewrite <- (take_drop (Z.to_nat 10000) new_urls). apply elem_of_app. by right. }
  exists u. split; [|split].
  - rewrite Hafter. apply elem_of_union_r. by apply elem_of_list_to_set.
  - by apply elem_of_get_new_urls in Hin as [_ ?].
  - exact (Hdisj (NoDup_get_new_urls _ _) u Hu).
Qed.

End MainClaims.

(** ** More about the files of URLs *)

Section FileFacts.

Local Open Scope string_scope.

Lemma rstrip_idem (s : string) : Py.rstrip (Py.rstrip s) = Py.rstrip s.
Proof.
  induction s as [|c s IH]; [done|]. cbn [Py.rstrip].
  destruct (Py.rstrip s) as [|d r] eqn:E.
  - destruct (Py.isspace c) eqn:Ec; [done|]. cbn [Py.rstrip]. by rewrite Ec.
  - cbn [Py.rstrip] in *. by rewrite IH.
Qed.

Lemma rstrip_head c s d r :
  Py.isspace c = false → Py.rstrip (String c s) = String d r → d = c.
Proof.
  cbn [Py.rstrip]. intros Hc. destruct (Py.rstrip s); rewrite ?Hc; by intros [= <- _].
Qed.

Lemma lstrip_head (s : string) c t :
  Py.lstrip s = String c t → Py.isspace c = false.
Proof.
  induction s as [|d s IH]; [done|]. cbn [Py.lstrip].
  destruct (Py.isspace d) eqn:Ed; [done|]. by intros [= <- _].
Qed.

Lemma lstrip_rstrip_lstrip (s : string) :
  Py.lstrip (Py.rstrip (Py.lstrip s)) = Py.rstrip (Py.lstrip s).
Proof.
  destruct (Py.lstrip s) as [|c t] eqn:E; [done|].
  pose proof (lstrip_head _ _ _ E) as Hc.
  destruct (Py.rstrip (String c t)) as [|d r] eqn:Er; [done|].
  apply rstrip_head in Er as ->; [|done]. cbn [Py.lstrip]. by rewrite Hc.
Qed.

(** Stripping twice is stripping once. *)
Lemma strip_idem (s : string) : Py.strip (Py.strip s) = Py.strip s.
Proof. unfold Py.strip. by rewrite lstrip_rstrip_lstrip, rstrip_idem. Qed.

Lemma no_line_break_lstrip (s : string) :
  no_line_break s = true → no_line_break (Py.lstrip s) = true.
Proof.
  induction s as [|c s IH]; [done|]. intros H. cbn [Py.lstrip].
  destruct (Py.isspace c); [|done]. apply IH. by apply no_line_break_cons in H as (_ & _ & ?).
Qed.

Lemma no_line_break_rstrip (s : string) :
  no_line_break s = true → no_line_break (Py.rstrip s) = true.
Proof.
  induction s as [|c s IH]; [done|]. intros H.
  apply no_line_break_cons in H as (H1 & H2 & H). specialize (IH H). cbn [Py.rstrip].
  destruct (Py.rstrip s) as [|d r].
  - destruct (Py.isspace c); [done|]. cbn [no_line_break]. by rewrite H1, H2.
  - cbn [no_line_break] in *. by rewrite H1, H2, IH.
Qed.

Lemma readlines_translate_shape (b : bool) (s : string) :
  Forall line_shape (Py.readlines (Py.translate_newlines b s)).
Proof.
  revert b. induction s as [|c s IH]; intros b; [constructor|].
  assert (∀ b', Forall line_shape
            (Py.readlines (String Py.LF (Py.translate_newlines b' s)))) as HLF.
  { intros b'. cbn [Py.readlines]. constructor; [|apply IH].
    exists EmptyString. split; [done|by right]. }
  cbn [Py.translate_newlines].
  destruct (Ascii.eqb c Py.CR) eqn:Ecr; [apply HLF|].
  destruct (Ascii.eqb c Py.LF) eqn:Elf.
  - apply Ascii.eqb_eq in Elf as ->. destruct b; [apply IH|apply HLF].
  - cbn [andb Py.readlines]. rewrite Elf.
    specialize (IH false). destruct (Py.readlines (Py.translate_newlines false s)) as [|l ls].
    + constructor; [|constructor]. exists (String c EmptyString). split; [|by left].
      cbn [no_line_break]. by rewrite Elf, Ecr.
    + apply Forall_cons in IH as [(body & Hb & Hl) IH]. constructor; [|done].
      exists (String c body). split; [cbn [no_line_break]; by rewrite Elf, Ecr, Hb|].
      destruct Hl as [-> | ->]; [by left|by right].
Qed.

Lemma strip_shape_is_line (l : string) :
  line_shape l → Py.truthy (Py.strip l) = true → is_line (Py.strip l) = true.
Proof.
  intros (body & Hb & Hl) Ht.
  assert (Py.strip l = Py.strip body) as ->
    by (destruct Hl as [-> | ->]; [done|apply strip_line]).
  apply is_line_spec. split; [by destruct Hl as [-> | ->]; rewrite ?strip_line in Ht|].
  split; [apply strip_idem|].
  unfold Py.strip. by apply no_line_break_rstrip, no_line_break_lstrip.
Qed.

(** Whatever a file holds, what is read from it are lines. *)
Lemma stripped_lines_are_lines (content : string) :
  Forall (λ u, is_line u = true) (Py.stripped_lines content).
Proof.
  unfold Py.stripped_lines, Py.file_lines, Py.universal_newlines.
  pose proof (readlines_translate_shape false content) as Hshape.
  induction Hshape as [|l ls Hl _ IH]; [constructor|].
  rewrite filter_cons. destruct (decide (Py.truthy (Py.strip l) = true)) as [Ht|Ht]; [|done].
  rewrite fmap_cons. constructor; [|done]. by apply strip_shape_is_line.
Qed.

Lemma elem_of_ledger (files : gmap string string) (u : string) :
  u ∈ ledger files → is_line u = true.
Proof.
  unfold ledger. destruct (files !! SUBMITTED_URLS_FILE) as [content|]; [|by intros ?%not_elem_of_empty].
  intros Hu%elem_of_list_to_set.
  pose proof (stripped_lines_are_lines content) as Hall.
  rewrite Forall_forall in Hall. by apply Hall.
Qed.

Lemma load_urls_from_file_total (filename : string) (w : world) :
  ∃ w', load_urls_from_file filename w
        = Ret (from_option Py.stripped_lines [] (fs w !! filename)) w' ∧
        after w 0 [] w'.
Proof.
  unfold load_urls_from_file. run.
  destruct (fs w !! filename) as [content|]; cbn; eexists; (split; [done|frame]).
Qed.

End FileFacts.

(** ** Properties of the files of URLs *)

Section FileProperties.

Local Open Scope string_scope.

(** X1: [load_urls_from_file] always returns, with the stripped non-blank
    lines of the file, or the empty list when the file does not exist; it
    changes no file and sends nothing; and every string it returns is a line:
    not empty, no white space at either end, no line break inside. *)
Theorem load_urls_from_file_gives_lines (filename : string) (w : world) :
  ∃ urls w',
    load_urls_from_file filename w = Ret urls w' ∧
    urls = from_option Py.stripped_lines [] (fs w !! filename) ∧
    Forall (λ u, is_line u = true) urls ∧
    fs w' = fs w ∧ trace w' = trace w ∧ posts w' = posts w.
Proof.
  destruct (load_urls_from_file_total filename w) as (w' & Hrun & Hw').
  eexists _, w'. split; [done|]. split; [done|].
  destruct Hw' as (_ & _ & Hfs & Hp & Ht). rewrite Nat.add_0_r in Hp.
  rewrite app_nil_r in Ht. split; [|done].
  destruct (fs w !! filename) as [content|]; [apply stripped_lines_are_lines|constructor].
Qed.

(** X2: every URL of the ledger that [load_submitted_urls] returns is a
    line; in particular the empty string is never in the ledger, and no URL
    of the ledger begins or ends with white space. *)
Theorem ledger_holds_lines_only (w : world) :
  ∃ w', load_submitted_urls w = Ret (ledger (fs w)) w' ∧
        fs w' = fs w ∧
        (∀ u, u ∈ ledger (fs w) →
              u ≠ EmptyString ∧ Py.strip u = u ∧ no_line_break u = true) ∧
        EmptyString ∉ ledger (fs w).
Proof.
  destruct (load_submitted_urls_run w) as (w' & Hrun & Hfs & _).
  exists w'. split; [done|]. split; [done|].
  assert (∀ u, u ∈ ledger (fs w) →
               u ≠ EmptyString ∧ Py.strip u = u ∧ no_line_break u = true) as Hall.
  { intros u Hu%elem_of_ledger. apply is_line_spec in Hu as (Ht & Hs & Hn).
    split; [by destruct u|done]. }
  split; [done|]. intros H. by apply Hall in H as [? _].
Qed.

(** X3: the staging round trip of steps 4 and 5 of [main], on the staging
    file (taken to be writable, like the ledger file).  [save_urls_to_file]
    replaces whatever the file held, and [load_urls_from_file] then returns
    the list that was saved when its URLs are lines; for any list it
    returns lines only, and saving and loading these once more changes
    nothing. *)
Theorem staged_urls_round_trip (urls : list string) (w : world) :
  ∃ w1 loaded w2,
    save_urls_to_file urls URLS_FILE w = Ret true w1 ∧
    fs w1 = <[URLS_FILE := Py.write_lines urls]> (fs w) ∧
    load_urls_from_file URLS_FILE w1 = Ret loaded w2 ∧
    loaded = Py.stripped_lines (Py.write_lines urls) ∧
    (Forall (λ u, is_line u = true) urls → loaded = urls) ∧
    Forall (λ u, is_line u = true) loaded ∧
    Py.stripped_lines (Py.write_lines loaded) = loaded.
Proof.
  eexists _, _, _. split; [apply save_urls_to_file_run|]. split; [done|].
  split; [apply load_urls_from_file_run; cbn; apply lookup_insert_eq|].
  split; [done|]. split; [apply stripped_lines_write_lines|].
  split; [apply stripped_lines_are_lines|].
  apply stripped_lines_write_lines, stripped_lines_are_lines.
Qed.

(** X4: appending to a ledger file that is absent, empty or ended by a line
    feed keeps every URL that was in the ledger and adds the lines of the
    list; the file is ended by a line feed again, and no other file is
    touched. *)
Theorem ledger_append_grows (urls : list string) (w : world) :
  line_terminated (default EmptyString (fs w !! SUBMITTED_URLS_FILE)) = true →
  ∃ w1,
    save_submitted_urls urls w = Ret true w1 ∧
    ledger (fs w1)
      = ledger (fs w) ∪ list_to_set (Py.stripped_lines (Py.write_lines urls)) ∧
    ledger (fs w) ⊆ ledger (fs w1) ∧
    (Forall (λ u, is_line u = true) urls →
     ledger (fs w1) = ledger (fs w) ∪ list_to_set urls) ∧
    line_terminated (default EmptyString (fs w1 !! SUBMITTED_URLS_FILE)) = true ∧
    (∀ filename, filename ≠ SUBMITTED_URLS_FILE → fs w1 !! filename = fs w !! filename).
Proof.
  intros Hold. destruct (save_submitted_urls_run urls w) as (w1 & Hrun & Hfs & _).
  exists w1. split; [done|].
  assert (ledger (fs w1)
          = ledger (fs w) ∪ list_to_set (Py.stripped_lines (Py.write_lines urls))) as Hl.
  { unfold ledger at 1. rewrite Hfs, lookup_insert_eq.
    rewrite stripped_lines_app, list_to_set_app_L by done. f_equal.
    unfold ledger. by destruct (fs w !! SUBMITTED_URLS_FILE). }
  split; [done|]. split; [rewrite Hl; apply union_subseteq_l|].
  split; [by intros Hlines; rewrite Hl, stripped_lines_write_lines|].
  split.
  - rewrite Hfs, lookup_insert_eq. cbn [default].
    destruct urls as [|u urls]; [by rewrite append_nil_r|].
    apply line_terminated_app; [apply line_terminated_write_lines|].
    cbn [Py.write_lines]. rewrite append_assoc. by destruct u.
  - intros filename Hne. by rewrite Hfs, lookup_insert_ne.
Qed.

(** X5: appending the same lines a second time writes them to the file a
    second time (nothing is deduplicated there), and the ledger that is
    loaded is what it was after the first append. *)
Theorem ledger_append_twice (urls : list string) (w : world) :
  Forall (λ u, is_line u = true) urls →
  line_terminated (default EmptyString (fs w !! SUBMITTED_URLS_FILE)) = true →
  ∃ w1 w2,
    save_submitted_urls urls w = Ret true w1 ∧
    save_submitted_urls urls w1 = Ret true w2 ∧
    fs w2 !! SUBMITTED_URLS_FILE
      = Some ((default EmptyString (fs w !! SUBMITTED_URLS_FILE)
               ++ Py.write_lines urls) ++ Py.write_lines urls) ∧
    ledger (fs w2) = ledger (fs w1) ∧
    ledger (fs w1) = ledger (fs w) ∪ list_to_set urls.
Proof.
  intros Hlines Hold.
  destruct (save_submitted_urls_run urls w) as (w1 & Hrun1 & Hfs1 & _).
  destruct (save_submitted_urls_run urls w1) as (w2 & Hrun2 & Hfs2 & _).
  exists w1, w2. split; [done|]. split; [done|].
  assert (fs w1 !! SUBMITTED_URLS_FILE
          = Some (default EmptyString (fs w !! SUBMITTED_URLS_FILE) ++ Py.write_lines urls))
    as Hc1 by (by rewrite Hfs1, lookup_insert_eq).
  assert (fs w2 !! SUBMITTED_URLS_FILE
          = Some ((default EmptyString (fs w !! SUBMITTED_URLS_FILE)
                   ++ Py.write_lines urls) ++ Py.write_lines urls))
    as Hc2 by (by rewrite Hfs2, lookup_insert_eq, Hc1).
  split; [done|].
  assert (ledger (fs w1) = ledger (fs w) ∪ list_to_set urls) as Hl1.
  { unfold ledger at 1. rewrite Hc1.
    rewrite stripped_lines_app, stripped_lines_write_lines, list_to_set_app_L by done.
    f_equal. unfold ledger. by destruct (fs w !! SUBMITTED_URLS_FILE). }
  split; [|done]. rewrite Hl1. unfold ledger at 1. rewrite Hc2.
  rewrite append_assoc, stripped_lines_app by done.
  rewrite <- write_lines_app, stripped_lines_write_lines by (by apply Forall_app).
  rewrite !list_to_set_app_L.
  replace (list_to_set (Py.stripped_lines
             (default EmptyString (fs w !! SUBMITTED_URLS_FILE))) : gset string)
    with (ledger (fs w)) by (unfold ledger; by destruct (fs w !! SUBMITTED_URLS_FILE)).
  by rewrite union_idemp_L.
Qed.

End FileProperties.


(** ** More about the submission client *)

Section SubmitMoreFacts.

Lemma batch_short (urls : list string) :
  Z.of_nat (length urls) ≤ 10000 → batch urls = urls.
Proof. unfold batch. intros H. apply Z.ltb_ge in H. by rewrite H. Qed.

Lemma rate_limited_cons w w1 n r evs :
  endpoint w (posts w) = Reply r → status_code r = 429 →
  after w 1 evs w1 → rate_limited w1 n → rate_limited w (S n).
Proof.
  intros Hr Hs (_ & He & _ & Hp & _) Hlim i Hi.
  destruct i as [|i]; [rewrite Nat.add_0_r; eauto|].
  destruct (Hlim i) as (r' & Hr' & Hs'); [lia|]. exists r'. split; [|done].
  rewrite <- Hr', He, Hp. f_equal. lia.
Qed.

(** Every run of the client on a list that is not empty has one of two
    shapes: some number of requests answered by 429 and then one with a
    final reply, as in [submit_run]; or as many requests as there was room
    for calls, each answered by 429, and then failure. *)
Lemma submit_returns fuel : ∀ urls w b w',
  urls ≠ [] →
  submit_to_indexnow fuel urls w = Ret b w' →
  (∃ n, rate_limited w n ∧ final_reply (endpoint w (posts w + n)%nat) ∧
        b = success_of (endpoint w (posts w + n)%nat) ∧
        after w (S n) (attempts n (batch urls)) w') ∨
  (rate_limited w fuel ∧ b = false ∧ after w fuel (retried fuel (batch urls)) w').
Proof.
  induction fuel as [|fuel IH]; intros urls w b w' Hne Hrun; [done|].
  destruct (endpoint w (posts w)) as [r|e] eqn:Hr.
  - destruct (decide (status_code r = 429)) as [Hs|Hs].
    + destruct fuel as [|fuel].
      * destruct (submit_step_limit urls w r) as (w1 & Hw1 & Heq); [done..|].
        rewrite Heq in Hrun. injection Hrun as <- <-. right.
        split; [|done]. intros i Hi. replace i with O by lia.
        rewrite Nat.add_0_r. eauto.
      * destruct (submit_step_retry fuel urls w r) as (w1 & Hw1 & Heq); [done..|].
        rewrite Heq in Hrun.
        pose proof Hw1 as (_ & He & _ & Hp & _).
        apply IH in Hrun as [(n & Hlim & Hfin & Hb & Hw') | (Hlim & Hb & Hw')];
          [| |by apply batch_nonempty].
        -- assert (endpoint w1 (posts w1 + n)%nat = endpoint w (posts w + S n)%nat)
             as Hsame by (rewrite He, Hp; f_equal; lia).
           left. exists (S n). rewrite <- Hsame.
           split; [by apply (rate_limited_cons w w1 n r _ Hr Hs Hw1)|].
           split; [done|]. split; [done|].
           rewrite batch_idem in Hw'. apply (after_trans _ _ _ _ _ _ _ Hw1 Hw').
        -- right. split; [by apply (rate_limited_cons w w1 _ r _ Hr Hs Hw1)|].
           split; [done|].
           rewrite batch_idem in Hw'. apply (after_trans _ _ _ _ _ _ _ Hw1 Hw').
    + destruct (submit_step_final fuel urls w r) as (w1 & Hw1 & Heq); [done..|].
      rewrite Heq in Hrun. injection Hrun as <- <-.
      left. exists O. rewrite Nat.add_0_r, Hr. split; [intros i Hi; lia|]. done.
  - destruct (submit_step_fails fuel urls w e) as (w1 & Hw1 & Heq); [done..|].
    rewrite Heq in Hrun. injection Hrun as <- <-.
    left. exists O. rewrite Nat.add_0_r, Hr. split; [intros i Hi; lia|]. done.
Qed.

(** With room for at least one call the client returns. *)
Lemma submit_total fuel : ∀ urls w, ∃ b w', submit_to_indexnow (S fuel) urls w = Ret b w'.
Proof.
  induction fuel as [|fuel IH]; intros urls w.
  all: destruct urls as [|u urls]; [by eexists _, _|].
  all: destruct (endpoint w (posts w)) as [r|e] eqn:Hr;
    [destruct (decide (status_code r = 429)) as [Hs|Hs]|].
  - destruct (submit_step_limit (u :: urls) w r) as (w1 & _ & ->); [done..|]. by eexists _, _.
  - destruct (submit_step_final O (u :: urls) w r) as (w1 & _ & ->); [done..|]. by eexists _, _.
  - destruct (submit_step_fails O (u :: urls) w e) as (w1 & _ & ->); [done..|]. by eexists _, _.
  - destruct (submit_step_retry fuel (u :: urls) w r) as (w1 & _ & ->); [done..|]. apply IH.
  - destruct (submit_step_final (S fuel) (u :: urls) w r) as (w1 & _ & ->); [done..|].
    by eexists _, _.
  - destruct (submit_step_fails (S fuel) (u :: urls) w e) as (w1 & _ & ->); [done..|].
    by eexists _, _.
Qed.

(** With every reply a 429, the client gives up when no room is left for
    the retry: it has sent as many requests as there was room for calls. *)
Lemma submit_cut_short fuel : ∀ urls w,
  urls ≠ [] → rate_limited w (S fuel) →
  ∃ w', submit_to_indexnow (S fuel) urls w = Ret false w' ∧
        after w (S fuel) (retried (S fuel) (batch urls)) w'.
Proof.
  induction fuel as [|fuel IH]; intros urls w Hne Hlim;
    (destruct (Hlim O) as (r & Hr & Hs); [lia|]); rewrite Nat.add_0_r in Hr.
  - destruct (submit_step_limit urls w r) as (w1 & Hw1 & ->); [done..|]. by exists w1.
  - destruct (submit_step_retry fuel urls w r) as (w1 & Hw1 & ->); [done..|].
    destruct (IH (batch urls) w1) as (w' & -> & Hw').
    + by apply batch_nonempty.
    + by apply (rate_limited_next w w1 _ _ Hlim Hw1).
    + exists w'. split; [done|]. rewrite batch_idem in Hw'.
      apply (after_trans _ _ _ _ _ _ _ Hw1 Hw').
Qed.

Lemma retried_posts (n : nat) (urls : list string) :
  ∀ ev, ev ∈ retried n urls → ev = request urls ∨ ev = ESleep 300.
Proof.
  induction n as [|n IH]; cbn [retried]; intros ev Hev; [by apply elem_of_nil in Hev|].
  apply elem_of_cons in Hev as [->|Hev]; [by left|].
  apply elem_of_cons in Hev as [->|Hev]; [by right|]. by apply IH.
Qed.

Lemma attempts_last (n : nat) (urls : list string) :
  last (attempts n urls) = Some (request urls).
Proof.
  induction n as [|n IH]; [done|]. cbn [attempts].
  rewrite !last_cons, IH. done.
Qed.

Lemma attempts_posts (n : nat) (urls : list string) :
  ∀ ev, ev ∈ attempts n urls → ev = request urls ∨ ev = ESleep 300.
Proof.
  induction n as [|n IH]; cbn [attempts]; intros ev Hev.
  - apply list_elem_of_singleton in Hev. by left.
  - apply elem_of_cons in Hev as [->|Hev]; [by left|].
    apply elem_of_cons in Hev as [->|Hev]; [by right|]. by apply IH.
Qed.

(** What the requests of a run carry. *)
Lemma attempts_carry (n : nat) (urls : list string) :
  ∀ url json, EPost url json ∈ attempts n urls →
              url = INDEXNOW_ENDPOINT ∧ urlList json = urls.
Proof.
  intros url json [Hin|Hin]%attempts_posts; [|done]. by injection Hin as -> ->.
Qed.

End SubmitMoreFacts.

(** ** Properties of the submission client *)

Section SubmitProperties.

(** X6: when a request of a non-empty list fails in transport (a timeout or
    any other exception), after any number of 429 answers, the client
    returns failure without a further request: the failed request is the
    last event, and no file is changed. *)
Theorem submit_transport_failure
    (fuel n : nat) (urls : list string) (w : world) (e : exn) :
  urls ≠ [] →
  rate_limited w n →
  endpoint w (posts w + n)%nat = Fails e →
  (n < fuel)%nat →
  ∃ w', submit_to_indexnow fuel urls w = Ret false w' ∧
        trace w' = trace w ++ attempts n (batch urls) ∧
        last (trace w') = Some (request (batch urls)) ∧
        posts w' = (posts w + S n)%nat ∧
        fs w' = fs w.
Proof.
  intros Hne Hlim He Hfuel.
  destruct (submit_run n fuel urls w) as (w' & Hw' & Hrun); [done..|by rewrite He|done|].
  rewrite He in Hrun. exists w'. destruct Hw' as (_ & _ & Hf & Hp & Ht).
  split; [done|]. split; [done|]. split; [|done].
  rewrite Ht, last_app, attempts_last. done.
Qed.

(** X7: a list of at most 10,000 URLs, exactly 10,000 included, is sent
    whole and in its order: every request of the call carries the list as it
    was given. *)
Theorem submit_sends_short_list_whole
    (fuel n : nat) (urls : list string) (w : world) :
  urls ≠ [] →
  Z.of_nat (length urls) ≤ 10000 →
  rate_limited w n →
  final_reply (endpoint w (posts w + n)%nat) →
  (n < fuel)%nat →
  ∃ success w',
    submit_to_indexnow fuel urls w = Ret success w' ∧
    trace w' = trace w ++ attempts n urls ∧
    (∀ url json, EPost url json ∈ attempts n urls →
                 url = INDEXNOW_ENDPOINT ∧ urlList json = urls).
Proof.
  intros Hne Hshort Hlim Hfin Hfuel.
  destruct (submit_run n fuel urls w) as (w' & Hw' & Hrun); [done..|].
  rewrite batch_short in Hw' by done.
  eexists _, w'. split; [done|]. split; [apply Hw'|].
  intros url json [Hin|Hin]%attempts_posts; [|done]. by injection Hin as -> ->.
Qed.

(** X8: whatever the endpoint does, a call of the client returns (it
    never ends in an exception, and the recursion limit ends the retries)
    and changes no file; when it returns success, it has sent at least one
    request, its last event is a request to the IndexNow endpoint whose URL
    list is the first 10,000 URLs of the list given (all of them, for a
    shorter list), and that request was answered with status 200 or 202. *)
Theorem submit_success_means_accepted
    (fuel : nat) (urls : list string) (w : world) :
  ∃ success w',
    submit_to_indexnow (S fuel) urls w = Ret success w' ∧
    fs w' = fs w ∧
    (success = true →
     (posts w < posts w')%nat ∧
     (∃ json, last (trace w') = Some (EPost INDEXNOW_ENDPOINT json) ∧
              urlList json = take (Z.to_nat 10000) urls) ∧
     (∃ r, endpoint w (posts w' - 1)%nat = Reply r ∧
           (status_code r = 200 ∨ status_code r = 202))).
Proof.
  destruct (submit_total fuel urls w) as (success & w' & Hrun).
  exists success, w'. split; [done|].
  split; [by apply submit_keeps_files in Hrun|].
  intros ->. destruct urls as [|u urls]; [by cbn in Hrun|].
  apply submit_returns in Hrun as [(n & Hlim & Hfin & Hb & Hw') | (_ & Hb & _)];
    [|done|done].
  destruct Hw' as (_ & _ & _ & Hp & Ht).
  split; [lia|]. split.
  { exists (make_payload (batch (u :: urls))).
    split; [by rewrite Ht, last_app, attempts_last|]. cbn [urlList make_payload].
    apply batch_take. }
  replace (posts w' - 1)%nat with (posts w + n)%nat by lia.
  destruct (endpoint w (posts w + n)%nat) as [r|e]; [|done].
  exists r. split; [done|]. cbn in Hb. unfold accepted in Hb.
  symmetry in Hb. apply orb_true_iff in Hb as [H%Z.eqb_eq | H%Z.eqb_eq]; auto.
Qed.

(** X23: when the endpoint answers 429 to every request for which the
    recursion limit leaves room, the client ends in failure, not in an
    exception: the [RecursionError] of the retry that cannot be called is
    caught.  All it has done is to send requests to the IndexNow endpoint,
    each with the first 10,000 URLs of the list, and to wait the cooldown;
    no file is changed. *)
Theorem submit_gives_up_when_no_call_is_left
    (fuel : nat) (urls : list string) (w : world) :
  urls ≠ [] →
  rate_limited w (S fuel) →
  ∃ w' json evs,
    submit_to_indexnow (S fuel) urls w = Ret false w' ∧
    urlList json = take (Z.to_nat 10000) urls ∧
    trace w' = trace w ++ evs ∧
    Forall (λ ev, ev = EPost INDEXNOW_ENDPOINT json ∨ ev = ESleep 300) evs ∧
    fs w' = fs w.
Proof.
  intros Hne Hlim.
  destruct (submit_cut_short fuel urls w Hne Hlim) as (w' & Hrun & (_ & _ & Hf & _ & Ht)).
  exists w', (make_payload (batch urls)), (retried (S fuel) (batch urls)).
  split; [done|]. split; [apply batch_take|]. split; [done|]. split; [|done].
  apply Forall_forall. intros ev Hev. by apply retried_posts in Hev.
Qed.

(** X9: steps 6 and 7 of [main] on at most 10,000 URLs that are lines, with
    an endpoint that accepts after [n] answers of 429, where the recursion
    limit leaves room for more than [n] calls of the client: every request
    goes to the IndexNow endpoint with the whole list as its URL list, and
    the ledger loaded afterwards is the ledger before with exactly the URLs
    of the list added. *)
Theorem submit_and_record_short_list
    (fuel n : nat) (urls : list string) (w : world) (r : response) :
  urls ≠ [] →
  Z.of_nat (length urls) ≤ 10000 →
  Forall (λ u, is_line u = true) urls →
  line_terminated (default EmptyString (fs w !! SUBMITTED_URLS_FILE)) = true →
  rate_limited w n →
  endpoint w (posts w + n)%nat = Reply r →
  status_code r = 200 ∨ status_code r = 202 →
  (n < fuel)%nat →
  ∃ w', submit_and_record fuel urls w = Ret true w' ∧
        trace w' = trace w ++ attempts n urls ∧
        (∀ url json, EPost url json ∈ attempts n urls →
                     url = INDEXNOW_ENDPOINT ∧ urlList json = urls) ∧
        ledger (fs w') = ledger (fs w) ∪ list_to_set urls ∧
        (∀ u, u ∈ ledger (fs w') → u ∈ ledger (fs w) ∨ u ∈ urls).
Proof.
  intros Hne Hshort Hlines Hold Hlim Hr Hs Hfuel.
  set (w0 := add_log (Py.NL +:+ "Step 6: Submitting new URLs to IndexNow...") w).
  destruct (submit_run n fuel urls w0) as (w1 & Hw1 & Hrun1);
    [done|done|cbn; rewrite Hr; cbn; lia|done|].
  cbn [endpoint posts w0 add_log] in Hrun1. rewrite Hr in Hrun1. cbn in Hrun1.
  replace (accepted (status_code r)) with true in Hrun1
    by (unfold accepted; destruct Hs as [-> | ->]; done).
  rewrite batch_short in Hw1 by done. destruct Hw1 as (_ & _ & Hf1 & _ & Ht1).
  apply submit_and_record_run in Hrun1 as (w2 & Hrun2 & _ & _ & _ & Ht2 & Hf2).
  assert (ledger (fs w2) = ledger (fs w) ∪ list_to_set urls) as Hl.
  { unfold ledger at 1. rewrite Hf2, Hf1, lookup_insert_eq. cbn [fs w0 add_log].
    rewrite stripped_lines_app, stripped_lines_write_lines, list_to_set_app_L by done.
    f_equal. unfold ledger. by destruct (fs w !! SUBMITTED_URLS_FILE). }
  exists w2. split; [done|]. split; [by rewrite Ht2, Ht1|].
  split; [apply attempts_carry|]. split; [done|].
  intros u. rewrite Hl, elem_of_union, elem_of_list_to_set. done.
Qed.

End SubmitProperties.

(** ** Relations that every step of a computation keeps *)

Section Preservation.

Context (R : world → world → Prop).
Hypothesis R_refl : ∀ w, R w w.
Hypothesis R_trans : ∀ w1 w2 w3, R w1 w2 → R w2 w3 → R w1 w3.

Lemma preserves_ret {A} (a : A) : preserves R (ret a).
Proof using R_refl. intros w. apply R_refl. Qed.

Lemma preserves_raise {A} (e : exn) : preserves R (raise (A:=A) e).
Proof using R_refl. intros w. apply R_refl. Qed.

Lemma preserves_out_of_fuel {A} : preserves R (out_of_fuel (A:=A)).
Proof. by intros w. Qed.

Lemma preserves_nested {A} (fuel : nat) (m : M A) :
  preserves R m → preserves R (nested fuel m).
Proof using R_refl. intros Hm. destruct fuel; [apply preserves_raise|done]. Qed.

Lemma preserves_bind {A B} (m : M A) (k : A → M B) :
  preserves R m → (∀ a, preserves R (k a)) → preserves R (bind m k).
Proof using R_trans.
  intros Hm Hk w. unfold bind. specialize (Hm w).
  destruct (m w) as [a w1|e w1|]; [|done..].
  specialize (Hk a w1). destruct (k a w1); eauto.
Qed.

Lemma preserves_try_except {A} (m : M A) (h : exn → M A) :
  preserves R m → (∀ e, preserves R (h e)) → preserves R (try_except m h).
Proof using R_trans.
  intros Hm Hh w. unfold try_except. specialize (Hm w).
  destruct (m w) as [a w1|e w1|]; [done| |done].
  specialize (Hh e w1). destruct (h e w1); eauto.
Qed.

Lemma preserves_for_each {A B} (xs : list A) (body : A → B → M B) (acc : B) :
  (∀ x acc', preserves R (body x acc')) → preserves R (for_each xs body acc).
Proof using R_refl R_trans.
  intros Hbody. revert acc. induction xs as [|x xs IH]; intros acc.
  - apply preserves_ret.
  - cbn [for_each]. apply preserves_bind; [apply Hbody|apply IH].
Qed.

End Preservation.

(** ** More about the sitemap fetcher *)

Section FetchMoreFacts.

Lemma quiet_refl (w : world) : quiet w w.
Proof. unfold quiet. repeat split; try done. exists []. by rewrite app_nil_r. Qed.

Lemma quiet_trans (w1 w2 w3 : world) : quiet w1 w2 → quiet w2 w3 → quiet w1 w3.
Proof.
  intros (Hw & He & Hf & Hp & evs & Ht & Hq) (Hw' & He' & Hf' & Hp' & evs' & Ht' & Hq').
  unfold quiet. rewrite Hw', He', Hf', Hp', Ht', Hw, He, Hf, Hp, Ht.
  repeat split; try done. exists (evs ++ evs'). split; [by rewrite app_assoc|].
  by apply Forall_app.
Qed.

Lemma quiet_log (line : string) : preserves quiet (log_message line).
Proof. intros w. cbn. unfold quiet. cbn. repeat split; try done. exists []. by rewrite app_nil_r. Qed.

Lemma quiet_sleep (seconds : Z) : preserves quiet (sleep seconds).
Proof.
  intros w. cbn. unfold quiet. cbn. repeat split; try done.
  exists [ESleep seconds]. split; [done|]. by repeat constructor.
Qed.

Lemma quiet_session_get (url : string) : preserves quiet (session_get url).
Proof.
  intros w. unfold session_get.
  assert (quiet w (add_event (EGet url) w)) as Hq.
  { unfold quiet. cbn. repeat split; try done.
    exists [EGet url]. split; [done|]. by repeat constructor. }
  by destruct (web w url).
Qed.

(** The fetcher only requests documents and pauses. *)
Lemma fetch_quiet (fuel : nat) : ∀ url, preserves quiet (fetch_sitemap_urls fuel url).
Proof.
  pose proof quiet_refl as Hrefl. pose proof quiet_trans as Htrans.
  induction fuel as [|fuel IH]; intros url; [apply preserves_out_of_fuel|].
  cbn [fetch_sitemap_urls].
  apply preserves_bind; [done|apply quiet_log|intros _].
  apply preserves_try_except; [done| |].
  - apply preserves_bind; [done|apply quiet_session_get|intros response].
    destruct (negb (status_code response =? 200)).
    { apply preserves_bind; [done|apply quiet_log|intros _]. by apply preserves_ret. }
    apply preserves_bind; [done| |intros root].
    { destruct (ET_fromstring (text response)); [by apply preserves_ret|by apply preserves_raise]. }
    cbv zeta.
    apply preserves_bind; [done| |intros urls].
    + destruct (match loc_urls (sm "loc") (ET.findall (sm "url") root) with
                | [] => loc_urls "loc" (ET.findall_descendants "url" root)
                | _ => _ end); [|by apply preserves_ret].
      apply preserves_for_each; [done..|]. intros sitemap_elem acc.
      destruct (ET.find (sm "loc") sitemap_elem) as [loc_elem|]; [|by apply preserves_ret].
      destruct (ET.text loc_elem) as [t|]; [|by apply preserves_ret].
      destruct (Py.truthy t); [|by apply preserves_ret].
      apply preserves_bind; [done|apply quiet_log|intros _].
      apply preserves_bind; [done|by apply preserves_nested|intros sub_urls].
      apply preserves_bind; [done|apply quiet_sleep|intros _]. by apply preserves_ret.
    + apply preserves_bind; [done| |intros _; by apply preserves_ret].
      destruct urls; apply quiet_log.
  - intros e. destruct e;
      repeat (apply preserves_bind; [done|apply quiet_log|intros _]); by apply preserves_ret.
Qed.

Lemma flat_urls_web (w w1 : world) (url : string) :
  web w1 = web w → flat_urls w1 url = flat_urls w url.
Proof. intros H. unfold flat_urls. by rewrite H. Qed.

(** The fetcher on a document that needs no nested call. *)
Lemma fetch_flat fuel url w urls :
  flat_urls w url = Some urls →
  ∃ w', fetch_sitemap_urls (S fuel) url w = Ret urls w' ∧ after w 0 [EGet url] w'.
Proof.
  unfold flat_urls. intros Hflat.
  destruct (web w url) as [r|e] eqn:Hweb.
  - destruct (status_code r =? 200) eqn:Hs.
    + apply Z.eqb_eq in Hs. destruct (ET_fromstring (text r)) as [root|] eqn:Hparse.
      * destruct (page_urls root) as [|u us] eqn:Hp.
        -- destruct (sitemap_entries root) eqn:Hsub; [|done]. injection Hflat as <-.
           by apply (fetch_nothing fuel url w r root).
        -- assert (urls = page_urls root) as ->
             by (rewrite Hp; destruct (sitemap_entries root); by injection Hflat).
           apply (fetch_pages fuel url w r root); try done. by rewrite Hp.
      * injection Hflat as <-. cbn [fetch_sitemap_urls]. run. rewrite Hweb, Hs. cbn.
        rewrite Hparse. eexists; split; [done|frame].
    + injection Hflat as <-. cbn [fetch_sitemap_urls]. run. rewrite Hweb. cbn. rewrite Hs. cbn.
      eexists; split; [done|frame].
  - injection Hflat as <-. cbn [fetch_sitemap_urls]. run. rewrite Hweb. cbn.
    destruct e; eexists; (split; [done|frame]).
Qed.

(** A loop each of whose passes adds the URLs [out x] and the events
    [evs x], in a world with the same web. *)
Lemma for_each_collect {A} (xs : list A) (body : A → list string → M (list string))
    (out : A → list string) (evs : A → list event) (site : string → reply) :
  (∀ x acc w, x ∈ xs → web w = site →
     ∃ w', body x acc w = Ret (acc ++ out x) w' ∧ after w 0 (evs x) w') →
  ∀ acc w, web w = site →
    ∃ w', for_each xs body acc w = Ret (acc ++ flat_map out xs) w' ∧
          after w 0 (flat_map evs xs) w'.
Proof.
  induction xs as [|x xs IH]; intros Hbody acc w Hweb.
  - exists w. cbn. rewrite app_nil_r. split; [done|]. unfold after.
    rewrite app_nil_r, Nat.add_0_r. done.
  - destruct (Hbody x acc w) as (w1 & Hrun1 & Hw1); [left|done|].
    destruct (IH (λ y acc' w' Hy, Hbody y acc' w' (list_elem_of_further _ _ _ Hy))
                (acc ++ out x) w1) as (w2 & Hrun2 & Hw2).
    { destruct Hw1 as (-> & _). done. }
    exists w2. cbn [for_each flat_map]. unfold bind. rewrite Hrun1, Hrun2.
    rewrite <- app_assoc. split; [done|].
    apply (after_trans _ _ _ _ _ _ _ Hw1 Hw2).
Qed.

Lemma flat_map_filter {A B} (p : A → bool) (f : A → list B) (xs : list A) :
  flat_map (λ x, if p x then f x else []) xs = flat_map f (filter (λ x, p x = true) xs).
Proof.
  induction xs as [|x xs IH]; [done|]. cbn [flat_map]. rewrite filter_cons, IH.
  destruct (p x) eqn:E; by destruct (decide _).
Qed.

End FetchMoreFacts.

(** The steps of a call of the fetcher in [w0], up to the document that was
    retrieved and parsed. *)
Ltac to_parsed_document w0 :=
  rewrite bind_log; unfold try_except at 1;
  erewrite (bind_run (session_get _));
    [|unfold session_get; cbn [web add_log];
      match goal with
      | Hweb0 : web w0 = _, Hweb : web _ _ = Reply _ |- _ => by rewrite Hweb0, Hweb
      end];
  match goal with Hs : status_code _ = 200 |- _ => rewrite Hs end;
  change (negb (200 =? 200)) with false; cbv iota;
  match goal with Hparse : ET_fromstring _ = Some _ |- _ => rewrite Hparse end;
  unfold bind at 1; unfold ret at 1; cbv beta iota zeta.

(** ** Properties of the sitemap fetcher *)

Section FetchProperties.

(** X10: a sitemap index whose sub-sitemaps need no nested call themselves
    (each is a leaf, or cannot be retrieved or parsed).  The fetcher returns
    the URLs of the sub-sitemaps one after the other, in the order of the
    index; after the request for the index it sends one request for each
    sub-sitemap entry, at the stripped text of its [loc], each followed by a
    pause of one second; it changes no file. *)
Theorem fetch_index_concatenates
    (fuel : nat) (url : string) (w : world) (r : response) (root : ET.Element) :
  web w url = Reply r → status_code r = 200 →
  ET_fromstring (text r) = Some root →
  page_urls root = [] →
  (∀ e, e ∈ sitemap_entries root → is_Some (flat_urls w (entry_url (sm "loc") e))) →
  ∃ w',
    fetch_sitemap_urls (S (S fuel)) url w
    = Ret (flat_map (λ e, default [] (flat_urls w (entry_url (sm "loc") e)))
                    (sitemap_entries root)) w' ∧
    trace w' = trace w ++ EGet url
                 :: flat_map (λ e, [EGet (entry_url (sm "loc") e); ESleep 1])
                             (sitemap_entries root) ∧
    fs w' = fs w ∧ posts w' = posts w.
Proof.
  intros Hweb Hs Hparse Hpages Hsubs.
  remember (S fuel) as fuel' eqn:Hfuel.
  set (out := λ e, if is_entry (sm "loc") e
                   then default [] (flat_urls w (entry_url (sm "loc") e)) else []).
  set (evs := λ e, if is_entry (sm "loc") e
                   then [EGet (entry_url (sm "loc") e); ESleep 1] else []).
  cbn [fetch_sitemap_urls]. run. rewrite Hweb, Hs. cbn. rewrite Hparse.
  rewrite first_pass_entries, fallback_pass_entries.
  unfold page_urls in Hpages.
  destruct (namespaced_entries root) as [|e0 es0]; [|done]. cbn [fmap list_fmap].
  rewrite Hpages.
  match goal with
  | |- context [for_each ?xs ?body ?acc ?W] =>
      assert (∀ x acc0 w0, x ∈ xs → web w0 = web w →
                ∃ w', body x acc0 w0 = Ret (acc0 ++ out x) w' ∧ after w0 0 (evs x) w')
        as Hbody
  end.
  { intros e acc w0 He Hweb0. unfold out, evs, is_entry, entry_url.
    assert (is_entry (sm "loc") e = true →
            is_Some (flat_urls w0 (entry_url (sm "loc") e))) as Hsub.
    { intros Hentry. rewrite (flat_urls_web w w0) by done. apply Hsubs.
      unfold sitemap_entries. by apply list_elem_of_filter. }
    unfold is_entry, entry_url in Hsub.
    destruct (ET.find (sm "loc") e) as [loc_elem|] eqn:Hfind;
      [|exists w0; rewrite app_nil_r; split; [done|frame]].
    destruct (ET.text loc_elem) as [t|] eqn:Htext;
      [|exists w0; rewrite app_nil_r; split; [done|frame]].
    destruct (Py.truthy t) eqn:Ht;
      [|exists w0; rewrite app_nil_r; split; [done|frame]].
    cbn [default] in *. destruct Hsub as [sub Hsub]; [done|].
    rewrite <- (flat_urls_web w w0), Hsub by done. cbn [default].
    rewrite Hfuel. cbn [nested].
    match goal with
    | |- context [fetch_sitemap_urls _ ?u ?W] =>
        destruct (fetch_flat fuel u W sub) as (w1 & Hrun1 & Hw1); [exact Hsub|]
    end.
    rewrite Hrun1. eexists. split; [done|].
    destruct Hw1 as (Hw1 & He1 & Hf1 & Hp1 & Ht1). unfold after. cbn in *.
    rewrite Hw1, He1, Hf1, Hp1, Ht1, <- app_assoc. repeat split; lia. }
  match goal with
  | |- context [for_each ?xs ?body ?acc ?W] =>
      destruct (for_each_collect xs body out evs (web w) Hbody acc W) as (w1 & Hloop & Hw1);
        [done|]
  end.
  rewrite Hloop. cbn [app].
  assert (∀ {B} (f : ET.Element → list B),
            flat_map (λ e, if is_entry (sm "loc") e then f e else [])
                     (ET.findall (sm "sitemap") root)
            = flat_map f (sitemap_entries root)) as Hfm
    by (intros B f; apply flat_map_filter).
  unfold out, evs in *. rewrite !Hfm in *. clear Hfm Hbody out evs.
  destruct Hw1 as (_ & _ & Hf1 & Hp1 & Ht1).
  cbn [fs posts trace add_event add_log] in Hf1, Hp1, Ht1.
  rewrite Nat.add_0_r, <- app_assoc in *. cbn [app] in Ht1.
  set (urls := flat_map _ (sitemap_entries root)) in *.
  destruct urls; eexists; (split; [reflexivity|]); cbn; by rewrite Hf1, Hp1, Ht1.
Qed.


(** X11: however deep the fetcher goes into sitemap indexes, when it
    returns it has changed no file and submitted nothing: the events it made
    are requests for documents and pauses only; and it never ends in an
    exception. *)
Theorem fetch_only_reads (fuel : nat) (url : string) (w : world) :
  match fetch_sitemap_urls fuel url w with
  | Ret _ w' =>
      fs w' = fs w ∧ posts w' = posts w ∧
      ∃ evs, trace w' = trace w ++ evs ∧ Forall (λ ev, is_post ev = false) evs
  | Exc _ _ => False
  | OutOfFuel => True
  end.
Proof.
  pose proof (fetch_quiet fuel url w) as Hq.
  destruct (fetch_sitemap_urls fuel url w) as [urls w'|e w'|] eqn:Hrun; [| |done].
  - by destruct Hq as (_ & _ & Hf & Hp & Hevs).
  - by apply fetch_no_exc in Hrun.
Qed.

(** X12: the URLs that the fetcher returns for a document that needs no
    nested call have no white space at their ends: the text of each [loc] is
    stripped.  (A [loc] of white space only gives the empty string.) *)
Theorem fetched_urls_are_stripped
    (fuel : nat) (url : string) (w : world) (urls : list string) :
  flat_urls w url = Some urls →
  ∃ w', fetch_sitemap_urls (S fuel) url w = Ret urls w' ∧
        Forall (λ u, Py.strip u = u) urls.
Proof.
  intros Hflat. destruct (fetch_flat fuel url w urls Hflat) as (w' & Hrun & _).
  exists w'. split; [done|].
  assert (∀ root, Forall (λ u, Py.strip u = u) (page_urls root)) as Hpages.
  { intros root. unfold page_urls.
    assert (∀ loc es, Forall (λ u, Py.strip u = u) (entry_url loc <$> es)) as Hall.
    { intros loc es. apply Forall_fmap, Forall_forall. intros e _. cbn.
      unfold entry_url. destruct (ET.find loc e); [apply strip_idem|done]. }
    destruct (namespaced_entries root); apply Hall. }
  unfold flat_urls in Hflat.
  destruct (web w url) as [r|e]; [|by injection Hflat as <-].
  destruct (status_code r =? 200); [|by injection Hflat as <-].
  destruct (ET_fromstring (text r)) as [root|]; [|by injection Hflat as <-].
  specialize (Hpages root).
  destruct (page_urls root), (sitemap_entries root); try done; by injection Hflat as <-.
Qed.

(** X24: a sitemap index that lists itself does not keep the fetcher busy
    for ever.  For a document that consists of one sub-sitemap entry whose
    stripped [loc] text is the URL of the document itself, with room for
    [fuel + 1] calls of the fetcher: the nested call for which no room is
    left raises [RecursionError], which is caught, and the fetcher returns
    the empty list; it has requested the document, and after that only
    requested it again and paused for a second; it has changed no file and
    submitted nothing. *)
Theorem fetch_self_referencing_index_ends
    (fuel : nat) (url loc_text : string) (w : world) (r : response) (root : ET.Element) :
  web w url = Reply r → status_code r = 200 →
  ET_fromstring (text r) = Some root →
  ET.children root = [sitemap_entry loc_text] →
  loc_text ≠ EmptyString → Py.strip loc_text = url →
  ∃ w' evs,
    fetch_sitemap_urls (S fuel) url w = Ret [] w' ∧
    trace w' = trace w ++ EGet url :: evs ∧
    Forall (λ ev, ev = EGet url ∨ ev = ESleep 1) evs ∧
    fs w' = fs w ∧ posts w' = posts w.
Proof.
  intros Hweb Hs Hparse Hchildren Htext Hstrip.
  assert (Py.truthy loc_text = true) as Htruthy by (by destruct loc_text).
  assert (loc_urls (sm "loc") (ET.findall (sm "url") root) = []) as H1.
  { unfold ET.findall. rewrite Hchildren.
    by rewrite filter_cons_False
      by (cbn [ET.tag sitemap_entry]; intros H; vm_compute in H; discriminate H). }
  assert (loc_urls "loc" (ET.findall_descendants "url" root) = []) as H2.
  { unfold ET.findall_descendants. rewrite Hchildren.
    cbn [flat_map ET.iter ET.children sitemap_entry app].
    by rewrite !filter_cons_False
      by (cbn [ET.tag]; intros H; vm_compute in H; discriminate H). }
  assert (ET.findall (sm "sitemap") root = [sitemap_entry loc_text]) as H3.
  { unfold ET.findall. rewrite Hchildren. by rewrite filter_cons_True by reflexivity. }
  assert (ET.find (sm "loc") (sitemap_entry loc_text)
          = Some (ET.mkElement (sm "loc") (Some loc_text) [])) as H4.
  { unfold ET.find, ET.findall. cbn [ET.children sitemap_entry].
    by rewrite filter_cons_True by reflexivity. }
  assert (∀ w0, web w0 = web w →
            ∃ w', fetch_sitemap_urls (S fuel) url w0 = Ret [] w' ∧
                  web w' = web w ∧
                  trace w' = trace w0 ++ replicate (S fuel) (EGet url)
                                      ++ replicate fuel (ESleep 1) ∧
                  fs w' = fs w0 ∧ posts w' = posts w0) as Hall.
  { clear Htext. induction fuel as [|fuel IH]; intros w0 Hweb0.
    - cbn [fetch_sitemap_urls]. to_parsed_document w0.
      rewrite H1, H2, H3. cbn [for_each]. rewrite H4.
      cbn [ET.text]. rewrite Htruthy. run.
      eexists. split; [reflexivity|]. cbn. by rewrite ?app_nil_r.
    - remember (S fuel) as f eqn:Hf.
      cbn [fetch_sitemap_urls]. to_parsed_document w0.
      rewrite H1, H2, H3. cbn [for_each]. rewrite H4.
      cbn [ET.text]. rewrite Htruthy, Hstrip. run. rewrite Hf. cbn [nested]. rewrite <- Hf.
      match goal with
      | |- context [fetch_sitemap_urls _ url ?W] =>
          destruct (IH W) as (w1 & Hrun1 & Hw1 & Ht1 & Hf1 & Hp1); [exact Hweb0|]
      end.
      rewrite Hrun1. cbn. eexists. split; [reflexivity|]. cbn.
      rewrite Hw1, Ht1, Hf1, Hp1. cbn. split; [done|]. split; [|done].
      rewrite <- !app_assoc. cbn [app]. do 3 f_equal.
      by rewrite Hf, replicate_S_end. }
  destruct (Hall w eq_refl) as (w' & Hrun & _ & Ht & Hf & Hp).
  exists w', (replicate fuel (EGet url) ++ replicate fuel (ESleep 1)).
  split; [done|]. split; [done|]. split; [|done].
  apply Forall_app. split; apply Forall_replicate; auto.
Qed.

End FetchProperties.



(** ** More about a whole run *)

Section MainMoreFacts.

Local Open Scope string_scope.

Lemma prefix_app (old rest : string) : String.prefix old (old ++ rest) = true.
Proof.
  induction old as [|c old IH]; [by destruct rest|].
  rewrite append_cons. cbn [String.prefix]. by destruct (ascii_dec c c).
Qed.

(** [old in s] holds for every [s] in which [old] occurs. *)
Lemma contains_app (old before rest : string) :
  Py.contains old (before ++ old ++ rest) = true.
Proof.
  induction before as [|c before IH].
  - rewrite append_nil_l. destruct (old ++ rest) eqn:E; cbn [Py.contains];
      rewrite <- E, prefix_app; done.
  - rewrite append_cons. cbn [Py.contains]. rewrite IH. apply orb_true_r.
Qed.

Lemma validate_configuration_rejects (w : world) :
  String.eqb API_KEY "your-api-key-here" = true ∨
  Py.contains "yourdomain.com" SITE_URL = true ∨
  Py.contains "yourdomain.com" SITEMAP_URL = true →
  ∃ w', validate_configuration w = Ret false w' ∧ after w 0 [] w'.
Proof.
  intros Hbad. unfold validate_configuration.
  destruct (String.eqb API_KEY "your-api-key-here"); [eexists; split; [done|frame]|].
  destruct (Py.contains "yourdomain.com" SITE_URL); [eexists; split; [done|frame]|].
  destruct (Py.contains "yourdomain.com" SITEMAP_URL); [eexists; split; [done|frame]|].
  by destruct Hbad as [?|[?|?]].
Qed.

Local Close Scope string_scope.

(** The run of [main] up to the diff: with a valid configuration and a
    sitemap that needs no nested call, [main] is what is left of it after
    step 3, in a world that differs by the request for the sitemap. *)
Lemma main_run_empty (fuel : nat) (w : world) :
  String.eqb API_KEY "your-api-key-here" = false →
  Py.contains "yourdomain.com" SITE_URL = false →
  Py.contains "yourdomain.com" SITEMAP_URL = false →
  flat_urls w SITEMAP_URL = Some [] →
  ∃ w', main (S fuel) w = Ret tt w' ∧ after w 0 [EGet SITEMAP_URL] w'.
Proof.
  intros Hkey Hsite Hmap Hflat.
  pose proof (eq_refl (main (S fuel) w)) as E. unfold main at 2 in E.
  rewrite !bind_log in E.
  rewrite (bind_run _ _ _ _ _ (validate_configuration_ok _ Hkey Hsite Hmap)) in E.
  cbn [negb] in E. rewrite bind_log in E.
  match type of E with
  | _ = bind _ _ ?W =>
      destruct (fetch_flat fuel SITEMAP_URL W []) as (w1 & Hfetch & Hw1);
        [by rewrite (flat_urls_web w W)|]
  end.
  rewrite (bind_run _ _ _ _ _ Hfetch) in E. cbv beta iota in E.
  rewrite bind_log in E. unfold log_message in E.
  eexists. split; [exact E|].
  destruct Hw1 as (Hw1 & He1 & Hf1 & Hp1 & Ht1). unfold after. cbn in *.
  rewrite Hw1, He1, Hf1, Hp1, Ht1. done.
Qed.

Lemma main_run_nothing_new (fuel : nat) (w : world) (all_urls : list string) :
  String.eqb API_KEY "your-api-key-here" = false →
  Py.contains "yourdomain.com" SITE_URL = false →
  Py.contains "yourdomain.com" SITEMAP_URL = false →
  flat_urls w SITEMAP_URL = Some all_urls →
  all_urls ≠ [] →
  get_new_urls all_urls (ledger (fs w)) = [] →
  ∃ w', main (S fuel) w = Ret tt w' ∧ after w 0 [EGet SITEMAP_URL] w'.
Proof.
  intros Hkey Hsite Hmap Hflat Hne Hnew.
  pose proof (eq_refl (main (S fuel) w)) as E. unfold main at 2 in E.
  rewrite !bind_log in E.
  rewrite (bind_run _ _ _ _ _ (validate_configuration_ok _ Hkey Hsite Hmap)) in E.
  cbn [negb] in E. rewrite bind_log in E.
  match type of E with
  | _ = bind _ _ ?W =>
      destruct (fetch_flat fuel SITEMAP_URL W all_urls) as (w1 & Hfetch & Hw1);
        [by rewrite (flat_urls_web w W)|]
  end.
  rewrite (bind_run _ _ _ _ _ Hfetch) in E.
  destruct all_urls as [|u0 us0] eqn:Hall; [done|]. rewrite <- Hall in *.
  rewrite !bind_log in E.
  match type of E with
  | _ = bind _ _ ?W =>
      destruct (load_submitted_urls_run W) as (w2 & Hload & Hfs2 & Hw2)
  end.
  rewrite (bind_run _ _ _ _ _ Hload) in E. rewrite bind_log in E.
  destruct Hw1 as (Hweb1 & Hend1 & Hfs1 & Hposts1 & Htrace1).
  destruct Hw2 as (Hweb2 & Hend2 & _ & Hposts2 & Htrace2).
  cbn [fs web endpoint posts trace add_log] in *.
  rewrite Hfs1 in *. cbv zeta in E. rewrite Hnew in E.
  rewrite bind_log in E. unfold log_message in E.
  eexists. split; [exact E|]. unfold after. cbn.
  rewrite Hweb2, Hweb1, Hend2, Hend1, Hfs2, Hposts2, Hposts1, Htrace2, Htrace1, app_nil_r.
  repeat split; lia.
Qed.

(** The run of [main] up to step 6, for a sitemap that needs no nested call
    and whose URLs are lines, some of them new. *)
Lemma main_run_staged (fuel : nat) (w : world) (all_urls : list string) :
  String.eqb API_KEY "your-api-key-here" = false →
  Py.contains "yourdomain.com" SITE_URL = false →
  Py.contains "yourdomain.com" SITEMAP_URL = false →
  flat_urls w SITEMAP_URL = Some all_urls →
  Forall (λ u, is_line u = true) all_urls →
  get_new_urls all_urls (ledger (fs w)) ≠ [] →
  ∃ w0,
    web w0 = web w ∧ endpoint w0 = endpoint w ∧ posts w0 = posts w ∧
    trace w0 = trace w ++ [EGet SITEMAP_URL] ∧
    fs w0 = <[URLS_FILE := Py.write_lines (get_new_urls all_urls (ledger (fs w)))]> (fs w) ∧
    ∀ success w1,
      submit_and_record (S fuel) (get_new_urls all_urls (ledger (fs w))) w0
      = Ret success w1 →
      ∃ w2, main (S fuel) w = Ret tt w2 ∧
            web w2 = web w1 ∧ endpoint w2 = endpoint w1 ∧ posts w2 = posts w1 ∧
            trace w2 = trace w1 ∧ fs w2 = fs w1.
Proof using list_of_set_perm.
  intros Hkey Hsite Hmap Hflat Hlines Hnew.
  assert (Forall (λ u, is_line u = true) (get_new_urls all_urls (ledger (fs w))))
    as Hnewlines.
  { rewrite Forall_forall in Hlines |- *. intros u Hu.
    apply elem_of_get_new_urls in Hu as [Hu _]. by apply Hlines. }
  assert (all_urls ≠ []) as Hpages.
  { intros Hnil. destruct (get_new_urls all_urls (ledger (fs w))) as [|u us] eqn:E; [done|].
    assert (u ∈ get_new_urls all_urls (ledger (fs w))) as Hu by (rewrite E; left).
    apply elem_of_get_new_urls in Hu as [Hu _]. rewrite Hnil in Hu. by apply elem_of_nil in Hu. }
  pose proof (eq_refl (main (S fuel) w)) as E. unfold main at 2 in E.
  rewrite !bind_log in E.
  rewrite (bind_run _ _ _ _ _ (validate_configuration_ok _ Hkey Hsite Hmap)) in E.
  cbn [negb] in E. rewrite bind_log in E.
  match type of E with
  | _ = bind _ _ ?W =>
      destruct (fetch_flat fuel SITEMAP_URL W all_urls) as (w1 & Hfetch & Hw1);
        [by rewrite (flat_urls_web w W)|]
  end.
  rewrite (bind_run _ _ _ _ _ Hfetch) in E.
  destruct all_urls as [|u0 us0] eqn:Hp; [done|]. rewrite <- Hp in *.
  rewrite !bind_log in E.
  match type of E with
  | _ = bind _ _ ?W =>
      destruct (load_submitted_urls_run W) as (w2 & Hload & Hfs2 & Hw2)
  end.
  rewrite (bind_run _ _ _ _ _ Hload) in E. rewrite bind_log in E.
  destruct Hw1 as (Hweb1 & Hend1 & Hfs1 & Hposts1 & Htrace1).
  destruct Hw2 as (Hweb2 & Hend2 & _ & Hposts2 & Htrace2).
  cbn [fs web endpoint posts trace add_log] in *.
  rewrite Hfs1 in *.
  destruct (get_new_urls all_urls (ledger (fs w))) as [|u1 us1] eqn:Hn; [done|].
  rewrite <- Hn in *.
  rewrite !bind_log in E.
  rewrite (bind_run _ _ _ _ _ (save_urls_to_file_run _ _ _)) in E.
  cbn [negb] in E. rewrite bind_log in E.
  match type of E with
  | _ = bind _ _ ?W =>
      rewrite (bind_run _ _ _ _ _
                 (load_urls_from_file_run URLS_FILE _ W (lookup_insert_eq _ _ _))) in E
  end.
  rewrite stripped_lines_write_lines in E by done.
  rewrite Hn in E. cbv iota in E. rewrite <- Hn in E.
  match type of E with _ = bind _ _ ?W0 => exists W0 end.
  split_and!.
  - cbn. by rewrite Hweb2.
  - cbn. by rewrite Hend2.
  - cbn. rewrite Hposts2, Hposts1. lia.
  - cbn. by rewrite Htrace2, Htrace1, app_nil_r.
  - cbn. by rewrite Hfs2.
  - intros success w3 Hsub.
    rewrite (bind_run _ _ _ _ _ Hsub) in E. rewrite !bind_log in E.
    unfold log_message in E. eexists. split; [exact E|]. done.
Qed.

(** Steps 6 and 7 against an endpoint that gives a final reply after [n]
    answers 429. *)
Lemma submit_and_record_final (fuel n : nat) (urls : list string) (w : world) :
  urls ≠ [] → rate_limited w n → final_reply (endpoint w (posts w + n)%nat) →
  (n < fuel)%nat →
  ∃ w', submit_and_record fuel urls w
        = Ret (success_of (endpoint w (posts w + n)%nat)) w' ∧
        web w' = web w ∧ endpoint w' = endpoint w ∧ posts w' = (posts w + S n)%nat ∧
        trace w' = trace w ++ attempts n (batch urls) ∧
        fs w' = if success_of (endpoint w (posts w + n)%nat)
                then <[SUBMITTED_URLS_FILE :=
                         default EmptyString (fs w !! SUBMITTED_URLS_FILE)
                         +:+ Py.write_lines urls]> (fs w)
                else fs w.
Proof.
  intros Hne Hlim Hfin Hfuel.
  set (w0 := add_log (Py.NL +:+ "Step 6: Submitting new URLs to IndexNow...") w).
  destruct (submit_run n fuel urls w0) as (w1 & Hw1 & Hrun1); [done..|].
  cbn [endpoint posts w0 add_log] in Hrun1.
  destruct Hw1 as (Hweb1 & Hend1 & Hf1 & Hp1 & Ht1).
  apply submit_and_record_run in Hrun1 as (w2 & Hrun2 & Hweb2 & Hend2 & Hp2 & Ht2 & Hf2).
  exists w2. split; [done|]. rewrite Hweb2, Hend2, Hp2, Ht2, Hf2, Hweb1, Hend1, Hp1, Ht1, Hf1.
  done.
Qed.

Lemma ledger_insert_other (files : gmap string string) (data : string) :
  ledger (<[URLS_FILE := data]> files) = ledger files.
Proof. unfold ledger. by rewrite lookup_insert_ne. Qed.

(** A whole run on a sitemap that needs no nested call, whose URLs are
    lines and some of them new, against an endpoint that gives a final reply
    after [n] answers 429. *)
Lemma main_run_final (fuel n : nat) (w : world) (all_urls : list string) :
  String.eqb API_KEY "your-api-key-here" = false →
  Py.contains "yourdomain.com" SITE_URL = false →
  Py.contains "yourdomain.com" SITEMAP_URL = false →
  flat_urls w SITEMAP_URL = Some all_urls →
  Forall (λ u, is_line u = true) all_urls →
  get_new_urls all_urls (ledger (fs w)) ≠ [] →
  rate_limited w n → final_reply (endpoint w (posts w + n)%nat) →
  (n < fuel)%nat →
  ∃ w', main fuel w = Ret tt w' ∧
        web w' = web w ∧ endpoint w' = endpoint w ∧ posts w' = (posts w + S n)%nat ∧
        trace w' = trace w ++ EGet SITEMAP_URL
                     :: attempts n (batch (get_new_urls all_urls (ledger (fs w)))) ∧
        fs w' = if success_of (endpoint w (posts w + n)%nat)
                then <[SUBMITTED_URLS_FILE :=
                         default EmptyString (fs w !! SUBMITTED_URLS_FILE)
                         +:+ Py.write_lines (get_new_urls all_urls (ledger (fs w)))]>
                       (<[URLS_FILE := Py.write_lines (get_new_urls all_urls (ledger (fs w)))]>
                          (fs w))
                else <[URLS_FILE := Py.write_lines (get_new_urls all_urls (ledger (fs w)))]>
                       (fs w).
Proof using list_of_set_perm.
  intros Hkey Hsite Hmap Hflat Hlines Hnew Hlim Hfin Hfuel.
  destruct fuel as [|fuel]; [lia|].
  destruct (main_run_staged fuel w all_urls)
    as (w0 & Hweb0 & Hend0 & Hposts0 & Htrace0 & Hfs0 & Hrest); [done..|].
  destruct (submit_and_record_final (S fuel) n (get_new_urls all_urls (ledger (fs w))) w0)
    as (w1 & Hrun & Hweb1 & Hend1 & Hposts1 & Htrace1 & Hfs1).
  { done. }
  { intros i Hi. rewrite Hend0, Hposts0. by apply Hlim. }
  { by rewrite Hend0, Hposts0. }
  { done. }
  rewrite Hend0, Hposts0 in Hrun, Hfs1.
  destruct (Hrest _ w1 Hrun) as (w2 & Hmain & Hweb2 & Hend2 & Hposts2 & Htrace2 & Hfs2).
  exists w2. split; [done|].
  rewrite Hweb2, Hend2, Hposts2, Htrace2, Hfs2, Hweb1, Hend1, Hposts1, Htrace1, Hfs1.
  rewrite Hweb0, Hend0, Hposts0, Htrace0, Hfs0, <- app_assoc.
  rewrite lookup_insert_ne by done. done.
Qed.

(** What is new once the new URLs are in the ledger: nothing. *)
Lemma get_new_urls_after (all_urls : list string) (submitted_urls : gset string) :
  get_new_urls all_urls
    (submitted_urls ∪ list_to_set (get_new_urls all_urls submitted_urls)) = [].
Proof using list_of_set_perm.
  destruct (get_new_urls all_urls (submitted_urls ∪ _)) as [|u us] eqn:E; [done|].
  assert (u ∈ get_new_urls all_urls
                (submitted_urls ∪ list_to_set (get_new_urls all_urls submitted_urls)))
    as Hu by (rewrite E; left).
  apply elem_of_get_new_urls in Hu as [Hin Hnot]. exfalso. apply Hnot.
  destruct (decide (u ∈ submitted_urls)); [by apply elem_of_union_l|].
  apply elem_of_union_r, elem_of_list_to_set, elem_of_get_new_urls. done.
Qed.

Lemma get_new_urls_length (all_urls : list string) (submitted_urls : gset string) :
  (length (get_new_urls all_urls submitted_urls) ≤ length all_urls)%nat.
Proof using list_of_set_perm.
  apply submseteq_length, NoDup_submseteq; [apply NoDup_get_new_urls|].
  by intros u [Hu _]%elem_of_get_new_urls.
Qed.

Lemma get_new_urls_nil_iff (all_urls : list string) (submitted_urls : gset string) :
  get_new_urls all_urls submitted_urls = [] ↔ ∀ u, u ∈ all_urls → u ∈ submitted_urls.
Proof using list_of_set_perm.
  split.
  - intros Hnil u Hu. destruct (decide (u ∈ submitted_urls)) as [|Hn]; [done|].
    assert (u ∈ get_new_urls all_urls submitted_urls) as H by (by apply elem_of_get_new_urls).
    rewrite Hnil in H. by apply elem_of_nil in H.
  - intros Hall. destruct (get_new_urls all_urls submitted_urls) as [|u us] eqn:E; [done|].
    assert (u ∈ get_new_urls all_urls submitted_urls) as Hu by (rewrite E; left).
    apply elem_of_get_new_urls in Hu as [Hin Hnot]. by apply Hall in Hin.
Qed.

End MainMoreFacts.



(** ** Properties of a whole run and of the diff *)

Section MainProperties.

(** X13: with the placeholder API key, or a site URL or sitemap URL that
    contains [yourdomain.com] anywhere, [main] ends at once, whatever the
    fuel: no request is sent and no file is changed. *)
Theorem main_stops_on_placeholder_configuration (fuel : nat) (w : world) :
  API_KEY = "your-api-key-here" ∨
  (∃ before rest, SITE_URL = before +:+ "yourdomain.com" +:+ rest) ∨
  (∃ before rest, SITEMAP_URL = before +:+ "yourdomain.com" +:+ rest) →
  ∃ w', main fuel w = Ret tt w' ∧
        trace w' = trace w ∧ fs w' = fs w ∧ posts w' = posts w.
Proof.
  intros Hbad.
  destruct (validate_configuration_rejects
              (add_log rule (add_log "IndexNow Auto Submitter - Starting" (add_log rule w))))
    as (w1 & Hval & Hw1).
  { destruct Hbad as [->|[(a & b & ->)|(a & b & ->)]].
    - left. apply String.eqb_refl.
    - right. left. apply contains_app.
    - right. right. apply contains_app. }
  unfold main. rewrite !bind_log, (bind_run _ _ _ _ _ Hval). cbn [negb].
  rewrite bind_log. unfold log_message. eexists. split; [done|].
  destruct Hw1 as (_ & _ & Hf & Hp & Ht). cbn in *.
  rewrite Hf, Hp, Ht, app_nil_r. repeat split; lia.
Qed.

(** X14: with a valid configuration, when the sitemap gives no URL (it
    cannot be retrieved or parsed, or it has no entry with a [loc]), [main]
    ends after the one request for the sitemap: nothing is submitted and no
    file is changed. *)
Theorem main_stops_without_urls (fuel : nat) (w : world) :
  String.eqb API_KEY "your-api-key-here" = false →
  Py.contains "yourdomain.com" SITE_URL = false →
  Py.contains "yourdomain.com" SITEMAP_URL = false →
  flat_urls w SITEMAP_URL = Some [] →
  ∃ w', main (S fuel) w = Ret tt w' ∧
        trace w' = trace w ++ [EGet SITEMAP_URL] ∧ fs w' = fs w ∧ posts w' = posts w.
Proof.
  intros Hkey Hsite Hmap Hflat.
  destruct (main_run_empty fuel w) as (w' & Hrun & (_ & _ & Hf & Hp & Ht)); [done..|].
  exists w'. rewrite Nat.add_0_r in Hp. done.
Qed.

(** X15: with a valid configuration, when every URL of the sitemap is in the
    ledger already, [main] ends after the one request for the sitemap:
    nothing is submitted and no file is changed, the staging file
    included. *)
Theorem main_stops_when_nothing_is_new
    (fuel : nat) (w : world) (all_urls : list string) :
  String.eqb API_KEY "your-api-key-here" = false →
  Py.contains "yourdomain.com" SITE_URL = false →
  Py.contains "yourdomain.com" SITEMAP_URL = false →
  flat_urls w SITEMAP_URL = Some all_urls →
  (∀ u, u ∈ all_urls → u ∈ ledger (fs w)) →
  ∃ w', main (S fuel) w = Ret tt w' ∧
        trace w' = trace w ++ [EGet SITEMAP_URL] ∧ fs w' = fs w ∧ posts w' = posts w.
Proof using list_of_set_perm.
  intros Hkey Hsite Hmap Hflat Hall.
  destruct all_urls as [|u0 us0] eqn:E.
  { destruct (main_run_empty fuel w) as (w' & Hrun & (_ & _ & Hf & Hp & Ht)); [done..|].
    exists w'. rewrite Nat.add_0_r in Hp. done. }
  rewrite <- E in *.
  destruct (main_run_nothing_new fuel w all_urls)
    as (w' & Hrun & (_ & _ & Hf & Hp & Ht)); [done..|by rewrite E|by apply get_new_urls_nil_iff|].
  exists w'. rewrite Nat.add_0_r in Hp. done.
Qed.

(** X16: a whole successful run.  With a valid configuration, a sitemap
    that lists pages, all of them lines and at least one and at most 10,000
    of them new, a ledger file that is absent or ended by a line feed, and
    an endpoint that accepts after [n] answers of 429, where the recursion
    limit leaves room for more than [n] calls of the client: [main] sends
    the request for the sitemap and then the requests of the client, each
    to the IndexNow endpoint and each with the new URLs as its URL list (the
    URLs of the sitemap that were not in the ledger, and no other);
    afterwards the staging file holds the new URLs, the ledger holds what
    it held and every URL of the sitemap, and nothing of the sitemap is new
    any more. *)
Theorem main_success_records_what_was_sent
    (fuel n : nat) (w : world) (all_urls : list string) (r : response) :
  String.eqb API_KEY "your-api-key-here" = false →
  Py.contains "yourdomain.com" SITE_URL = false →
  Py.contains "yourdomain.com" SITEMAP_URL = false →
  flat_urls w SITEMAP_URL = Some all_urls →
  Forall (λ u, is_line u = true) all_urls →
  get_new_urls all_urls (ledger (fs w)) ≠ [] →
  Z.of_nat (length (get_new_urls all_urls (ledger (fs w)))) ≤ 10000 →
  line_terminated (default EmptyString (fs w !! SUBMITTED_URLS_FILE)) = true →
  rate_limited w n →
  endpoint w (posts w + n)%nat = Reply r →
  status_code r = 200 ∨ status_code r = 202 →
  (n < fuel)%nat →
  ∃ w', main fuel w = Ret tt w' ∧
        trace w' = trace w ++ EGet SITEMAP_URL
                     :: attempts n (get_new_urls all_urls (ledger (fs w))) ∧
        (∀ url json,
           EPost url json ∈ attempts n (get_new_urls all_urls (ledger (fs w))) →
           url = INDEXNOW_ENDPOINT ∧
           urlList json = get_new_urls all_urls (ledger (fs w)) ∧
           ∀ u, u ∈ urlList json ↔ u ∈ all_urls ∧ u ∉ ledger (fs w)) ∧
        fs w' !! URLS_FILE = Some (Py.write_lines (get_new_urls all_urls (ledger (fs w)))) ∧
        ledger (fs w') = ledger (fs w) ∪ list_to_set all_urls ∧
        get_new_urls all_urls (ledger (fs w')) = [].
Proof using list_of_set_perm.
  intros Hkey Hsite Hmap Hflat Hlines Hnew Hshort Hold Hlim Hr Hs Hfuel.
  destruct (main_run_final fuel n w all_urls)
    as (w' & Hrun & _ & _ & _ & Ht & Hf); [done..|by rewrite Hr; cbn; lia|done|].
  rewrite Hr in Hf. cbn [success_of] in Hf.
  replace (accepted (status_code r)) with true in Hf
    by (unfold accepted; destruct Hs as [-> | ->]; done).
  rewrite batch_short in Ht by done.
  assert (Forall (λ u, is_line u = true) (get_new_urls all_urls (ledger (fs w))))
    as Hnewlines.
  { rewrite Forall_forall in Hlines |- *. intros u Hu.
    apply elem_of_get_new_urls in Hu as [Hu _]. by apply Hlines. }
  assert (ledger (fs w')
          = ledger (fs w) ∪ list_to_set (get_new_urls all_urls (ledger (fs w)))) as Hl.
  { unfold ledger at 1. rewrite Hf, lookup_insert_eq.
    rewrite stripped_lines_app, stripped_lines_write_lines, list_to_set_app_L by done.
    f_equal. unfold ledger. by destruct (fs w !! SUBMITTED_URLS_FILE). }
  exists w'. split; [done|]. split; [done|]. split.
  { intros url json [-> Hlist]%attempts_carry. split; [done|]. split; [done|].
    intros u. rewrite Hlist. apply elem_of_get_new_urls. }
  split; [by rewrite Hf, lookup_insert_ne, lookup_insert_eq|].
  split; [|rewrite Hl; apply get_new_urls_after].
  rewrite Hl. apply set_eq. intros u.
  rewrite !elem_of_union, !elem_of_list_to_set, elem_of_get_new_urls.
  destruct (decide (u ∈ ledger (fs w))); tauto.
Qed.

(** X17: running again after a successful run submits nothing.  Under the
    conditions of X16, a second run of [main] in the world the first one
    left sends the request for the sitemap and nothing else, and changes no
    file. *)
Theorem main_second_run_submits_nothing
    (fuel n : nat) (w : world) (all_urls : list string) (r : response) :
  String.eqb API_KEY "your-api-key-here" = false →
  Py.contains "yourdomain.com" SITE_URL = false →
  Py.contains "yourdomain.com" SITEMAP_URL = false →
  flat_urls w SITEMAP_URL = Some all_urls →
  Forall (λ u, is_line u = true) all_urls →
  get_new_urls all_urls (ledger (fs w)) ≠ [] →
  line_terminated (default EmptyString (fs w !! SUBMITTED_URLS_FILE)) = true →
  rate_limited w n →
  endpoint w (posts w + n)%nat = Reply r →
  status_code r = 200 ∨ status_code r = 202 →
  (n < fuel)%nat →
  ∃ w' w'',
    main fuel w = Ret tt w' ∧
    main fuel w' = Ret tt w'' ∧
    trace w'' = trace w' ++ [EGet SITEMAP_URL] ∧
    posts w'' = posts w' ∧ fs w'' = fs w'.
Proof using list_of_set_perm.
  intros Hkey Hsite Hmap Hflat Hlines Hnew Hold Hlim Hr Hs Hfuel.
  destruct (main_run_final fuel n w all_urls)
    as (w' & Hrun & Hweb & _ & _ & _ & Hf); [done..|by rewrite Hr; cbn; lia|done|].
  rewrite Hr in Hf. cbn [success_of] in Hf.
  replace (accepted (status_code r)) with true in Hf
    by (unfold accepted; destruct Hs as [-> | ->]; done).
  assert (Forall (λ u, is_line u = true) (get_new_urls all_urls (ledger (fs w))))
    as Hnewlines.
  { rewrite Forall_forall in Hlines |- *. intros u Hu.
    apply elem_of_get_new_urls in Hu as [Hu _]. by apply Hlines. }
  assert (ledger (fs w')
          = ledger (fs w) ∪ list_to_set (get_new_urls all_urls (ledger (fs w)))) as Hl.
  { unfold ledger at 1. rewrite Hf, lookup_insert_eq.
    rewrite stripped_lines_app, stripped_lines_write_lines, list_to_set_app_L by done.
    f_equal. unfold ledger. by destruct (fs w !! SUBMITTED_URLS_FILE). }
  assert (all_urls ≠ []) as Hne.
  { intros ->. apply Hnew. apply get_new_urls_nil_iff. by intros u ?%elem_of_nil. }
  destruct fuel as [|fuel]; [lia|].
  destruct (main_run_nothing_new fuel w' all_urls)
    as (w'' & Hrun' & (_ & _ & Hf' & Hp' & Ht')); [done..| |done| |].
  { by rewrite (flat_urls_web w w'). }
  { rewrite Hl. apply get_new_urls_after. }
  exists w', w''. rewrite Nat.add_0_r in Hp'. done.
Qed.

(** X18: a whole run that ends in a failed submission.  With a valid
    configuration and a sitemap whose URLs are lines, some of them new, when
    the final reply of the endpoint is a transport failure or a status other
    than 200 and 202, [main] still ends normally; the new URLs are in the
    staging file, the ledger is what it was, and the same URLs are new for
    the next run. *)
Theorem main_failure_keeps_ledger
    (fuel n : nat) (w : world) (all_urls : list string) :
  String.eqb API_KEY "your-api-key-here" = false →
  Py.contains "yourdomain.com" SITE_URL = false →
  Py.contains "yourdomain.com" SITEMAP_URL = false →
  flat_urls w SITEMAP_URL = Some all_urls →
  Forall (λ u, is_line u = true) all_urls →
  get_new_urls all_urls (ledger (fs w)) ≠ [] →
  rate_limited w n →
  final_reply (endpoint w (posts w + n)%nat) →
  success_of (endpoint w (posts w + n)%nat) = false →
  (n < fuel)%nat →
  ∃ w', main fuel w = Ret tt w' ∧
        trace w' = trace w ++ EGet SITEMAP_URL
                     :: attempts n (batch (get_new_urls all_urls (ledger (fs w)))) ∧
        fs w' !! URLS_FILE = Some (Py.write_lines (get_new_urls all_urls (ledger (fs w)))) ∧
        fs w' !! SUBMITTED_URLS_FILE = fs w !! SUBMITTED_URLS_FILE ∧
        ledger (fs w') = ledger (fs w) ∧
        get_new_urls all_urls (ledger (fs w')) = get_new_urls all_urls (ledger (fs w)).
Proof using list_of_set_perm.
  intros Hkey Hsite Hmap Hflat Hlines Hnew Hlim Hfin Hfail Hfuel.
  destruct (main_run_final fuel n w all_urls)
    as (w' & Hrun & _ & _ & _ & Ht & Hf); [done..|].
  rewrite Hfail in Hf.
  assert (ledger (fs w') = ledger (fs w)) as Hl by (rewrite Hf; apply ledger_insert_other).
  exists w'. split; [done|]. split; [done|].
  split; [by rewrite Hf, lookup_insert_eq|].
  split; [by rewrite Hf, lookup_insert_ne|]. split; [done|]. by rewrite Hl.
Qed.

(** X19: the diff and the ledger together.  Nothing is new exactly when
    every URL of the list is in the submitted set; once the URLs that
    [get_new_urls] returned are added to the submitted set, nothing of the
    list is new; and the new URLs are never more than the URLs of the
    list. *)
Theorem get_new_urls_empty_when_recorded
    (all_urls : list string) (submitted_urls : gset string) :
  (get_new_urls all_urls submitted_urls = [] ↔
   ∀ u, u ∈ all_urls → u ∈ submitted_urls) ∧
  get_new_urls all_urls
    (submitted_urls ∪ list_to_set (get_new_urls all_urls submitted_urls)) = [] ∧
  (length (get_new_urls all_urls submitted_urls) ≤ length all_urls)%nat.
Proof using list_of_set_perm.
  split; [apply get_new_urls_nil_iff|]. split; [apply get_new_urls_after|].
  apply get_new_urls_length.
Qed.

End MainProperties.

(** ** What no run does *)

Section RunFacts.

Lemma safe_ret {A} (a : A) : safe (ret a).
Proof. by intros w e w'. Qed.

Lemma safe_log (line : string) : safe (log_message line).
Proof. by intros w e w'. Qed.

Lemma safe_bind {A B} (m : M A) (k : A → M B) :
  safe m → (∀ a, safe (k a)) → safe (bind m k).
Proof. intros Hm Hk w e w'. apply bind_no_exc; [apply Hm|intros a; apply Hk]. Qed.

Lemma safe_try_except {A} (m : M A) (h : exn → M A) :
  (∀ e, safe (h e)) → safe (try_except m h).
Proof. intros Hh w e w'. apply try_except_no_exc. intros e0; apply Hh. Qed.

Lemma safe_validate_configuration : safe validate_configuration.
Proof.
  unfold validate_configuration.
  repeat (match goal with |- safe (if ?b then _ else _) => destruct b end);
    try apply safe_ret; (apply safe_bind; [apply safe_log|intros _; apply safe_ret]).
Qed.

Lemma safe_submit_and_record fuel urls : safe (submit_and_record fuel urls).
Proof.
  unfold submit_and_record, save_submitted_urls.
  apply safe_bind; [apply safe_log|intros _].
  apply safe_bind; [intros w e w'; apply submit_no_exc|intros success].
  apply safe_bind; [|intros _; apply safe_ret].
  destruct success.
  - apply safe_bind; [apply safe_log|intros _].
    apply safe_bind; [|intros _; apply safe_ret].
    apply safe_try_except. intros e.
    apply safe_bind; [apply safe_log|intros _; apply safe_ret].
  - apply safe_bind; [apply safe_log|intros _; apply safe_log].
Qed.

(** [main] handles every exception of the steps it calls. *)
Lemma safe_main fuel : safe (main fuel).
Proof.
  unfold main.
  do 3 (apply safe_bind; [apply safe_log|intros _]).
  apply safe_bind; [apply safe_validate_configuration|intros valid].
  destruct (negb valid); [apply safe_bind; [apply safe_log|intros _; apply safe_log]|].
  apply safe_bind; [apply safe_log|intros _].
  apply safe_bind; [intros w e w'; apply fetch_no_exc|intros all_urls].
  destruct all_urls as [|u0 us0]; [apply safe_bind; [apply safe_log|intros _; apply safe_log]|].
  do 2 (apply safe_bind; [apply safe_log|intros _]).
  apply safe_bind; [|intros submitted_urls].
  { apply safe_try_except. intros e.
    destruct e; (apply safe_bind; [apply safe_log|intros _; apply safe_ret]). }
  apply safe_bind; [apply safe_log|intros _]. cbv zeta.
  destruct (get_new_urls _ _) as [|u1 us1];
    [apply safe_bind; [apply safe_log|intros _; apply safe_log]|].
  do 2 (apply safe_bind; [apply safe_log|intros _]).
  apply safe_bind; [|intros saved].
  { apply safe_try_except. intros e.
    apply safe_bind; [apply safe_log|intros _; apply safe_ret]. }
  destruct (negb saved); [apply safe_bind; [apply safe_log|intros _; apply safe_log]|].
  apply safe_bind; [apply safe_log|intros _].
  apply safe_bind; [|intros urls_to_submit].
  { apply safe_try_except. intros e.
    destruct e; (apply safe_bind; [apply safe_log|intros _; apply safe_ret]). }
  destruct urls_to_submit as [|u2 us2];
    [apply safe_bind; [apply safe_log|intros _; apply safe_log]|].
  apply safe_bind; [apply safe_submit_and_record|intros success].
  repeat (apply safe_bind; [apply safe_log|intros _]). apply safe_log.
Qed.

Local Open Scope string_scope.

Lemma ledger_extended_refl (w : world) : ledger_extended w w.
Proof. split; [|done]. exists EmptyString. by rewrite append_nil_r. Qed.

Lemma ledger_extended_trans (w1 w2 w3 : world) :
  ledger_extended w1 w2 → ledger_extended w2 w3 → ledger_extended w1 w3.
Proof.
  intros [[a Ha] Ho] [[a' Ha'] Ho']. split.
  - exists (a ++ a'). by rewrite Ha', Ha, append_assoc.
  - intros filename H1 H2. by rewrite Ho', Ho.
Qed.

Lemma ledger_extended_same_files (w w' : world) : fs w' = fs w → ledger_extended w w'.
Proof. intros H. unfold ledger_extended. rewrite H. apply ledger_extended_refl. Qed.

Local Close Scope string_scope.

Lemma extends_log (line : string) : preserves ledger_extended (log_message line).
Proof. intros w. by apply ledger_extended_same_files. Qed.

Lemma extends_ret {A} (a : A) : preserves ledger_extended (ret a).
Proof. apply preserves_ret, ledger_extended_refl. Qed.

Lemma extends_bind {A B} (m : M A) (k : A → M B) :
  preserves ledger_extended m → (∀ a, preserves ledger_extended (k a)) →
  preserves ledger_extended (bind m k).
Proof. apply preserves_bind, ledger_extended_trans. Qed.

Lemma extends_of_run {A} (m : M A) :
  (∀ w, ∃ a w', m w = Ret a w' ∧ ledger_extended w w') → preserves ledger_extended m.
Proof. intros H w. by destruct (H w) as (a & w' & -> & ?). Qed.

Lemma extends_fetch fuel url : preserves ledger_extended (fetch_sitemap_urls fuel url).
Proof.
  intros w. pose proof (fetch_quiet fuel url w) as Hq.
  destruct (fetch_sitemap_urls fuel url w); [| |done];
    destruct Hq as (_ & _ & Hf & _); by apply ledger_extended_same_files.
Qed.

Lemma extends_submit_and_record fuel urls :
  preserves ledger_extended (submit_and_record fuel urls).
Proof.
  unfold submit_and_record.
  apply extends_bind; [apply extends_log|intros _].
  apply extends_bind; [|intros success].
  { intros w. destruct (submit_to_indexnow fuel urls w) as [b w'|e w'|] eqn:E; [| |done].
    - apply ledger_extended_same_files. by apply submit_keeps_files in E.
    - by apply submit_no_exc in E. }
  apply extends_bind; [|intros _; apply extends_ret].
  destruct success.
  - apply extends_bind; [apply extends_log|intros _].
    apply extends_bind; [|intros _; apply extends_ret].
    apply extends_of_run. intros w.
    destruct (save_submitted_urls_run urls w) as (w' & Hrun & Hf & _).
    exists true, w'. split; [done|]. split.
    + eexists. by rewrite Hf, lookup_insert_eq.
    + intros filename H1 H2. by rewrite Hf, lookup_insert_ne.
  - apply extends_bind; [apply extends_log|intros _; apply extends_log].
Qed.

Lemma extends_main fuel : preserves ledger_extended (main fuel).
Proof.
  unfold main.
  do 3 (apply extends_bind; [apply extends_log|intros _]).
  apply extends_bind; [|intros valid].
  { unfold validate_configuration.
    repeat (match goal with |- preserves _ (if ?b then _ else _) => destruct b end);
      try apply extends_ret; (apply extends_bind; [apply extends_log|intros _; apply extends_ret]). }
  destruct (negb valid); [apply extends_bind; [apply extends_log|intros _; apply extends_log]|].
  apply extends_bind; [apply extends_log|intros _].
  apply extends_bind; [apply extends_fetch|intros all_urls].
  destruct all_urls as [|u0 us0];
    [apply extends_bind; [apply extends_log|intros _; apply extends_log]|].
  do 2 (apply extends_bind; [apply extends_log|intros _]).
  apply extends_bind; [|intros submitted_urls].
  { apply extends_of_run. intros w.
    destruct (load_submitted_urls_run w) as (w' & Hrun & Hf & _).
    eexists _, w'. split; [done|]. by apply ledger_extended_same_files. }
  apply extends_bind; [apply extends_log|intros _]. cbv zeta.
  destruct (get_new_urls _ _) as [|u1 us1] eqn:Hnew;
    [apply extends_bind; [apply extends_log|intros _; apply extends_log]|].
  rewrite <- Hnew. clear Hnew.
  do 2 (apply extends_bind; [apply extends_log|intros _]).
  apply extends_bind; [|intros saved].
  { apply extends_of_run. intros w. eexists _, _. split; [apply save_urls_to_file_run|].
    split; cbn.
    - exists EmptyString. by rewrite lookup_insert_ne, append_nil_r.
    - intros filename H1 H2. by rewrite lookup_insert_ne. }
  destruct (negb saved); [apply extends_bind; [apply extends_log|intros _; apply extends_log]|].
  apply extends_bind; [apply extends_log|intros _].
  apply extends_bind; [|intros urls_to_submit].
  { apply extends_of_run. intros w.
    destruct (load_urls_from_file_total URLS_FILE w) as (w' & Hrun & (_ & _ & Hf & _)).
    eexists _, w'. split; [done|]. by apply ledger_extended_same_files. }
  destruct urls_to_submit as [|u2 us2];
    [apply extends_bind; [apply extends_log|intros _; apply extends_log]|].
  apply extends_bind; [apply extends_submit_and_record|intros success].
  repeat (apply extends_bind; [apply extends_log|intros _]). apply extends_log.
Qed.

End RunFacts.

(** ** Properties of every run *)

Section RunProperties.

(** X20: whatever the web and the endpoint do, [main] never ends in an
    exception, and when it returns the ledger file is the old one with
    something appended (nothing of it is removed or rewritten) and no data
    file other than the ledger and the staging file has changed (the log
    is kept apart from the data files, in [log]); if the old file was ended
    by a line feed, every URL of the old ledger is in the new one. *)
Theorem main_only_appends_to_ledger (fuel : nat) (w : world) :
  match main fuel w with
  | Ret _ w' =>
      (∃ added, default EmptyString (fs w' !! SUBMITTED_URLS_FILE)
                = default EmptyString (fs w !! SUBMITTED_URLS_FILE) +:+ added) ∧
      (∀ filename, filename ≠ SUBMITTED_URLS_FILE → filename ≠ URLS_FILE →
                   fs w' !! filename = fs w !! filename) ∧
      (if line_terminated (default EmptyString (fs w !! SUBMITTED_URLS_FILE))
       then ledger (fs w) ⊆ ledger (fs w') else True)
  | Exc _ _ => False
  | OutOfFuel => True
  end.
Proof.
  pose proof (extends_main fuel w) as Hext. pose proof (safe_main fuel w) as Hsafe.
  destruct (main fuel w) as [[] w'|e w'|]; [|by destruct (Hsafe e w')|done].
  destruct Hext as [[added Hadd] Hother]. split; [eauto|]. split; [done|].
  destruct (line_terminated _) eqn:Hold; [|done].
  assert (∀ files, ledger files
            = list_to_set (Py.stripped_lines
                             (default EmptyString (files !! SUBMITTED_URLS_FILE)))) as Hl.
  { intros files. unfold ledger. by destruct (files !! SUBMITTED_URLS_FILE). }
  rewrite !Hl, Hadd, stripped_lines_app, list_to_set_app_L by done.
  apply union_subseteq_l.
Qed.

End RunProperties.

(** ** What is submitted *)

Section PayloadFacts.

Local Open Scope string_scope.

Lemma replace_absent (old new s : string) :
  Py.contains old s = false → Py.replace old new s = s.
Proof.
  unfold Py.replace. induction s as [|c s IH]; [done|].
  cbn [Py.contains Py.replace_from]. intros [Hp Hc]%orb_false_iff.
  rewrite Hp. by rewrite IH.
Qed.

Lemma replace_https (new rest : string) :
  Py.replace "https://" new ("https://" ++ rest) = new ++ Py.replace "https://" new rest.
Proof. by destruct rest. Qed.

Lemma replace_http (new rest : string) :
  Py.replace "http://" new ("http://" ++ rest) = new ++ Py.replace "http://" new rest.
Proof. by destruct rest. Qed.

Lemma contains_https_http (rest : string) :
  Py.contains "https://" ("http://" ++ rest) = Py.contains "https://" rest.
Proof. reflexivity. Qed.

Local Close Scope string_scope.

Lemma sends_well_refl (w : world) : sends_well w w.
Proof. exists []. by rewrite app_nil_r. Qed.

Lemma sends_well_trans (w1 w2 w3 : world) :
  sends_well w1 w2 → sends_well w2 w3 → sends_well w1 w3.
Proof.
  intros (evs & Ht & Hq) (evs' & Ht' & Hq'). exists (evs ++ evs').
  split; [by rewrite Ht', Ht, app_assoc|by apply Forall_app].
Qed.

Lemma sends_well_same_trace (w w' : world) : trace w' = trace w → sends_well w w'.
Proof. intros H. exists []. by rewrite app_nil_r. Qed.

Lemma sends_well_quiet (w w' : world) : quiet w w' → sends_well w w'.
Proof.
  intros (_ & _ & _ & _ & evs & Ht & Hq). exists evs. split; [done|].
  eapply Forall_impl; [done|]. by intros [].
Qed.

Lemma sends_log (line : string) : preserves sends_well (log_message line).
Proof. intros w. by apply sends_well_same_trace. Qed.

Lemma sends_ret {A} (a : A) : preserves sends_well (ret a).
Proof. apply preserves_ret, sends_well_refl. Qed.

Lemma sends_bind {A B} (m : M A) (k : A → M B) :
  preserves sends_well m → (∀ a, preserves sends_well (k a)) →
  preserves sends_well (bind m k).
Proof. apply preserves_bind, sends_well_trans. Qed.

(** A step whose result has a property that the rest relies on. *)
Lemma sends_bind_run {A B} (m : M A) (k : A → M B) (Q : A → Prop) :
  (∀ w, ∃ a w', m w = Ret a w' ∧ trace w' = trace w ∧ Q a) →
  (∀ a, Q a → preserves sends_well (k a)) →
  preserves sends_well (bind m k).
Proof.
  intros Hm Hk w. unfold bind. destruct (Hm w) as (a & w1 & -> & Ht & Ha).
  specialize (Hk a Ha w1).
  destruct (k a w1); [| |done]; (eapply sends_well_trans; [by apply sends_well_same_trace|done]).
Qed.

Lemma attempts_well_formed (n : nat) (urls : list string) :
  urls ≠ [] → Forall (λ u, is_line u = true) urls →
  Forall well_formed_post (attempts n (batch urls)).
Proof.
  intros Hne Hlines. apply Forall_forall. intros ev [-> | ->]%attempts_posts; [|done].
  cbn. split; [done|]. split; [by apply batch_nonempty|]. split; [apply batch_length|].
  unfold batch. destruct (10000 <? _); [by apply Forall_take|done].
Qed.

Lemma retried_well_formed (n : nat) (urls : list string) :
  urls ≠ [] → Forall (λ u, is_line u = true) urls →
  Forall well_formed_post (retried n (batch urls)).
Proof.
  intros Hne Hlines. apply Forall_forall. intros ev [-> | ->]%retried_posts; [|done].
  cbn. split; [done|]. split; [by apply batch_nonempty|]. split; [apply batch_length|].
  unfold batch. destruct (10000 <? _); [by apply Forall_take|done].
Qed.

Lemma sends_submit_and_record fuel urls :
  urls ≠ [] → Forall (λ u, is_line u = true) urls →
  preserves sends_well (submit_and_record fuel urls).
Proof.
  intros Hne Hlines. unfold submit_and_record.
  apply sends_bind; [apply sends_log|intros _].
  apply sends_bind; [|intros success].
  { intros w. destruct (submit_to_indexnow fuel urls w) as [b w'|e w'|] eqn:E; [| |done].
    - apply submit_returns in E
        as [(n & _ & _ & _ & (_ & _ & _ & _ & Ht)) | (_ & _ & (_ & _ & _ & _ & Ht))];
        [| |done].
      + exists (attempts n (batch urls)). split; [done|]. by apply attempts_well_formed.
      + exists (retried fuel (batch urls)). split; [done|]. by apply retried_well_formed.
    - by apply submit_no_exc in E. }
  apply sends_bind; [|intros _; apply sends_ret].
  destruct success.
  - apply sends_bind; [apply sends_log|intros _].
    apply sends_bind; [|intros _; apply sends_ret].
    intros w. destruct (save_submitted_urls_run urls w) as (w' & -> & _ & Ht).
    by apply sends_well_same_trace.
  - apply sends_bind; [apply sends_log|intros _; apply sends_log].
Qed.

Lemma sends_main fuel : preserves sends_well (main fuel).
Proof.
  unfold main.
  do 3 (apply sends_bind; [apply sends_log|intros _]).
  apply sends_bind; [|intros valid].
  { unfold validate_configuration.
    repeat (match goal with |- preserves _ (if ?b then _ else _) => destruct b end);
      try apply sends_ret; (apply sends_bind; [apply sends_log|intros _; apply sends_ret]). }
  destruct (negb valid); [apply sends_bind; [apply sends_log|intros _; apply sends_log]|].
  apply sends_bind; [apply sends_log|intros _].
  apply sends_bind; [|intros all_urls].
  { intros w. pose proof (fetch_quiet fuel SITEMAP_URL w) as Hq.
    destruct (fetch_sitemap_urls fuel SITEMAP_URL w); [| |done]; by apply sends_well_quiet. }
  destruct all_urls as [|u0 us0];
    [apply sends_bind; [apply sends_log|intros _; apply sends_log]|].
  do 2 (apply sends_bind; [apply sends_log|intros _]).
  apply sends_bind; [|intros submitted_urls].
  { intros w. destruct (load_submitted_urls_run w) as (w' & -> & _ & (_ & _ & _ & _ & Ht)).
    apply sends_well_same_trace. by rewrite Ht, app_nil_r. }
  apply sends_bind; [apply sends_log|intros _]. cbv zeta.
  destruct (get_new_urls _ _) as [|u1 us1] eqn:Hnew;
    [apply sends_bind; [apply sends_log|intros _; apply sends_log]|].
  rewrite <- Hnew. clear Hnew.
  do 2 (apply sends_bind; [apply sends_log|intros _]).
  apply sends_bind; [|intros saved].
  { intros w. rewrite save_urls_to_file_run. by apply sends_well_same_trace. }
  destruct (negb saved); [apply sends_bind; [apply sends_log|intros _; apply sends_log]|].
  apply sends_bind; [apply sends_log|intros _].
  apply (sends_bind_run _ _ (Forall (λ u, is_line u = true))).
  { intros w. destruct (load_urls_from_file_total URLS_FILE w)
      as (w' & Hrun & (_ & _ & _ & _ & Ht)).
    eexists _, w'. split; [done|]. split; [by rewrite Ht, app_nil_r|].
    destruct (fs w !! URLS_FILE); [apply stripped_lines_are_lines|constructor]. }
  intros urls_to_submit Hlines.
  destruct urls_to_submit as [|u2 us2] eqn:Hu;
    [apply sends_bind; [apply sends_log|intros _; apply sends_log]|].
  rewrite <- Hu in *.
  apply sends_bind; [apply sends_submit_and_record; [by rewrite Hu|done]|intros success].
  repeat (apply sends_bind; [apply sends_log|intros _]). apply sends_log.
Qed.

End PayloadFacts.

(** ** Properties of what is submitted *)

Section PayloadProperties.

(** X21: the [host] of the payload is the site URL without its scheme: for
    a site URL that is [https://] or [http://] followed by a rest in which
    neither scheme occurs, or such a rest alone, the host is the rest. *)
Theorem payload_host_is_site_without_scheme (site : string) (urls : list string) :
  Py.contains "https://" site = false →
  Py.contains "http://" site = false →
  SITE_URL = "https://" +:+ site ∨ SITE_URL = "http://" +:+ site ∨ SITE_URL = site →
  host (make_payload urls) = site ∧ urlList (make_payload urls) = urls.
Proof.
  intros Hs Hp Hsite. split; [|done]. cbn [host make_payload].
  destruct Hsite as [-> | [-> | ->]].
  - rewrite replace_https, append_nil_l.
    rewrite (replace_absent "https://") by done. by rewrite replace_absent.
  - rewrite (replace_absent "https://") by (by rewrite contains_https_http).
    rewrite replace_http, append_nil_l. by rewrite replace_absent.
  - rewrite (replace_absent "https://") by done. by rewrite replace_absent.
Qed.

(** X22: whatever the sitemap holds and whatever the endpoint does, every
    submission that a run of [main] sends goes to the IndexNow endpoint and
    carries at least one and at most 10,000 URLs, each of them a line: not
    empty, no white space at either end, no line break inside. *)
Theorem main_sends_well_formed_submissions (fuel : nat) (w : world) :
  match main fuel w with
  | Ret _ w' =>
      ∃ evs, trace w' = trace w ++ evs ∧
             Forall (λ ev,
                       match ev with
                       | EPost url json =>
                           url = INDEXNOW_ENDPOINT ∧ urlList json ≠ [] ∧
                           Z.of_nat (length (urlList json)) ≤ 10000 ∧
                           Forall (λ u, is_line u = true) (urlList json)
                       | _ => True
                       end) evs
  | Exc _ _ => False
  | OutOfFuel => True
  end.
Proof.
  pose proof (sends_main fuel w) as Hsends. pose proof (safe_main fuel w) as Hsafe.
  destruct (main fuel w) as [[] w'|e w'|]; [done|by destruct (Hsafe e w')|done].
Qed.

End PayloadProperties.

End Script.

(** ** The claims on the demo site *)

Section Witnesses.

Local Close Scope string_scope.

Local Abbreviation submit := (submit_to_indexnow Demo.API_KEY Demo.SITE_URL).
Local Abbreviation fetch := (fetch_sitemap_urls Demo.ET_fromstring).
Local Abbreviation sent := (attempts Demo.API_KEY Demo.SITE_URL).

Lemma many_urls_long : 10000 < Z.of_nat (length Demo.many_urls).
Proof. unfold Demo.many_urls. rewrite length_fmap, length_seq. lia. Qed.

Lemma no_space_digits (d : Decimal.uint) : no_space (NilEmpty.string_of_uint d) = true.
Proof. induction d; cbn [NilEmpty.string_of_uint no_space]; by rewrite ?IHd. Qed.

Lemma str_of_nat_no_space (k : nat) : no_space (Py.str_of_nat k) = true.
Proof.
  unfold Py.str_of_nat, NilZero.string_of_uint.
  destruct (Nat.to_uint k) eqn:E; [done|..]; rewrite <- E; apply no_space_digits.
Qed.

Lemma to_uint_nonnil (k : nat) : Nat.to_uint k ≠ Decimal.Nil.
Proof.
  rewrite <- (DecimalNat.Unsigned.of_to k) at 1.
  rewrite DecimalNat.Unsigned.to_of. apply DecimalFacts.unorm_nonnil.
Qed.

Lemma str_of_nat_inj : Inj (=) (=) Py.str_of_nat.
Proof.
  intros a b H. unfold Py.str_of_nat in H.
  apply DecimalNat.Unsigned.to_uint_inj.
  apply (f_equal NilZero.uint_of_string) in H.
  rewrite !NilZero.usu in H by apply to_uint_nonnil. by injection H.
Qed.

Lemma page_url_inj : Inj (=) (=) (λ k, "https://example.org/page-" +:+ Py.str_of_nat k).
Proof. intros a b H. apply String.app_inj in H. by apply str_of_nat_inj. Qed.

Lemma many_urls_lines : Forall (λ u, is_line u = true) Demo.many_urls.
Proof.
  unfold Demo.many_urls. apply Forall_fmap, Forall_forall. intros k _. cbn beta.
  apply no_space_is_line; [done|].
  apply no_space_app; [done|apply str_of_nat_no_space].
Qed.

Lemma many_urls_NoDup : NoDup Demo.many_urls.
Proof.
  unfold Demo.many_urls. apply (@NoDup_fmap_2 _ _ _ page_url_inj). apply NoDup_seq.
Qed.

Lemma namespaced_entries_pages (t : string) (urls : list string) :
  Forall (λ u, is_line u = true) urls →
  namespaced_entries (ET.mkElement t None (Demo.page <$> urls)) = Demo.page <$> urls ∧
  entry_url (sm "loc") <$> (Demo.page <$> urls) = urls.
Proof.
  unfold namespaced_entries. cbn [ET.children].
  induction 1 as [|u urls Hu%is_line_spec _ [IH1 IH2]]; [done|].
  destruct Hu as (Ht & Hs & _). rewrite !fmap_cons.
  rewrite filter_cons_True by reflexivity.
  rewrite filter_cons_True.
  - rewrite IH1, IH2. split; [done|]. f_equal.
    unfold entry_url, ET.find, ET.findall. cbn [ET.children Demo.page].
    rewrite filter_cons_True by reflexivity. cbn. done.
  - unfold is_entry, ET.find, ET.findall. cbn [ET.children Demo.page].
    rewrite filter_cons_True by reflexivity. cbn. done.
Qed.

Lemma page_urls_big : page_urls Demo.big = Demo.many_urls.
Proof.
  unfold page_urls, Demo.big.
  destruct (namespaced_entries_pages (sm "urlset") Demo.many_urls many_urls_lines)
    as [-> Hurls].
  rewrite Hurls. by destruct (Demo.page <$> Demo.many_urls).
Qed.

Lemma length_elements (X : gset string) : length (elements X) = size X.
Proof. reflexivity. Qed.

Lemma many_urls_all_new :
  10000 < Z.of_nat (length (get_new_urls elements Demo.many_urls ∅)).
Proof.
  unfold get_new_urls. rewrite difference_empty_L.
  rewrite length_elements.
  rewrite size_list_to_set by apply many_urls_NoDup.
  unfold Demo.many_urls. rewrite length_fmap, length_seq. lia.
Qed.

(** The endpoint answers 429, 429, 200: success after two cooldowns, with
    the same two URLs in each of the three requests. *)
Lemma submit_retries_until_accepted_witness :
  ∃ w' json,
    submit 3%nat Demo.two_urls (Demo.start (Demo.mock [429; 429; 200])) = Ret true w' ∧
    urlList json = ["https://example.org/a"; "https://example.org/b"] ∧
    trace w' = [EPost INDEXNOW_ENDPOINT json; ESleep 300;
                EPost INDEXNOW_ENDPOINT json; ESleep 300;
                EPost INDEXNOW_ENDPOINT json] ∧
    posts w' = 3%nat.
Proof.
  apply (submit_retries_until_accepted Demo.API_KEY Demo.SITE_URL 3 2 Demo.two_urls
           (Demo.start (Demo.mock [429; 429; 200])) (Response 200 EmptyString)).
  - discriminate.
  - intros i Hi. destruct i as [|[|i]]; [eexists; split; reflexivity..|lia].
  - reflexivity.
  - left. reflexivity.
  - lia.
Defined.

(** C2 as stated fails beyond the recursion limit.  With room for 1000
    calls of the client, an endpoint that answers 429 to the first 1000
    requests and 200 from then on: the 1000th retry cannot be called, its
    [RecursionError] is caught, and the client returns failure, although
    the next reply would have been a 200. *)
Lemma submit_gives_up_at_recursion_limit :
  ∃ w', submit 1000%nat Demo.two_urls
          (Demo.start (λ k, Reply (Response (if (k <? 1000)%nat then 429 else 200)
                                            EmptyString)))
        = Ret false w' ∧
        endpoint w' 1000%nat = Reply (Response 200 EmptyString).
Proof.
  destruct (submit_cut_short Demo.API_KEY Demo.SITE_URL 999 Demo.two_urls
              (Demo.start (λ k, Reply (Response (if (k <? 1000)%nat then 429 else 200)
                                                EmptyString))))
    as (w' & Hrun & (_ & He & _)).
  - discriminate.
  - intros i Hi. exists (Response 429 EmptyString).
    cbn [endpoint Demo.start posts Nat.add]. by destruct (Nat.ltb_spec i 1000); [|lia].
  - exists w'. split; [exact Hrun|]. rewrite He. reflexivity.
Defined.

(** The endpoint answers 403: failure after the one request, the files
    untouched. *)
Lemma submit_status_policy_witness :
  ∃ success w',
    submit 1%nat Demo.two_urls (Demo.start (Demo.mock [403])) = Ret success w' ∧
    (success = true ↔ 403 = 200 ∨ 403 = 202) ∧
    trace w' = sent 0%nat Demo.two_urls ∧
    posts w' = 1%nat ∧
    (0%nat = 0%nat → filter (λ ev, is_request ev = true) (sent 0%nat Demo.two_urls)
             = [request Demo.API_KEY Demo.SITE_URL Demo.two_urls]) ∧
    fs w' = ∅ ∧
    (∃ w'', submit_and_record Demo.API_KEY Demo.SITE_URL 1 Demo.two_urls
              (Demo.start (Demo.mock [403])) = Ret success w'' ∧
            trace w'' = sent 0%nat Demo.two_urls ∧
            (success = false → fs w'' = ∅)) ∧
    (∀ fuel0 urls0 w0 w1,
       submit_and_record Demo.API_KEY Demo.SITE_URL fuel0 urls0 w0 = Ret false w1 →
       fs w1 = fs w0).
Proof.
  apply (submit_status_policy Demo.API_KEY Demo.SITE_URL 1 0 Demo.two_urls
           (Demo.start (Demo.mock [403])) (Response 403 EmptyString)).
  - discriminate.
  - intros i Hi. lia.
  - reflexivity.
  - discriminate.
  - lia.
Defined.

(** 10,001 URLs against an endpoint that accepts at once. *)
Lemma submit_truncates_to_first_10000_witness :
  ∃ success w',
    submit 1%nat Demo.many_urls (Demo.start (Demo.mock [])) = Ret success w' ∧
    trace w' = sent 0%nat (take (Z.to_nat 10000) Demo.many_urls) ∧
    head (sent 0%nat (take (Z.to_nat 10000) Demo.many_urls))
      = Some (EPost INDEXNOW_ENDPOINT
                (make_payload Demo.API_KEY Demo.SITE_URL (take (Z.to_nat 10000) Demo.many_urls))) ∧
    (∀ url json, EPost url json ∈ sent 0%nat (take (Z.to_nat 10000) Demo.many_urls) →
                 urlList json = take (Z.to_nat 10000) Demo.many_urls) ∧
    length (take (Z.to_nat 10000) Demo.many_urls) = Z.to_nat 10000 ∧
    Demo.many_urls = take (Z.to_nat 10000) Demo.many_urls ++ drop (Z.to_nat 10000) Demo.many_urls ∧
    drop (Z.to_nat 10000) Demo.many_urls ≠ [].
Proof.
  apply (submit_truncates_to_first_10000 Demo.API_KEY Demo.SITE_URL 1 0 Demo.many_urls
           (Demo.start (Demo.mock []))).
  - exact many_urls_long.
  - intros i Hi. lia.
  - discriminate.
  - lia.
Defined.

(** A whole run on the sitemap of the 10,001 pages, with no ledger file
    yet and an endpoint that accepts at once. *)
Lemma main_records_unsubmitted_tail_witness :
  ∃ w',
    main Demo.API_KEY Demo.SITE_URL Demo.BIG_SITEMAP_URL Demo.ET_fromstring elements 1
      (Demo.start (Demo.mock [])) = Ret tt w' ∧
    trace w' = trace (Demo.start (Demo.mock [])) ++ (EGet Demo.BIG_SITEMAP_URL
                 :: sent 0%nat (take (Z.to_nat 10000)
                                  (get_new_urls elements (page_urls Demo.big)
                                     (ledger (fs (Demo.start (Demo.mock []))))))) ∧
    ledger (fs w')
      = ledger (fs (Demo.start (Demo.mock [])))
        ∪ list_to_set (get_new_urls elements (page_urls Demo.big)
                         (ledger (fs (Demo.start (Demo.mock []))))) ∧
    ∃ u, u ∈ ledger (fs w') ∧ (u ∉ ledger (fs (Demo.start (Demo.mock [])))) ∧
         (u ∉ take (Z.to_nat 10000)
                (get_new_urls elements (page_urls Demo.big)
                   (ledger (fs (Demo.start (Demo.mock [])))))).
Proof.
  apply (main_records_unsubmitted_tail Demo.API_KEY Demo.SITE_URL Demo.BIG_SITEMAP_URL
           Demo.ET_fromstring elements (λ X, reflexivity _) 1 0
           (Demo.start (Demo.mock [])) (Response 200 "<big/>") Demo.big
           (Response 200 EmptyString)).
  - reflexivity.
  - reflexivity.
  - reflexivity.
  - reflexivity.
  - reflexivity.
  - reflexivity.
  - rewrite page_urls_big. exact many_urls_lines.
  - reflexivity.
  - rewrite page_urls_big. exact many_urls_all_new.
  - intros i Hi. lia.
  - reflexivity.
  - left. reflexivity.
  - lia.
Defined.


(** A body that does not parse. *)
Lemma fetch_failure_returns_empty_witness :
  (∃ w', fetch 1%nat "https://example.org/broken.xml" (Demo.start (Demo.mock [])) = Ret [] w' ∧
         trace w' = [EGet "https://example.org/broken.xml"] ∧ fs w' = ∅) ∧
  (∀ fuel0 url0 w0 e w1, fetch fuel0 url0 w0 ≠ Exc e w1).
Proof.
  apply (fetch_failure_returns_empty Demo.ET_fromstring 0
           "https://example.org/broken.xml" (Demo.start (Demo.mock []))).
  right. right. right. exists (Response 200 "<urlset>"). repeat split; reflexivity.
Defined.

(** The document that lists a page between two sub-sitemaps. *)
Lemma fetch_pages_shadow_sub_sitemaps_witness :
  ∃ w', fetch 1%nat "https://example.org/mixed.xml" (Demo.start (Demo.mock []))
          = Ret (page_urls Demo.mixed) w' ∧
        trace w' = [EGet "https://example.org/mixed.xml"] ∧
        ∀ fuel, fetch (S fuel) "https://example.org/mixed.xml" (Demo.start (Demo.mock []))
                = Ret (page_urls Demo.mixed) w'.
Proof.
  apply (fetch_pages_shadow_sub_sitemaps Demo.ET_fromstring
           "https://example.org/mixed.xml" (Demo.start (Demo.mock []))
           (Response 200 "<mixed/>") Demo.mixed); [reflexivity..|].
  vm_compute. discriminate.
Defined.

(** With the enumeration of a set that the library provides. *)
Lemma get_new_urls_is_set_difference_witness :
  (list_to_set (get_new_urls elements ["a"; "b"; "a"; "c"] {["b"]}) : gset string)
    = list_to_set ["a"; "b"; "a"; "c"] ∖ {["b"]} ∧
  (∀ u, u ∈ get_new_urls elements ["a"; "b"; "a"; "c"] {["b"]} → u ∉ ({["b"]} : gset string)) ∧
  (∀ u, u ∈ ["a"; "b"; "a"; "c"] → u ∉ ({["b"]} : gset string) →
        u ∈ get_new_urls elements ["a"; "b"; "a"; "c"] {["b"]}) ∧
  (∀ u, u ∈ get_new_urls elements ["a"; "b"; "a"; "c"] {["b"]} → u ∈ ["a"; "b"; "a"; "c"]) ∧
  NoDup (get_new_urls elements ["a"; "b"; "a"; "c"] {["b"]}).
Proof.
  apply (get_new_urls_is_set_difference elements). intros X. reflexivity.
Defined.

(** A first run: no ledger file yet. *)
Lemma ledger_round_trip_witness :
  (∃ w1 w2,
     save_submitted_urls Demo.two_urls (Demo.start (Demo.mock [])) = Ret true w1 ∧
     load_submitted_urls w1
       = Ret (ledger ∅ ∪ {["https://example.org/a"; "https://example.org/b"]}) w2 ∧
     "https://example.org/a" ∈ ledger ∅ ∪ {["https://example.org/a"; "https://example.org/b"]} ∧
     "https://example.org/b" ∈ ledger ∅ ∪ {["https://example.org/a"; "https://example.org/b"]}) ∧
  (∀ w0, fs w0 !! SUBMITTED_URLS_FILE = None →
         ∃ w0', load_submitted_urls w0 = Ret ∅ w0' ∧ fs w0' = fs w0) ∧
  (∀ w0 before blank rest,
     fs w0 !! SUBMITTED_URLS_FILE = Some (before +:+ (blank +:+ Py.NL) +:+ rest) →
     line_terminated before = true → is_blank blank = true →
     ∃ w0', load_submitted_urls w0
            = Ret (list_to_set (Py.stripped_lines (before +:+ rest))) w0').
Proof.
  apply (ledger_round_trip "https://example.org/a" "https://example.org/b"
           (Demo.start (Demo.mock []))); reflexivity.
Defined.

(** C8 as stated fails: an URL with a space at its end is written as it is
    and read back without the space, so it is not in the set loaded after it
    was appended. *)
Lemma ledger_round_trip_loses_padded_url :
  ∃ w1 w2,
    save_submitted_urls ["https://example.org/a "; "https://example.org/b"]
      (Demo.start (Demo.mock [])) = Ret true w1 ∧
    load_submitted_urls w1
      = Ret (list_to_set ["https://example.org/a"; "https://example.org/b"]) w2 ∧
    "https://example.org/a "
      ∉ (list_to_set ["https://example.org/a"; "https://example.org/b"] : gset string).
Proof.
  eexists _, _. split; [reflexivity|]. split; [reflexivity|].
  rewrite elem_of_list_to_set. intros H.
  repeat (apply elem_of_cons in H as [H|H]; [discriminate H|]).
  by apply elem_of_nil in H.
Defined.

End Witnesses.

(** * Instances of the further properties

    The further properties at the demo site, with the enumeration of a
    set that the library provides. *)

Section MoreWitnesses.

Local Close Scope string_scope.

Local Abbreviation fresh := (Demo.start (Demo.mock [])).
Local Abbreviation PLAIN_URL := "https://example.org/plain.xml"%string.
Local Abbreviation plain_urls := ["https://example.org/p"; "https://example.org/q"]%string.
Local Abbreviation run_main := (main Demo.API_KEY Demo.SITE_URL PLAIN_URL Demo.ET_fromstring elements).

(** The demo world after a run that recorded the two pages of the plain
    sitemap. *)
Local Abbreviation recorded :=
  (set_fs (<[SUBMITTED_URLS_FILE := Py.write_lines plain_urls]> ∅) fresh).

Lemma plain_urls_lines : Forall (λ u, is_line u = true) plain_urls.
Proof. repeat constructor. Qed.

Lemma two_urls_lines : Forall (λ u, is_line u = true) Demo.two_urls.
Proof. repeat constructor. Qed.

Lemma plain_urls_new : get_new_urls elements plain_urls (ledger (fs fresh)) ≠ [].
Proof.
  intros H.
  pose proof (proj1 (get_new_urls_nil_iff elements (λ X, reflexivity _) _ _) H
                "https://example.org/p") as Hp.
  assert ("https://example.org/p" ∈ (∅ : gset string)) as He by (apply Hp; left).
  by apply not_elem_of_empty in He.
Qed.

Lemma plain_urls_few :
  Z.of_nat (length (get_new_urls elements plain_urls (ledger (fs fresh)))) ≤ 10000.
Proof.
  pose proof (get_new_urls_length elements (λ X, reflexivity _) plain_urls (ledger (fs fresh))) as H.
  cbn [length] in H. lia.
Qed.

(** The ledger holds the two pages of the plain sitemap; two more URLs
    are appended. *)
Lemma ledger_append_grows_witness :
  ∃ w1, save_submitted_urls Demo.two_urls recorded = Ret true w1 ∧
        ledger (fs w1) = ledger (fs recorded) ∪ list_to_set Demo.two_urls ∧
        ledger (fs recorded) ⊆ ledger (fs w1) ∧
        "https://example.org/p" ∈ ledger (fs w1) ∧
        "https://example.org/a" ∈ ledger (fs w1) ∧
        fs w1 !! URLS_FILE = fs recorded !! URLS_FILE.
Proof.
  destruct (ledger_append_grows Demo.two_urls recorded)
    as (w1 & Hrun & _ & Hsub & Hl & _ & Hother); [reflexivity|].
  specialize (Hl two_urls_lines).
  exists w1. split; [exact Hrun|]. split; [exact Hl|]. split; [exact Hsub|].
  split; [|split].
  - apply Hsub. unfold ledger. cbn [fs set_fs]. rewrite lookup_insert_eq.
    apply elem_of_list_to_set.
    replace (Py.stripped_lines (Py.write_lines plain_urls)) with plain_urls by reflexivity.
    left.
  - rewrite Hl. apply elem_of_union_r, elem_of_list_to_set. left.
  - apply Hother. discriminate.
Defined.

Lemma ledger_append_twice_witness :
  ∃ w1 w2, save_submitted_urls Demo.two_urls fresh = Ret true w1 ∧
           save_submitted_urls Demo.two_urls w1 = Ret true w2 ∧
           ledger (fs w2) = ledger (fs w1).
Proof.
  destruct (ledger_append_twice Demo.two_urls fresh) as (w1 & w2 & H1 & H2 & _ & Hl & _);
    [exact two_urls_lines|reflexivity|].
  exists w1, w2. split; [exact H1|]. split; [exact H2|exact Hl].
Defined.

(** An endpoint that cannot be reached. *)
Lemma submit_transport_failure_witness :
  ∃ w', submit_to_indexnow Demo.API_KEY Demo.SITE_URL 1 Demo.two_urls
          (Demo.start (λ _, Fails ConnectionError)) = Ret false w' ∧
        posts w' = 1%nat.
Proof.
  destruct (submit_transport_failure Demo.API_KEY Demo.SITE_URL 1 0 Demo.two_urls
              (Demo.start (λ _, Fails ConnectionError)) ConnectionError)
    as (w' & Hrun & _ & _ & Hp & _).
  - discriminate.
  - intros i Hi. lia.
  - reflexivity.
  - lia.
  - exists w'. split; [exact Hrun|exact Hp].
Defined.

(** The endpoint answers 429, then 403. *)
Lemma submit_sends_short_list_whole_witness :
  ∃ success w',
    submit_to_indexnow Demo.API_KEY Demo.SITE_URL 2 Demo.two_urls
      (Demo.start (Demo.mock [429; 403])) = Ret success w' ∧
    trace w' = attempts Demo.API_KEY Demo.SITE_URL 1 Demo.two_urls.
Proof.
  destruct (submit_sends_short_list_whole Demo.API_KEY Demo.SITE_URL 2 1 Demo.two_urls
              (Demo.start (Demo.mock [429; 403])))
    as (success & w' & Hrun & Ht & _).
  - discriminate.
  - cbn. lia.
  - intros i Hi. destruct i as [|i]; [eexists; split; reflexivity|lia].
  - discriminate.
  - lia.
  - exists success, w'. split; [exact Hrun|exact Ht].
Defined.

(** Room for two calls, and 429 both times. *)
Lemma submit_gives_up_when_no_call_is_left_witness :
  ∃ w' json evs,
    submit_to_indexnow Demo.API_KEY Demo.SITE_URL 2 Demo.two_urls
      (Demo.start (Demo.mock [429; 429])) = Ret false w' ∧
    urlList json = ["https://example.org/a"; "https://example.org/b"] ∧
    trace w' = evs ∧
    Forall (λ ev, ev = EPost INDEXNOW_ENDPOINT json ∨ ev = ESleep 300) evs ∧
    fs w' = ∅.
Proof.
  apply (submit_gives_up_when_no_call_is_left Demo.API_KEY Demo.SITE_URL 1 Demo.two_urls
           (Demo.start (Demo.mock [429; 429]))).
  - discriminate.
  - intros i Hi. destruct i as [|[|i]]; [eexists; split; reflexivity..|lia].
Defined.

(** Two URLs, accepted at once: one request, with the two URLs. *)
Lemma submit_and_record_short_list_witness :
  ∃ w' json,
    submit_and_record Demo.API_KEY Demo.SITE_URL 1 Demo.two_urls fresh = Ret true w' ∧
    trace w' = [EPost INDEXNOW_ENDPOINT json] ∧
    urlList json = ["https://example.org/a"; "https://example.org/b"] ∧
    ledger (fs w') = ledger (fs fresh) ∪ list_to_set Demo.two_urls.
Proof.
  destruct (submit_and_record_short_list Demo.API_KEY Demo.SITE_URL 1 0 Demo.two_urls
              fresh (Response 200 EmptyString))
    as (w' & Hrun & Ht & Hc & Hl & _).
  - discriminate.
  - cbn. lia.
  - exact two_urls_lines.
  - reflexivity.
  - intros i Hi. lia.
  - reflexivity.
  - left. reflexivity.
  - lia.
  - exists w', (make_payload Demo.API_KEY Demo.SITE_URL Demo.two_urls).
    split; [exact Hrun|]. split; [exact Ht|]. split; [|exact Hl].
    apply (Hc INDEXNOW_ENDPOINT). left.
Defined.

(** The sitemap index of the demo site: the pages of its two sub-sitemaps,
    one request for the index and one for each sub-sitemap. *)
Lemma fetch_index_concatenates_witness :
  ∃ w', fetch_sitemap_urls Demo.ET_fromstring 2 Demo.SITEMAP_URL fresh
        = Ret (flat_map (λ e, default [] (flat_urls Demo.ET_fromstring fresh
                                            (entry_url (sm "loc") e)))
                        (sitemap_entries Demo.index)) w' ∧
        posts w' = posts fresh.
Proof.
  destruct (fetch_index_concatenates Demo.ET_fromstring 0 Demo.SITEMAP_URL fresh
              (Response 200 "<index/>") Demo.index)
    as (w' & Hrun & _ & _ & Hp).
  - reflexivity.
  - reflexivity.
  - reflexivity.
  - reflexivity.
  - intros e He.
    replace (sitemap_entries Demo.index)
      with [Demo.sub_sitemap "https://example.org/leaf.xml";
            Demo.sub_sitemap "https://example.org/plain.xml"] in He by reflexivity.
    apply elem_of_cons in He as [->|He]; [eexists; reflexivity|].
    apply elem_of_cons in He as [->|He]; [eexists; reflexivity|].
    by apply elem_of_nil in He.
  - exists w'. split; [exact Hrun|exact Hp].
Defined.

(** A parser for a site whose sitemap index lists itself, with room for
    three calls of the fetcher. *)
Lemma fetch_self_referencing_index_ends_witness :
  ∃ w' evs,
    fetch_sitemap_urls
      (λ _, Some (ET.mkElement (sm "sitemapindex") None
                    [sitemap_entry " https://example.org/sitemap.xml "]))
      3 Demo.SITEMAP_URL fresh = Ret [] w' ∧
    trace w' = EGet Demo.SITEMAP_URL :: evs ∧
    Forall (λ ev, ev = EGet Demo.SITEMAP_URL ∨ ev = ESleep 1) evs ∧
    fs w' = ∅ ∧ posts w' = 0%nat.
Proof.
  apply (fetch_self_referencing_index_ends
           (λ _, Some (ET.mkElement (sm "sitemapindex") None
                         [sitemap_entry " https://example.org/sitemap.xml "]))
           2 Demo.SITEMAP_URL " https://example.org/sitemap.xml " fresh
           (Response 200 "<index/>")
           (ET.mkElement (sm "sitemapindex") None
              [sitemap_entry " https://example.org/sitemap.xml "]));
    [reflexivity..|discriminate|reflexivity].
Defined.

(** The leaf sitemap, whose second entry is padded with spaces. *)
Lemma fetched_urls_are_stripped_witness :
  ∃ w', fetch_sitemap_urls Demo.ET_fromstring 1 "https://example.org/leaf.xml" fresh
        = Ret ["https://example.org/"; "https://example.org/a"; "https://example.org/b"] w' ∧
        Forall (λ u, Py.strip u = u)
               ["https://example.org/"; "https://example.org/a"; "https://example.org/b"].
Proof.
  apply (fetched_urls_are_stripped Demo.ET_fromstring 0 "https://example.org/leaf.xml" fresh).
  reflexivity.
Defined.

(** The configuration as the script ships it. *)
Lemma main_stops_on_placeholder_configuration_witness :
  ∃ w', main "your-api-key-here" "https://yourdomain.com"
          "https://yourdomain.com/sitemap.xml" Demo.ET_fromstring elements 1 fresh
        = Ret tt w' ∧
        trace w' = trace fresh ∧ fs w' = fs fresh ∧ posts w' = posts fresh.
Proof.
  apply (main_stops_on_placeholder_configuration "your-api-key-here" "https://yourdomain.com"
           "https://yourdomain.com/sitemap.xml" Demo.ET_fromstring elements 1 fresh).
  left. reflexivity.
Defined.

(** A sitemap that cannot be reached. *)
Lemma main_stops_without_urls_witness :
  ∃ w', main Demo.API_KEY Demo.SITE_URL "https://example.org/down.xml"
          Demo.ET_fromstring elements 1 fresh = Ret tt w' ∧
        trace w' = trace fresh ++ [EGet "https://example.org/down.xml"] ∧
        fs w' = fs fresh ∧ posts w' = posts fresh.
Proof.
  apply (main_stops_without_urls Demo.API_KEY Demo.SITE_URL "https://example.org/down.xml"
           Demo.ET_fromstring elements 0 fresh); reflexivity.
Defined.

(** The two pages of the plain sitemap are in the ledger already. *)
Lemma main_stops_when_nothing_is_new_witness :
  ∃ w', run_main 1%nat recorded = Ret tt w' ∧
        trace w' = trace recorded ++ [EGet PLAIN_URL] ∧
        fs w' = fs recorded ∧ posts w' = posts recorded.
Proof.
  apply (main_stops_when_nothing_is_new Demo.API_KEY Demo.SITE_URL PLAIN_URL
           Demo.ET_fromstring elements (λ X, reflexivity _) 0 recorded plain_urls);
    [reflexivity..|].
  intros u Hu. unfold ledger. cbn [fs set_fs]. rewrite lookup_insert_eq.
  apply elem_of_list_to_set.
  replace (Py.stripped_lines (Py.write_lines plain_urls)) with plain_urls by reflexivity.
  exact Hu.
Defined.

(** A first run on the plain sitemap, accepted at once. *)
Lemma main_success_records_what_was_sent_witness :
  ∃ w' json,
    run_main 1%nat fresh = Ret tt w' ∧
    trace w' = [EGet PLAIN_URL; EPost INDEXNOW_ENDPOINT json] ∧
    (∀ u, u ∈ urlList json ↔ u ∈ plain_urls ∧ u ∉ ledger (fs fresh)) ∧
    ledger (fs w') = ledger (fs fresh) ∪ list_to_set plain_urls ∧
    get_new_urls elements plain_urls (ledger (fs w')) = [].
Proof.
  destruct (main_success_records_what_was_sent Demo.API_KEY Demo.SITE_URL PLAIN_URL
              Demo.ET_fromstring elements (λ X, reflexivity _) 1 0 fresh plain_urls
              (Response 200 EmptyString))
    as (w' & Hrun & Ht & Hc & _ & Hl & Hnew).
  - reflexivity.
  - reflexivity.
  - reflexivity.
  - reflexivity.
  - exact plain_urls_lines.
  - exact plain_urls_new.
  - exact plain_urls_few.
  - reflexivity.
  - intros i Hi. lia.
  - reflexivity.
  - left. reflexivity.
  - lia.
  - exists w', (make_payload Demo.API_KEY Demo.SITE_URL
                  (get_new_urls elements plain_urls (ledger (fs fresh)))).
    split; [exact Hrun|]. split; [exact Ht|]. split; [|split; [exact Hl|exact Hnew]].
    apply (Hc INDEXNOW_ENDPOINT). left.
Defined.

Lemma main_second_run_submits_nothing_witness :
  ∃ w' w'', run_main 1%nat fresh = Ret tt w' ∧
            run_main 1%nat w' = Ret tt w'' ∧
            posts w'' = posts w' ∧ fs w'' = fs w'.
Proof.
  destruct (main_second_run_submits_nothing Demo.API_KEY Demo.SITE_URL PLAIN_URL
              Demo.ET_fromstring elements (λ X, reflexivity _) 1 0 fresh plain_urls
              (Response 200 EmptyString))
    as (w' & w'' & Hrun & Hrun' & _ & Hp & Hf).
  - reflexivity.
  - reflexivity.
  - reflexivity.
  - reflexivity.
  - exact plain_urls_lines.
  - exact plain_urls_new.
  - reflexivity.
  - intros i Hi. lia.
  - reflexivity.
  - left. reflexivity.
  - lia.
  - exists w', w''. split; [exact Hrun|]. split; [exact Hrun'|]. split; [exact Hp|exact Hf].
Defined.

(** The endpoint answers 403. *)
Lemma main_failure_keeps_ledger_witness :
  ∃ w', run_main 1%nat (Demo.start (Demo.mock [403])) = Ret tt w' ∧
        ledger (fs w') = ledger (fs (Demo.start (Demo.mock [403]))).
Proof.
  destruct (main_failure_keeps_ledger Demo.API_KEY Demo.SITE_URL PLAIN_URL
              Demo.ET_fromstring elements (λ X, reflexivity _) 1 0
              (Demo.start (Demo.mock [403])) plain_urls)
    as (w' & Hrun & _ & _ & _ & Hl & _).
  - reflexivity.
  - reflexivity.
  - reflexivity.
  - reflexivity.
  - exact plain_urls_lines.
  - exact plain_urls_new.
  - intros i Hi. lia.
  - discriminate.
  - reflexivity.
  - lia.
  - exists w'. split; [exact Hrun|exact Hl].
Defined.

Lemma get_new_urls_empty_when_recorded_witness :
  (get_new_urls elements ["a"; "b"; "a"; "c"] {["b"]} = [] ↔
   ∀ u, u ∈ ["a"; "b"; "a"; "c"] → u ∈ ({["b"]} : gset string)) ∧
  get_new_urls elements ["a"; "b"; "a"; "c"]
    ({["b"]} ∪ list_to_set (get_new_urls elements ["a"; "b"; "a"; "c"] {["b"]})) = [] ∧
  (length (get_new_urls elements ["a"; "b"; "a"; "c"] {["b"]}) ≤ length ["a"; "b"; "a"; "c"])%nat.
Proof.
  apply (get_new_urls_empty_when_recorded elements). intros X. reflexivity.
Defined.

Lemma payload_host_is_site_without_scheme_witness :
  host (make_payload Demo.API_KEY Demo.SITE_URL Demo.two_urls) = "example.org" ∧
  urlList (make_payload Demo.API_KEY Demo.SITE_URL Demo.two_urls) = Demo.two_urls.
Proof.
  apply (payload_host_is_site_without_scheme Demo.API_KEY Demo.SITE_URL "example.org"
           Demo.two_urls); [reflexivity..|].
  left. reflexivity.
Defined.

End MoreWitnesses.
